(** * PEC compliance filter: a shallow embedding of
      [ai-agent/src/compliance-filter.ts] and [ai-agent/src/audit-logger.ts]

    Strings are Rocq byte strings; [toUpperCase] is the ASCII case mapping
    (location and jurisdiction codes are ISO-3166-like ASCII codes).  The
    JavaScript [Set<string>] of [isLocationAllowed] is a [gset string]; arrays
    are lists.  The process-wide [globalAuditLogger] is threaded explicitly as
    an [option PecAuditLogger].  The [id] and [timestamp] fields of an audit
    entry come from [randomUUID()] and [new Date()] and are left out of
    [AuditLogEntry]; [console.log] output is not part of the model. *)

From stdpp Require Import base gmap strings list pretty.
From Stdlib Require Import Ascii NArith ZArith Lia Sorted.

(** ** JavaScript string and array primitives used by the source *)

Module Js.

(** [c.toUpperCase()] on one ASCII character. *)
Definition upper_ascii (c : ascii) : ascii :=
  let n := N_of_ascii c in
  if ((97 <=? n) && (n <=? 122))%N then ascii_of_N (n - 32) else c.

(** [s.toUpperCase()]. *)
Fixpoint toUpperCase (s : string) : string :=
  match s with
  | EmptyString => EmptyString
  | String c s' => String (upper_ascii c) (toUpperCase s')
  end.

(** [xs.join(sep)]. *)
Fixpoint join (sep : string) (xs : list string) : string :=
  match xs with
  | [] => ""
  | [x] => x
  | x :: xs' => x +:+ sep +:+ join sep xs'
  end.

(** [xs.includes(x)] on an array of strings. *)
Definition includes (xs : list string) (x : string) : bool :=
  existsb (String.eqb x) xs.

(** [xs.some(p)]. *)
Definition some {A} (p : A -> bool) (xs : list A) : bool := existsb p xs.

(** [s.startsWith(p)], used by [str_includes]. *)
Fixpoint startsWith (s p : string) : bool :=
  match p, s with
  | EmptyString, _ => true
  | String a p', String b s' => Ascii.eqb a b && startsWith s' p'
  | String _ _, EmptyString => false
  end.

(** [s.includes(p)] on strings. *)
Fixpoint str_includes (s p : string) : bool :=
  startsWith s p ||
  match s with
  | EmptyString => false
  | String _ s' => str_includes s' p
  end.

(** Truthiness of a string: only the empty string is falsy. *)
Definition truthy (s : string) : bool :=
  match s with EmptyString => false | String _ _ => true end.

(** [`${b}`] for a boolean. *)
Definition of_bool (b : bool) : string := if b then "true" else "false".

(** [s || dflt] for a string. *)
Definition or_else (s dflt : string) : string := if truthy s then s else dflt.

End Js.

(** ** Data model ([pec-types.ts]) *)

Inductive AiActClassification :=
  minimal | limited | high | unacceptable | gpai | gpai_systemic.

Inductive ControllerProcessorStatus := controller | processor | joint_controller.

Inductive UnknownHandling := strict | permissive | escalate.

Inductive LegacyPolicy := allow | warn | block.

Inductive AuditEventType :=
  | tool_evaluation
  | tool_approved
  | tool_rejected
  | tool_invocation
  | tool_invocation_blocked
  | compliance_warning
  | agent_initialisation.

Global Instance AiActClassification_eq_dec : EqDecision AiActClassification.
Proof. solve_decision. Defined.
Global Instance UnknownHandling_eq_dec : EqDecision UnknownHandling.
Proof. solve_decision. Defined.
Global Instance LegacyPolicy_eq_dec : EqDecision LegacyPolicy.
Proof. solve_decision. Defined.
Global Instance AuditEventType_eq_dec : EqDecision AuditEventType.
Proof. solve_decision. Defined.

(** The literal a classification is written as in a template string. *)
Definition classification_string (c : AiActClassification) : string :=
  match c with
  | minimal => "minimal"
  | limited => "limited"
  | high => "high"
  | unacceptable => "unacceptable"
  | gpai => "gpai"
  | gpai_systemic => "gpai_systemic"
  end.

Module AiAct.
Record t := mk {
  classification : AiActClassification;
  conformity_assessed : bool;
  notified_body : option string
}.
End AiAct.

Module Gdpr.
Record t := mk {
  controller_processor_status : ControllerProcessorStatus;
  transfer_mechanisms : list string;
  dpa_registered : bool;
  special_categories_processed : bool
}.
End Gdpr.

(** [PecComplianceMetadata]; [metadata_currency] is never read by the
    filter or the logger and is omitted. *)
Module Pec.
Record t := mk {
  pec_version : string;
  processing_locations : list string;
  data_retention_days : Z;
  certifications : list string;
  ai_act_status : AiAct.t;
  gdpr : Gdpr.t;
  suitable_for : list string;
  unsuitable_for : list string;
  supply_chain_disclosure : bool
}.
End Pec.

Module Residency.
Record t := mk { required : list string; prohibited : list string }.
End Residency.

(** The filter tests [context.gdpr_requirements], its
    [transfer_mechanisms_required] and its [special_categories_allowed] for
    presence, so all three are optional here. *)
Module GdprReq.
Record t := mk {
  transfer_mechanisms_required : option (list string);
  special_categories_allowed : option bool
}.
End GdprReq.

Module Risk.
Record t := mk {
  maximum_permitted : AiActClassification;
  human_escalation : option AiActClassification
}.
End Risk.

Module Sectors.
Record t := mk { prohibited : list string }.
End Sectors.

Module Certs.
Record t := mk { required_any : list string }.
End Certs.

Module Unknown.
Record t := mk {
  processing_locations : UnknownHandling;
  certifications : UnknownHandling;
  ai_act_status : UnknownHandling
}.
End Unknown.

Module Legacy.
Record t := mk { policy : LegacyPolicy; log_invocations : bool }.
End Legacy.

(** [DeploymentContext]. *)
Module Ctx.
Record t := mk {
  governing_law : string;
  jurisdiction : string;
  data_residency : Residency.t;
  gdpr_requirements : option GdprReq.t;
  risk_classification : Risk.t;
  sectors : Sectors.t;
  certifications : Certs.t;
  unknown_handling : Unknown.t;
  legacy_servers : Legacy.t
}.
End Ctx.

Record ComplianceCheckResult := mkResult {
  compliant : bool;
  reasons : list string;
  warnings : list string
}.

(** ** Jurisdiction resolver ([compliance-filter.ts], lines 12-55) *)

Definition EU_COUNTRIES : list string :=
  ["DE"; "FR"; "IE"; "NL"; "BE"; "AT"; "ES"; "IT"; "PT"; "PL"; "SE"; "DK";
   "FI"; "CZ"; "RO"; "HU"; "BG"; "GR"; "SK"; "HR"; "SI"; "LT"; "LV"; "EE";
   "CY"; "LU"; "MT"].
Definition EEA_COUNTRIES : list string := EU_COUNTRIES ++ ["NO"; "IS"; "LI"].
Definition ADEQUACY_COUNTRIES : list string :=
  ["GB"; "CH"; "JP"; "KR"; "CA"; "NZ"; "IL"; "AR"; "UY"].

Definition RISK_LEVELS (c : AiActClassification) : Z :=
  match c with
  | minimal => 1
  | limited => 2
  | gpai => 3
  | high => 4
  | gpai_systemic => 5
  | unacceptable => 6
  end.

Definition expandJurisdiction (code : string) : list string :=
  let upperCode := Js.toUpperCase code in
  if String.eqb upperCode "EU" then EU_COUNTRIES
  else if String.eqb upperCode "EEA" then EEA_COUNTRIES
  else if String.eqb upperCode "ADEQUACY" then EEA_COUNTRIES ++ ADEQUACY_COUNTRIES
  else [upperCode].

(** [codes.forEach(c => expandJurisdiction(c).forEach(loc => set.add(loc)))]
    starting from the set [acc]. *)
Definition addExpansions (codes : list string) (acc : gset string) : gset string :=
  fold_left
    (fun set code => fold_left (fun s loc => s ∪ {[loc]}) (expandJurisdiction code) set)
    codes acc.

Definition isLocationAllowed (location : string) (required prohibited : list string) : bool :=
  let allowedLocations := addExpansions required ∅ in
  let blockedLocations := addExpansions prohibited ∅ in
  let upperLocation := Js.toUpperCase location in
  if bool_decide (upperLocation ∈ blockedLocations) then false
  else bool_decide (upperLocation ∈ allowedLocations).

(** ** Helper checks ([compliance-filter.ts], lines 57-102) *)

(** The [{ valid: boolean; reason?: string }] object the two helpers return. *)
Record CheckOutcome := mkOutcome { valid : bool; reason : option string }.

Definition checkTransferMechanisms
    (toolMechanisms : list string) (requiredMechanisms : option (list string))
    : CheckOutcome :=
  match requiredMechanisms with
  | None => mkOutcome true None
  | Some requiredMechanisms =>
    if (length requiredMechanisms =? 0)%nat then mkOutcome true None
    else if (length toolMechanisms =? 0)%nat then
      mkOutcome false
        (Some ("Tool declares no GDPR transfer mechanisms but context requires one of: "
               +:+ Js.join ", " requiredMechanisms))
    else
      let hasRequiredMechanism :=
        Js.some (fun mechanism => Js.includes requiredMechanisms mechanism) toolMechanisms in
      if negb hasRequiredMechanism then
        mkOutcome false
          (Some ("Tool transfer mechanisms [" +:+ Js.join ", " toolMechanisms
                 +:+ "] do not include any required mechanism: "
                 +:+ Js.join ", " requiredMechanisms))
      else mkOutcome true None
  end.

Definition checkSpecialCategories
    (toolProcessesSpecialCategories : bool)
    (contextAllowsSpecialCategories : option bool) : CheckOutcome :=
  match contextAllowsSpecialCategories with
  | None => mkOutcome true None
  | Some contextAllowsSpecialCategories =>
    if toolProcessesSpecialCategories && negb contextAllowsSpecialCategories then
      mkOutcome false
        (Some "Tool processes GDPR special categories (Art 9) but deployment context prohibits this")
    else mkOutcome true None
  end.

(** [!check.valid && check.reason]: the outcome is invalid and carries a
    non-empty reason. *)
Definition failedWith (check : CheckOutcome) : option string :=
  if negb (valid check) then
    match reason check with
    | Some r => if Js.truthy r then Some r else None
    | None => None
    end
  else None.

(** ** The mutable [result] object of [checkCompliance] *)

(** [result.compliant = false; result.reasons.push(msg)]. *)
Definition pushReason (msg : string) (result : ComplianceCheckResult) : ComplianceCheckResult :=
  {| compliant := false;
     reasons := reasons result ++ [msg];
     warnings := warnings result |}.

(** [result.warnings.push(msg)]. *)
Definition pushWarning (msg : string) (result : ComplianceCheckResult) : ComplianceCheckResult :=
  {| compliant := compliant result;
     reasons := reasons result;
     warnings := warnings result ++ [msg] |}.

Definition freshResult : ComplianceCheckResult :=
  {| compliant := true; reasons := []; warnings := [] |}.

(** ** The battery of checks, in source order (lines 133-205) *)

(** Lines 133-138. *)
Definition locationCheck (compliance : Pec.t) (context : Ctx.t)
    (result : ComplianceCheckResult) : ComplianceCheckResult :=
  fold_left
    (fun result location =>
       if negb (isLocationAllowed location
                  (Residency.required (Ctx.data_residency context))
                  (Residency.prohibited (Ctx.data_residency context)))
       then pushReason ("Processing location '" +:+ location
                        +:+ "' is not allowed under deployment context") result
       else result)
    (Pec.processing_locations compliance) result.

Definition riskMessage (tool maximum : AiActClassification) : string :=
  "Tool risk classification '" +:+ classification_string tool
  +:+ "' exceeds maximum permitted '" +:+ classification_string maximum +:+ "'".

(** Lines 140-148. *)
Definition riskCheck (compliance : Pec.t) (context : Ctx.t)
    (result : ComplianceCheckResult) : ComplianceCheckResult :=
  let maxPermittedLevel := RISK_LEVELS (Risk.maximum_permitted (Ctx.risk_classification context)) in
  let toolRiskLevel := RISK_LEVELS (AiAct.classification (Pec.ai_act_status compliance)) in
  if (toolRiskLevel >? maxPermittedLevel)%Z then
    pushReason (riskMessage (AiAct.classification (Pec.ai_act_status compliance))
                            (Risk.maximum_permitted (Ctx.risk_classification context)))
               result
  else result.

(** Lines 150-157. *)
Definition conformityCheck (compliance : Pec.t) (context : Ctx.t)
    (result : ComplianceCheckResult) : ComplianceCheckResult :=
  if negb (AiAct.conformity_assessed (Pec.ai_act_status compliance)) then
    if bool_decide (Unknown.ai_act_status (Ctx.unknown_handling context) = strict) then
      pushReason "Tool has not undergone conformity assessment" result
    else pushWarning "Tool has not undergone conformity assessment" result
  else result.

(** Lines 160-167, inside [if (context.gdpr_requirements)]. *)
Definition transferCheck (compliance : Pec.t) (gdpr_requirements : GdprReq.t)
    (result : ComplianceCheckResult) : ComplianceCheckResult :=
  match failedWith (checkTransferMechanisms
                      (Gdpr.transfer_mechanisms (Pec.gdpr compliance))
                      (GdprReq.transfer_mechanisms_required gdpr_requirements)) with
  | Some r => pushReason r result
  | None => result
  end.

(** Lines 169-176, inside [if (context.gdpr_requirements)]. *)
Definition specialCatCheck (compliance : Pec.t) (gdpr_requirements : GdprReq.t)
    (result : ComplianceCheckResult) : ComplianceCheckResult :=
  match failedWith (checkSpecialCategories
                      (Gdpr.special_categories_processed (Pec.gdpr compliance))
                      (GdprReq.special_categories_allowed gdpr_requirements)) with
  | Some r => pushReason r result
  | None => result
  end.

(** Lines 159-177. *)
Definition gdprCheck (compliance : Pec.t) (context : Ctx.t)
    (result : ComplianceCheckResult) : ComplianceCheckResult :=
  match Ctx.gdpr_requirements context with
  | Some gdpr_requirements =>
    let result := transferCheck compliance gdpr_requirements result in
    specialCatCheck compliance gdpr_requirements result
  | None => result
  end.

(** Lines 179-184. *)
Definition sectorCheck (compliance : Pec.t) (context : Ctx.t)
    (result : ComplianceCheckResult) : ComplianceCheckResult :=
  fold_left
    (fun result prohibited =>
       if Js.includes (Pec.suitable_for compliance) prohibited
       then pushReason ("Tool is suitable for prohibited sector: '" +:+ prohibited +:+ "'") result
       else result)
    (Sectors.prohibited (Ctx.sectors context)) result.

(** Lines 186-201. *)
Definition certificationCheck (compliance : Pec.t) (context : Ctx.t)
    (result : ComplianceCheckResult) : ComplianceCheckResult :=
  let required_any := Certs.required_any (Ctx.certifications context) in
  let hasCertification :=
    Js.some (fun cert => Js.includes (Pec.certifications compliance) cert) required_any in
  if negb hasCertification && (0 <? length required_any)%nat then
    if bool_decide (Unknown.certifications (Ctx.unknown_handling context) = strict) then
      pushReason ("Tool lacks required certifications. Required one of: "
                  +:+ Js.join ", " required_any) result
    else
      pushWarning ("Tool lacks preferred certifications: " +:+ Js.join ", " required_any) result
  else result.

(** Lines 203-205. *)
Definition supplyChainCheck (compliance : Pec.t)
    (result : ComplianceCheckResult) : ComplianceCheckResult :=
  if negb (Pec.supply_chain_disclosure compliance)
  then pushWarning "Tool has not disclosed supply chain dependencies" result
  else result.

(** Lines 133-205 as one pass over the [result] object. *)
Definition runChecks (compliance : Pec.t) (context : Ctx.t)
    (result : ComplianceCheckResult) : ComplianceCheckResult :=
  let result := locationCheck compliance context result in
  let result := riskCheck compliance context result in
  let result := conformityCheck compliance context result in
  let result := gdprCheck compliance context result in
  let result := sectorCheck compliance context result in
  let result := certificationCheck compliance context result in
  supplyChainCheck compliance result.

(** ** Audit recorder ([audit-logger.ts]) *)

Module Entry.
Record summary := mkSummary {
  governing_law : string;
  jurisdiction : string;
  max_risk : AiActClassification
}.
Record t := mk {
  event_type : AuditEventType;
  tool_name : option string;
  deployment_context : summary;
  compliance_metadata : option Pec.t;
  evaluation_result : option ComplianceCheckResult;
  reasoning_trace : list string;
  session_id : string
}.
End Entry.

Module AuditLog.
Record t := mk {
  entries : list Entry.t;
  session_id : string;
  started_at : string;
  deployment_context_hash : string
}.
End AuditLog.

(** The two private fields of [class PecAuditLogger]. *)
Record PecAuditLogger := mkLogger { log : AuditLog.t; context : Ctx.t }.

(** [this.log.entries.push(entry)]. *)
Definition pushEntry (this : PecAuditLogger) (entry : Entry.t) : PecAuditLogger :=
  {| log := {| AuditLog.entries := AuditLog.entries (log this) ++ [entry];
               AuditLog.session_id := AuditLog.session_id (log this);
               AuditLog.started_at := AuditLog.started_at (log this);
               AuditLog.deployment_context_hash :=
                 AuditLog.deployment_context_hash (log this) |};
     context := context this |}.

Definition createEntry (this : PecAuditLogger)
    (eventType : AuditEventType) (toolName : option string)
    (compliance : option Pec.t) (evaluationResult : option ComplianceCheckResult)
    (reasoningTrace : list string) : Entry.t :=
  {| Entry.event_type := eventType;
     Entry.tool_name := toolName;
     Entry.deployment_context :=
       {| Entry.governing_law := Ctx.governing_law (context this);
          Entry.jurisdiction := Ctx.jurisdiction (context this);
          Entry.max_risk := Risk.maximum_permitted (Ctx.risk_classification (context this)) |};
     Entry.compliance_metadata := compliance;
     Entry.evaluation_result := evaluationResult;
     Entry.reasoning_trace := reasoningTrace;
     Entry.session_id := AuditLog.session_id (log this) |}.

(** One section verdict of the trace: the reasons attributed to a category by
    substring, joined after [FAIL: ], or the fallback line. *)
Definition verdict (reasons : list string) (needle fallback : string) : string :=
  let violations := filter (fun r => Is_true (Js.str_includes r needle)) reasons in
  if (0 <? length violations)%nat then "FAIL: " +:+ Js.join "; " violations
  else fallback.

Definition buildEvaluationTrace (this : PecAuditLogger)
    (toolName : string) (compliance : Pec.t) (result : ComplianceCheckResult)
    : list string :=
  let ctx := context this in
  let status := Pec.ai_act_status compliance in
  [ "Evaluating tool: " +:+ toolName;
    "PEC version: " +:+ Pec.pec_version compliance;
    "";
    "--- Location Check ---";
    "Tool processing locations: " +:+ Js.join ", " (Pec.processing_locations compliance);
    "Context required locations: " +:+ Js.join ", " (Residency.required (Ctx.data_residency ctx));
    "Context prohibited locations: "
      +:+ Js.join ", " (Residency.prohibited (Ctx.data_residency ctx));
    verdict (reasons result) "Processing location" "PASS: All processing locations acceptable";
    "";
    "--- Risk Classification Check ---";
    "Tool classification: " +:+ classification_string (AiAct.classification status);
    "Maximum permitted: "
      +:+ classification_string (Risk.maximum_permitted (Ctx.risk_classification ctx));
    verdict (reasons result) "risk classification" "PASS: Risk classification within limits";
    "";
    "--- Conformity Assessment Check ---";
    "Conformity assessed: " +:+ Js.of_bool (AiAct.conformity_assessed status);
    "Notified body: " +:+ Js.or_else (default "" (AiAct.notified_body status)) "None";
    verdict (reasons result) "conformity assessment"
      (if negb (AiAct.conformity_assessed status)
       then "WARNING: Tool has not undergone conformity assessment"
       else "PASS: Conformity assessment complete");
    "";
    "--- GDPR Transfer Mechanism Check ---";
    "Tool transfer mechanisms: "
      +:+ Js.or_else (Js.join ", " (Gdpr.transfer_mechanisms (Pec.gdpr compliance))) "None";
    "Context required mechanisms: "
      +:+ Js.or_else
            (default ""
               (Js.join ", " <$>
                  (Ctx.gdpr_requirements ctx ≫= GdprReq.transfer_mechanisms_required)))
            "None specified";
    verdict (reasons result) "transfer mechanism" "PASS: Transfer mechanisms acceptable";
    "";
    "--- Special Categories Check ---";
    "Tool processes special categories: "
      +:+ Js.of_bool (Gdpr.special_categories_processed (Pec.gdpr compliance));
    "Context allows special categories: "
      +:+ default "Not specified"
            (Js.of_bool <$> (Ctx.gdpr_requirements ctx ≫= GdprReq.special_categories_allowed));
    verdict (reasons result) "special categories" "PASS: Special categories handling acceptable";
    "";
    "--- Certification Check ---";
    "Tool certifications: " +:+ Js.or_else (Js.join ", " (Pec.certifications compliance)) "None";
    "Context required (any): " +:+ Js.join ", " (Certs.required_any (Ctx.certifications ctx));
    verdict (reasons result) "certification" "PASS: Certification requirements met";
    "";
    "--- Sector Check ---";
    "Tool suitable for: " +:+ Js.join ", " (Pec.suitable_for compliance);
    "Context prohibited sectors: " +:+ Js.join ", " (Sectors.prohibited (Ctx.sectors ctx));
    verdict (reasons result) "prohibited sector" "PASS: No prohibited sector conflicts";
    "";
    "--- Final Decision ---";
    "Compliant: " +:+ Js.of_bool (compliant result);
    "Rejection reasons: "
      +:+ (if (0 <? length (reasons result))%nat then Js.join "; " (reasons result) else "None");
    "Warnings: "
      +:+ (if (0 <? length (warnings result))%nat then Js.join "; " (warnings result) else "None")
  ].

Definition logToolEvaluation (this : PecAuditLogger)
    (toolName : string) (compliance : Pec.t) (result : ComplianceCheckResult)
    : PecAuditLogger :=
  let reasoningTrace := buildEvaluationTrace this toolName compliance result in
  let eventType := if compliant result then tool_approved else tool_rejected in
  pushEntry this
    (createEntry this eventType (Some toolName) (Some compliance) (Some result) reasoningTrace).

Definition logComplianceWarning (this : PecAuditLogger)
    (toolName : string) (compliance : Pec.t) (warnings : list string) : PecAuditLogger :=
  pushEntry this
    (createEntry this compliance_warning (Some toolName) (Some compliance)
       (Some {| compliant := true; reasons := []; warnings := warnings |})
       (("Compliance warnings for tool: " +:+ toolName)
          :: map (fun w => "Warning: " +:+ w) warnings)).

(** ** [checkCompliance] and [filterCompliantTools] *)

(** The value of [getAuditLogger()] before the call is an argument, the value
    after it is the second component of the result. *)
Definition checkCompliance (toolName : string) (compliance : option Pec.t)
    (context : Ctx.t) (globalAuditLogger : option PecAuditLogger)
    : ComplianceCheckResult * option PecAuditLogger :=
  let result := freshResult in
  match compliance with
  | None =>
    match Legacy.policy (Ctx.legacy_servers context) with
    | block =>
      (pushReason "Tool lacks PEC compliance metadata and legacy servers are blocked" result,
       globalAuditLogger)
    | warn =>
      (pushWarning "Tool lacks PEC compliance metadata (legacy server)" result,
       globalAuditLogger)
    | allow => (result, globalAuditLogger)
    end
  | Some compliance =>
    if negb (Js.truthy (Pec.pec_version compliance)) then
      match Legacy.policy (Ctx.legacy_servers context) with
      | block => (pushReason "Tool does not declare PEC version" result, globalAuditLogger)
      | _ => (result, globalAuditLogger)
      end
    else
      let result := runChecks compliance context result in
      match globalAuditLogger with
      | Some auditLogger =>
        let auditLogger := logToolEvaluation auditLogger toolName compliance result in
        if compliant result && (0 <? length (warnings result))%nat then
          (result, Some (logComplianceWarning auditLogger toolName compliance (warnings result)))
        else (result, Some auditLogger)
      | None => (result, None)
      end
  end.

(** [T extends { name: string; compliance?: PecComplianceMetadata }]. *)
Class ToolLike (T : Type) := {
  name : T -> string;
  compliance : T -> option Pec.t
}.

Module Rejected.
Record t (T : Type) := mk { tool : T; result : ComplianceCheckResult }.
Arguments mk {T}.
Arguments tool {T}.
Arguments result {T}.
End Rejected.

Module Filtered.
Record t (T : Type) := mk { compliant : list T; rejected : list (Rejected.t T) }.
Arguments mk {T}.
Arguments compliant {T}.
Arguments rejected {T}.
End Filtered.

(** One iteration of the [for (const tool of tools)] loop. *)
Definition filterStep `{ToolLike T} (context : Ctx.t)
    (acc : Filtered.t T * option PecAuditLogger) (tool : T)
    : Filtered.t T * option PecAuditLogger :=
  let '(out, globalAuditLogger) := acc in
  let '(result, globalAuditLogger) :=
    checkCompliance (name tool) (compliance tool) context globalAuditLogger in
  if compliant result then
    (Filtered.mk (Filtered.compliant out ++ [tool]) (Filtered.rejected out), globalAuditLogger)
  else
    (Filtered.mk (Filtered.compliant out)
                 (Filtered.rejected out ++ [Rejected.mk tool result]),
     globalAuditLogger).

Definition filterCompliantTools `{ToolLike T} (tools : list T) (context : Ctx.t)
    (globalAuditLogger : option PecAuditLogger)
    : Filtered.t T * option PecAuditLogger :=
  fold_left (filterStep context) tools (Filtered.mk [] [], globalAuditLogger).

(** ** Fixtures from the repository *)

(** [euDeploymentContext] of [deployment-context.ts]. *)
Definition euDeploymentContext : Ctx.t :=
  {| Ctx.governing_law := "EU";
     Ctx.jurisdiction := "DE";
     Ctx.data_residency := Residency.mk ["EU"; "EEA"; "ADEQUACY"] ["US"; "CN"; "RU"];
     Ctx.gdpr_requirements :=
       Some (GdprReq.mk (Some ["ADEQUACY"; "SCCS_2021"; "BCR"]) (Some false));
     Ctx.risk_classification := Risk.mk limited (Some limited);
     Ctx.sectors :=
       Sectors.mk ["healthcare_diagnosis"; "legal_advice"; "credit_scoring";
                   "biometric_identification"];
     Ctx.certifications := Certs.mk ["ISO_27001"; "SOC2_TYPE_II"];
     Ctx.unknown_handling := Unknown.mk strict permissive strict;
     Ctx.legacy_servers := Legacy.mk block true |}.

(** [usHealthcareContext] of [deployment-context.ts]. *)
Definition usHealthcareContext : Ctx.t :=
  {| Ctx.governing_law := "US";
     Ctx.jurisdiction := "US-CA";
     Ctx.data_residency := Residency.mk ["US"] ["CN"; "RU"; "IR"; "KP"];
     Ctx.gdpr_requirements := Some (GdprReq.mk (Some []) (Some true));
     Ctx.risk_classification := Risk.mk high (Some limited);
     Ctx.sectors :=
       Sectors.mk ["biometric_identification"; "emotion_recognition"; "social_scoring"];
     Ctx.certifications := Certs.mk ["HIPAA_COMPLIANT"; "SOC2_TYPE_II"; "HITRUST"];
     Ctx.unknown_handling := Unknown.mk strict strict permissive;
     Ctx.legacy_servers := Legacy.mk warn true |}.

(** [complianceMetadataEuCompliant2] of [mcp-server/src/tools.ts]. *)
Definition complianceMetadataEuCompliant2 : Pec.t :=
  {| Pec.pec_version := "1.0";
     Pec.processing_locations := ["NL"];
     Pec.data_retention_days := 30;
     Pec.certifications := ["ISO_27001"];
     Pec.ai_act_status := AiAct.mk minimal true None;
     Pec.gdpr := Gdpr.mk processor ["ADEQUACY"] true false;
     Pec.suitable_for := ["text_processing"; "formatting"; "spell_check"];
     Pec.unsuitable_for := ["biometric_identification"; "emotion_recognition"];
     Pec.supply_chain_disclosure := true |}.

(** [complianceMetadataNonCompliant] of [mcp-server/src/tools.ts]. *)
Definition complianceMetadataNonCompliant : Pec.t :=
  {| Pec.pec_version := "1.0";
     Pec.processing_locations := ["US"; "CN"];
     Pec.data_retention_days := 365;
     Pec.certifications := [];
     Pec.ai_act_status := AiAct.mk high false None;
     Pec.gdpr := Gdpr.mk controller [] false false;
     Pec.suitable_for := ["internal_testing"];
     Pec.unsuitable_for := ["eu_personal_data"; "gdpr_scope"; "production"];
     Pec.supply_chain_disclosure := false |}.

(** A logger as [initAuditLogger(context)] leaves it: no entries yet. *)
Definition initAuditLogger (context : Ctx.t) (sessionId startedAt hash : string)
    : PecAuditLogger :=
  {| log := AuditLog.mk [] sessionId startedAt hash; context := context |}.

(** The [{ name, compliance }] objects the demo passes to the filter. *)
Record DemoTool := mkTool { demo_name : string; demo_compliance : option Pec.t }.

Global Instance DemoTool_ToolLike : ToolLike DemoTool :=
  {| name := demo_name; compliance := demo_compliance |}.

(** ** The other methods of [PecAuditLogger] ([audit-logger.ts]) *)

(** Counts are array lengths; [`${n}`] prints them in decimal. *)
Definition logAgentInitialisation (this : PecAuditLogger)
    (compliantCount rejectedCount : nat) : PecAuditLogger :=
  pushEntry this
    (createEntry this agent_initialisation None None None
       [ "Agent initialised with deployment context: "
           +:+ Ctx.governing_law (context this) +:+ "/" +:+ Ctx.jurisdiction (context this);
         "Maximum permitted risk: "
           +:+ classification_string
                 (Risk.maximum_permitted (Ctx.risk_classification (context this)));
         "Data residency required: "
           +:+ Js.join ", " (Residency.required (Ctx.data_residency (context this)));
         "Data residency prohibited: "
           +:+ Js.join ", " (Residency.prohibited (Ctx.data_residency (context this)));
         "Tools evaluated: " +:+ pretty (compliantCount + rejectedCount);
         "Tools approved: " +:+ pretty compliantCount;
         "Tools rejected: " +:+ pretty rejectedCount ]).

Definition logToolInvocation (this : PecAuditLogger)
    (toolName : string) (compliance : Pec.t) (inputSummary : string) : PecAuditLogger :=
  pushEntry this
    (createEntry this tool_invocation (Some toolName) (Some compliance)
       (Some {| compliant := true; reasons := []; warnings := [] |})
       [ "Tool invoked: " +:+ toolName;
         "Input summary: " +:+ inputSummary;
         "Processing locations: " +:+ Js.join ", " (Pec.processing_locations compliance);
         "Risk classification: "
           +:+ classification_string (AiAct.classification (Pec.ai_act_status compliance)) ]).

Definition logToolInvocationBlocked (this : PecAuditLogger)
    (toolName : string) (reason : string) : PecAuditLogger :=
  pushEntry this
    (createEntry this tool_invocation_blocked (Some toolName) None
       (Some {| compliant := false; reasons := [reason]; warnings := [] |})
       [ "Tool invocation blocked: " +:+ toolName;
         "Reason: " +:+ reason;
         "Action: Request denied to maintain compliance" ]).

Definition getEntries (this : PecAuditLogger) : list Entry.t :=
  AuditLog.entries (log this).

Definition getEntriesByType (this : PecAuditLogger) (eventType : AuditEventType)
    : list Entry.t :=
  List.filter (fun e => bool_decide (Entry.event_type e = eventType))
              (AuditLog.entries (log this)).

(** [e.tool_name === toolName]: a [null] name equals no string. *)
Definition getEntriesByTool (this : PecAuditLogger) (toolName : string) : list Entry.t :=
  List.filter
    (fun e => match Entry.tool_name e with
              | Some n => String.eqb n toolName
              | None => false
              end)
    (AuditLog.entries (log this)).

(** ** Discovered tools ([mcp-client.ts]) *)

(** [DiscoveredTool]; the [execute] handle is left out. *)
Module Discovered.
Record t := mk { name : string; description : string; compliance : option Pec.t }.
End Discovered.

(** The objects [formatDiscoveredToolsForFiltering] builds:
    [{ name, compliance, tool: { name } }]. *)
Module Formatted.
Record t := mk { name : string; compliance : Pec.t; tool_name : string }.
End Formatted.

Global Instance Formatted_ToolLike : ToolLike Formatted.t :=
  {| name := Formatted.name; compliance := fun t => Some (Formatted.compliance t) |}.

(** [tools.filter(t => t.compliance !== null).map(t => ...)]; the filter and
    the map are one pass here, since the map reads the metadata the filter
    found. *)
Definition formatDiscoveredToolsForFiltering (tools : list Discovered.t)
    : list Formatted.t :=
  omap (fun t => match Discovered.compliance t with
                 | Some c => Some (Formatted.mk (Discovered.name t) c (Discovered.name t))
                 | None => None
                 end)
       tools.

(** ** Mock servers ([third-party-servers.ts]) *)

(** An element of [ThirdPartyServer.tools]; [tool] is the id of the Mastra
    tool. *)
Module MockTool.
Record t := mk { tool : string; compliance : Pec.t; name : string }.
End MockTool.

Global Instance MockTool_ToolLike : ToolLike MockTool.t :=
  {| name := MockTool.name; compliance := fun t => Some (MockTool.compliance t) |}.

Module Server.
Record t := mk { name : string; vendor : string; tools : list MockTool.t }.
End Server.

Definition acmeTranslationCompliance : Pec.t :=
  {| Pec.pec_version := "1.0";
     Pec.processing_locations := ["IE"; "FR"];
     Pec.data_retention_days := 7;
     Pec.certifications := ["ISO_27001"; "SOC2_TYPE_II"];
     Pec.ai_act_status := AiAct.mk minimal true (Some "BSI_Group");
     Pec.gdpr := Gdpr.mk processor ["ADEQUACY"] true false;
     Pec.suitable_for := ["translation"; "localisation"; "content"];
     Pec.unsuitable_for := ["legal_documents"; "medical_records"];
     Pec.supply_chain_disclosure := true |}.

Definition globalPayCompliance : Pec.t :=
  {| Pec.pec_version := "1.0";
     Pec.processing_locations := ["US"; "SG"];
     Pec.data_retention_days := 2555;
     Pec.certifications := ["PCI_DSS"; "SOC2_TYPE_II"];
     Pec.ai_act_status := AiAct.mk limited false None;
     Pec.gdpr := Gdpr.mk processor ["SCCS_2021"] false false;
     Pec.suitable_for := ["payment_processing"; "fraud_detection"; "financial_analytics"];
     Pec.unsuitable_for := ["healthcare"; "biometric"];
     Pec.supply_chain_disclosure := true |}.

Definition swissVaultCompliance : Pec.t :=
  {| Pec.pec_version := "1.0";
     Pec.processing_locations := ["CH"];
     Pec.data_retention_days := 3650;
     Pec.certifications := ["ISO_27001"; "SOC2_TYPE_II"; "FINMA_COMPLIANT"];
     Pec.ai_act_status := AiAct.mk limited true (Some "SGS_SA");
     Pec.gdpr := Gdpr.mk processor ["ADEQUACY"] true false;
     Pec.suitable_for := ["document_storage"; "secure_archival"; "financial_records"];
     Pec.unsuitable_for := ["real_time_processing"; "streaming"];
     Pec.supply_chain_disclosure := true |}.

Definition tokyoAiLabsCompliance : Pec.t :=
  {| Pec.pec_version := "1.0";
     Pec.processing_locations := ["JP"];
     Pec.data_retention_days := 30;
     Pec.certifications := ["ISO_27001"; "JIPDEC_PRIVACY_MARK"];
     Pec.ai_act_status := AiAct.mk limited true None;
     Pec.gdpr := Gdpr.mk processor ["ADEQUACY"] true false;
     Pec.suitable_for := ["image_analysis"; "ocr"; "document_processing"];
     Pec.unsuitable_for := ["biometric_identification"; "facial_recognition"];
     Pec.supply_chain_disclosure := true |}.

Definition beijingCloudCompliance : Pec.t :=
  {| Pec.pec_version := "1.0";
     Pec.processing_locations := ["CN"];
     Pec.data_retention_days := 180;
     Pec.certifications := ["MLPS_LEVEL_3"];
     Pec.ai_act_status := AiAct.mk limited false None;
     Pec.gdpr := Gdpr.mk controller [] false false;
     Pec.suitable_for := ["general_compute"; "batch_processing"];
     Pec.unsuitable_for := ["eu_personal_data"; "gdpr_scope"; "us_government"];
     Pec.supply_chain_disclosure := false |}.

Definition medixUsCompliance : Pec.t :=
  {| Pec.pec_version := "1.0";
     Pec.processing_locations := ["US"];
     Pec.data_retention_days := 2555;
     Pec.certifications := ["HIPAA_COMPLIANT"; "SOC2_TYPE_II"; "HITRUST"];
     Pec.ai_act_status := AiAct.mk high false None;
     Pec.gdpr := Gdpr.mk processor [] false true;
     Pec.suitable_for := ["healthcare_analysis"; "medical_records"; "clinical_research"];
     Pec.unsuitable_for := ["eu_personal_data"; "gdpr_scope"];
     Pec.supply_chain_disclosure := true |}.

Definition allThirdPartyServers : list Server.t :=
  [ Server.mk "acme-translation-server" "Acme Translation Services Ltd (Dublin)"
      [MockTool.mk "acme_translate" acmeTranslationCompliance "acme_translate"];
    Server.mk "globalpay-mcp-server" "GlobalPay Inc (San Francisco)"
      [MockTool.mk "globalpay_fraud_check" globalPayCompliance "globalpay_fraud_check"];
    Server.mk "swissvault-mcp-server" "SwissVault AG (Zurich)"
      [MockTool.mk "swissvault_store" swissVaultCompliance "swissvault_store"];
    Server.mk "tokyoai-mcp-server" "Tokyo AI Labs Inc (Tokyo)"
      [MockTool.mk "tokyoai_ocr" tokyoAiLabsCompliance "tokyoai_ocr"];
    Server.mk "beijingcloud-mcp-server" "Beijing Cloud Services (Beijing)"
      [MockTool.mk "beijingcloud_compute" beijingCloudCompliance "beijingcloud_compute"];
    Server.mk "medixus-mcp-server" "MedixUS Healthcare Analytics (Boston)"
      [MockTool.mk "medixus_analyse" medixUsCompliance "medixus_analyse"] ].

(** ** The MCP server's tools ([mcp-server/src/tools.ts]) *)

(** [complianceMetadataEuCompliant1]; the notified body is written in UTF-8
    bytes and is only ever concatenated. *)
Definition complianceMetadataEuCompliant1 : Pec.t :=
  {| Pec.pec_version := "1.0";
     Pec.processing_locations := ["DE"; "IE"];
     Pec.data_retention_days := 90;
     Pec.certifications := ["ISO_27001"; "SOC2_TYPE_II"];
     Pec.ai_act_status := AiAct.mk limited true (Some "TÜV_SÜD");
     Pec.gdpr := Gdpr.mk processor ["ADEQUACY"] true false;
     Pec.suitable_for := ["research"; "summarisation"; "translation"; "data_analysis"];
     Pec.unsuitable_for := ["healthcare_diagnosis"; "legal_advice"; "credit_scoring"];
     Pec.supply_chain_disclosure := true |}.

Definition complianceMetadataUsHealthcare : Pec.t :=
  {| Pec.pec_version := "1.0";
     Pec.processing_locations := ["US"];
     Pec.data_retention_days := 2555;
     Pec.certifications := ["HIPAA_COMPLIANT"; "SOC2_TYPE_II"; "HITRUST"];
     Pec.ai_act_status := AiAct.mk high false None;
     Pec.gdpr := Gdpr.mk processor [] false true;
     Pec.suitable_for := ["healthcare_analysis"; "medical_records"; "clinical_research"];
     Pec.unsuitable_for := ["eu_personal_data"; "gdpr_scope"];
     Pec.supply_chain_disclosure := true |}.

(** The name and metadata of each element of [allTools]. *)
Definition allTools : list (string * Pec.t) :=
  [ ("document_summariser", complianceMetadataEuCompliant1);
    ("text_formatter", complianceMetadataEuCompliant2);
    ("data_exporter", complianceMetadataNonCompliant);
    ("healthcare_analyser", complianceMetadataUsHealthcare) ].

(** ** The demo driver ([ai-agent/src/index.ts]), without its console output *)

(** The loop of [runMockServerDemo] over a list of servers: the two running
    totals and the audit logger. *)
Definition runMockServers (servers : list Server.t) (context : Ctx.t)
    (globalAuditLogger : option PecAuditLogger) : nat * nat * option PecAuditLogger :=
  fold_left
    (fun '(totalCompliant, totalRejected, globalAuditLogger) server =>
       let toolsForFiltering := Server.tools server in
       let '(out, globalAuditLogger) :=
         filterCompliantTools toolsForFiltering context globalAuditLogger in
       (totalCompliant + length (Filtered.compliant out),
        totalRejected + length (Filtered.rejected out),
        globalAuditLogger))
    servers (0, 0, globalAuditLogger).

Definition runMockServerDemo (context : Ctx.t) (globalAuditLogger : option PecAuditLogger)
    : nat * nat * option PecAuditLogger :=
  runMockServers allThirdPartyServers context globalAuditLogger.

(** [connectionTools] is [connection.tools]. *)
Definition runRealMcpServerDemo (context : Ctx.t) (connectionTools : list Discovered.t)
    (globalAuditLogger : option PecAuditLogger) : nat * nat * option PecAuditLogger :=
  let toolsForFiltering := formatDiscoveredToolsForFiltering connectionTools in
  if (length toolsForFiltering =? 0)%nat then (0, 0, globalAuditLogger)
  else
    let '(out, globalAuditLogger) :=
      filterCompliantTools toolsForFiltering context globalAuditLogger in
    (length (Filtered.compliant out), length (Filtered.rejected out), globalAuditLogger).

(** [runDemo] up to the export of the log: the logger it leaves behind.
    [sessionId], [startedAt] and [hash] stand for [randomUUID()], the clock
    and the SHA-256 fingerprint taken by the constructor.  The local
    [auditLogger] and the global one are the same object. *)
Definition runDemo (context : Ctx.t) (connectionTools : list Discovered.t)
    (sessionId startedAt hash : string) : PecAuditLogger :=
  let auditLogger := initAuditLogger context sessionId startedAt hash in
  let '(mockCompliant, mockRejected, globalAuditLogger) :=
    runMockServerDemo context (Some auditLogger) in
  let '(realCompliant, realRejected, globalAuditLogger) :=
    runRealMcpServerDemo context connectionTools globalAuditLogger in
  let totalCompliant := mockCompliant + realCompliant in
  let totalRejected := mockRejected + realRejected in
  logAgentInitialisation (default auditLogger globalAuditLogger) totalCompliant totalRejected.

(** ** Notions used to state the properties *)

(** What a run that started from [r] and a run that started from a fresh
    result add up to. *)
Definition merge (r d : ComplianceCheckResult) : ComplianceCheckResult :=
  {| compliant := compliant r && compliant d;
     reasons := reasons r ++ reasons d;
     warnings := warnings r ++ warnings d |}.

(** A step only appends: running it on [r] is running it on a fresh result
    and appending the outcome to [r]. *)
Definition Appends (f : ComplianceCheckResult -> ComplianceCheckResult) : Prop :=
  forall r, f r = merge r (f freshResult).

(** [compliant] is true exactly when no reason was pushed. *)
Definition Consistent (r : ComplianceCheckResult) : Prop :=
  compliant r = bool_decide (reasons r = []).

(** The union of the expansions of a list of codes. *)
Definition inExpansions (x : string) (codes : list string) : Prop :=
  exists code, code ∈ codes /\ x ∈ expandJurisdiction code.

(** The three aggregate codes the resolver recognises. *)
Definition isAggregate (x : string) : bool :=
  String.eqb x "EU" || String.eqb x "EEA" || String.eqb x "ADEQUACY".

(** *** Violations, rule by rule

    What each rule of the battery asks for, counted on its own.  The location
    and the sector rule are stated per element, so they count once per
    offending location or sector. *)

Section Violations.
Variables (c : Pec.t) (ctx : Ctx.t).

Definition versionViolations : nat :=
  if Js.truthy (Pec.pec_version c) then 0
  else if bool_decide (Legacy.policy (Ctx.legacy_servers ctx) = block) then 1 else 0.

Definition locationViolations : nat :=
  length (List.filter
            (fun l => negb (isLocationAllowed l
                              (Residency.required (Ctx.data_residency ctx))
                              (Residency.prohibited (Ctx.data_residency ctx))))
            (Pec.processing_locations c)).

Definition riskViolations : nat :=
  if (RISK_LEVELS (AiAct.classification (Pec.ai_act_status c))
      >? RISK_LEVELS (Risk.maximum_permitted (Ctx.risk_classification ctx)))%Z
  then 1 else 0.

Definition conformityViolations : nat :=
  if negb (AiAct.conformity_assessed (Pec.ai_act_status c))
     && bool_decide (Unknown.ai_act_status (Ctx.unknown_handling ctx) = strict)
  then 1 else 0.

(** Some mechanism of the tool is among the required ones. *)
Definition overlaps (toolMechanisms requiredMechanisms : list string) : bool :=
  existsb (fun m => existsb (String.eqb m) requiredMechanisms) toolMechanisms.

Definition transferViolations : nat :=
  match Ctx.gdpr_requirements ctx with
  | Some g =>
    match GdprReq.transfer_mechanisms_required g with
    | Some (m :: ms) =>
      if overlaps (Gdpr.transfer_mechanisms (Pec.gdpr c)) (m :: ms) then 0 else 1
    | _ => 0
    end
  | None => 0
  end.

Definition specialCategoryViolations : nat :=
  match Ctx.gdpr_requirements ctx with
  | Some g =>
    match GdprReq.special_categories_allowed g with
    | Some false => if Gdpr.special_categories_processed (Pec.gdpr c) then 1 else 0
    | _ => 0
    end
  | None => 0
  end.

Definition sectorViolations : nat :=
  length (List.filter (fun s => existsb (String.eqb s) (Pec.suitable_for c))
                      (Sectors.prohibited (Ctx.sectors ctx))).

Definition certificationViolations : nat :=
  match Certs.required_any (Ctx.certifications ctx) with
  | [] => 0
  | required_any =>
    if overlaps required_any (Pec.certifications c) then 0
    else if bool_decide (Unknown.certifications (Ctx.unknown_handling ctx) = strict)
         then 1 else 0
  end.

(** Violations found by the checks of the battery. *)
Definition batteryViolations : nat :=
  locationViolations + riskViolations + conformityViolations + transferViolations
  + specialCategoryViolations + sectorViolations + certificationViolations.

(** All violations, the version rule included. *)
Definition violations : nat := versionViolations + batteryViolations.

(** The number of distinct rules with at least one violation. *)
Definition distinctRulesViolated : nat :=
  Nat.min 1 versionViolations + Nat.min 1 locationViolations + riskViolations
  + conformityViolations + transferViolations + specialCategoryViolations
  + Nat.min 1 sectorViolations + certificationViolations.
End Violations.

(** *** Audit entries *)

(** [es] appended to the entries of a logger, nothing else changed. *)
Definition appendEntries (this : PecAuditLogger) (es : list Entry.t) : PecAuditLogger :=
  {| log := {| AuditLog.entries := AuditLog.entries (log this) ++ es;
               AuditLog.session_id := AuditLog.session_id (log this);
               AuditLog.started_at := AuditLog.started_at (log this);
               AuditLog.deployment_context_hash :=
                 AuditLog.deployment_context_hash (log this) |};
     context := context this |}.

(** The verdict for a tool, whatever the logger. *)
Definition evaluationOf `{ToolLike T} (ctx : Ctx.t) (tool : T) : ComplianceCheckResult :=
  (checkCompliance (name tool) (compliance tool) ctx None).1.

(** The event kinds the specification asks for: one evaluation entry for
    every tool, then a warning entry if it is accepted with warnings. *)
Definition claimedEvents `{ToolLike T} (ctx : Ctx.t) (tool : T) : list AuditEventType :=
  let r := evaluationOf ctx tool in
  (if compliant r then tool_approved else tool_rejected)
  :: (if compliant r && (0 <? length (warnings r))%nat then [compliance_warning] else []).

(** A tool reaches the audit logger only with metadata that carries a
    version. *)
Definition audited `{ToolLike T} (tool : T) : bool :=
  match compliance tool with
  | Some c => Js.truthy (Pec.pec_version c)
  | None => false
  end.

(** The entries one evaluation writes through logger [this]. *)
Definition recordedEntries (this : PecAuditLogger) (ctx : Ctx.t)
    (toolName : string) (compliance : option Pec.t) : list Entry.t :=
  match compliance with
  | Some c =>
    if Js.truthy (Pec.pec_version c) then
      let r := runChecks c ctx freshResult in
      createEntry this (if compliant r then tool_approved else tool_rejected)
        (Some toolName) (Some c) (Some r) (buildEvaluationTrace this toolName c r)
      :: (if compliant r && (0 <? length (warnings r))%nat
          then [createEntry this compliance_warning (Some toolName) (Some c)
                  (Some {| compliant := true; reasons := []; warnings := warnings r |})
                  (("Compliance warnings for tool: " +:+ toolName)
                     :: map (fun w => "Warning: " +:+ w) (warnings r))]
          else [])
    else []
  | None => []
  end.

(** *** Positions in a batch *)

(** A tool paired with its position is still a tool. *)
Global Instance positioned_ToolLike `{ToolLike T} : ToolLike (nat * T) :=
  {| name := fun p => name p.2; compliance := fun p => compliance p.2 |}.

(** The batch with every tool paired with its position. *)
Definition positioned {T} (tools : list T) : list (nat * T) :=
  zip (seq 0 (length tools)) tools.

(** Positions strictly increase along the list. *)
Definition increasing {T} (l : list (nat * T)) : Prop :=
  StronglySorted (fun x y => x.1 < y.1) l.

(** Merge of two position-tagged lists, smallest position first. *)
Fixpoint mergeByPosition {T} (xs ys : list (nat * T)) : list (nat * T) :=
  match xs with
  | [] => ys
  | x :: xs' =>
    (fix into (ys : list (nat * T)) : list (nat * T) :=
       match ys with
       | [] => x :: xs'
       | y :: ys' =>
         if (x.1 <=? y.1)%nat then x :: mergeByPosition xs' (y :: ys')
         else y :: into ys'
       end) ys
  end.

(** Contexts that differ in one [unknown_handling] entry only. *)
Definition withAiActHandling (h : UnknownHandling) (ctx : Ctx.t) : Ctx.t :=
  {| Ctx.governing_law := Ctx.governing_law ctx;
     Ctx.jurisdiction := Ctx.jurisdiction ctx;
     Ctx.data_residency := Ctx.data_residency ctx;
     Ctx.gdpr_requirements := Ctx.gdpr_requirements ctx;
     Ctx.risk_classification := Ctx.risk_classification ctx;
     Ctx.sectors := Ctx.sectors ctx;
     Ctx.certifications := Ctx.certifications ctx;
     Ctx.unknown_handling :=
       {| Unknown.processing_locations :=
            Unknown.processing_locations (Ctx.unknown_handling ctx);
          Unknown.certifications := Unknown.certifications (Ctx.unknown_handling ctx);
          Unknown.ai_act_status := h |};
     Ctx.legacy_servers := Ctx.legacy_servers ctx |}.

Definition withCertificationHandling (h : UnknownHandling) (ctx : Ctx.t) : Ctx.t :=
  {| Ctx.governing_law := Ctx.governing_law ctx;
     Ctx.jurisdiction := Ctx.jurisdiction ctx;
     Ctx.data_residency := Ctx.data_residency ctx;
     Ctx.gdpr_requirements := Ctx.gdpr_requirements ctx;
     Ctx.risk_classification := Ctx.risk_classification ctx;
     Ctx.sectors := Ctx.sectors ctx;
     Ctx.certifications := Ctx.certifications ctx;
     Ctx.unknown_handling :=
       {| Unknown.processing_locations :=
            Unknown.processing_locations (Ctx.unknown_handling ctx);
          Unknown.certifications := h;
          Unknown.ai_act_status := Unknown.ai_act_status (Ctx.unknown_handling ctx) |};
     Ctx.legacy_servers := Ctx.legacy_servers ctx |}.

(** *** Test inputs *)

(** A tool for [usHealthcareContext] that is above the risk threshold and
    suitable for one prohibited sector, and passes every other check. *)
Definition riskyBiometricTool (version : string) : Pec.t :=
  {| Pec.pec_version := version;
     Pec.processing_locations := ["US"];
     Pec.data_retention_days := 30;
     Pec.certifications := ["HITRUST"];
     Pec.ai_act_status := AiAct.mk unacceptable true None;
     Pec.gdpr := Gdpr.mk processor [] false false;
     Pec.suitable_for := ["biometric_identification"];
     Pec.unsuitable_for := [];
     Pec.supply_chain_disclosure := true |}.

(** A context that requires the aggregate code [EU] and prohibits nothing. *)
Definition euOnlyContext : Ctx.t :=
  {| Ctx.governing_law := "EU";
     Ctx.jurisdiction := "DE";
     Ctx.data_residency := Residency.mk ["EU"] [];
     Ctx.gdpr_requirements := None;
     Ctx.risk_classification := Risk.mk limited None;
     Ctx.sectors := Sectors.mk [];
     Ctx.certifications := Certs.mk [];
     Ctx.unknown_handling := Unknown.mk strict escalate escalate;
     Ctx.legacy_servers := Legacy.mk allow false |}.

(** [complianceMetadataEuCompliant2] with the aggregate code [EU] as its
    only processing location. *)
Definition euLabelledTool : Pec.t :=
  {| Pec.pec_version := "1.0";
     Pec.processing_locations := ["EU"];
     Pec.data_retention_days := 30;
     Pec.certifications := ["ISO_27001"];
     Pec.ai_act_status := AiAct.mk minimal true None;
     Pec.gdpr := Gdpr.mk processor ["ADEQUACY"] true false;
     Pec.suitable_for := ["text_processing"; "formatting"; "spell_check"];
     Pec.unsuitable_for := ["biometric_identification"; "emotion_recognition"];
     Pec.supply_chain_disclosure := true |}.

(** The two messages of the transfer-mechanism check. *)
Definition noMechanismMessage (requiredMechanisms : list string) : string :=
  "Tool declares no GDPR transfer mechanisms but context requires one of: "
  +:+ Js.join ", " requiredMechanisms.

Definition mechanismMismatchMessage (toolMechanisms requiredMechanisms : list string) : string :=
  "Tool transfer mechanisms [" +:+ Js.join ", " toolMechanisms
  +:+ "] do not include any required mechanism: " +:+ Js.join ", " requiredMechanisms.

(** A batch of three tools: one without metadata, one whose metadata has an
    empty version string, and the repository's [text_formatter]. *)
Definition mixedBatch : list DemoTool :=
  [ mkTool "legacy_tool" None;
    mkTool "scanner" (Some (riskyBiometricTool ""));
    mkTool "text_formatter" (Some complianceMetadataEuCompliant2) ].

(** ** Notions used to state the further properties *)

(** The rules that can push a fatal reason. *)
Inductive Rule :=
  | LocationRule
  | RiskRule
  | ConformityRule
  | TransferRule
  | SpecialCategoryRule
  | SectorRule
  | CertificationRule.

Global Instance Rule_eq_dec : EqDecision Rule.
Proof. solve_decision. Defined.

(** The rule a reason belongs to, read off the fixed text it begins with. *)
Definition ruleOf (reason : string) : option Rule :=
  if Js.startsWith reason "Processing location" then Some LocationRule
  else if Js.startsWith reason "Tool risk classification" then Some RiskRule
  else if Js.startsWith reason "Tool has not undergone" then Some ConformityRule
  else if Js.startsWith reason "Tool declares no GDPR" then Some TransferRule
  else if Js.startsWith reason "Tool transfer mechanisms" then Some TransferRule
  else if Js.startsWith reason "Tool processes GDPR" then Some SpecialCategoryRule
  else if Js.startsWith reason "Tool is suitable for prohibited sector" then Some SectorRule
  else if Js.startsWith reason "Tool lacks required" then Some CertificationRule
  else None.

(** The reasons of one rule among [rs]. *)
Definition reasonsOfRule (k : Rule) (rs : list string) : list string :=
  List.filter (fun x => bool_decide (ruleOf x = Some k)) rs.

(** What the check of rule [k] pushes when it is run on its own. *)
Definition ownReasons (c : Pec.t) (ctx : Ctx.t) (k : Rule) : list string :=
  match k with
  | LocationRule => reasons (locationCheck c ctx freshResult)
  | RiskRule => reasons (riskCheck c ctx freshResult)
  | ConformityRule => reasons (conformityCheck c ctx freshResult)
  | TransferRule =>
    match Ctx.gdpr_requirements ctx with
    | Some g => reasons (transferCheck c g freshResult)
    | None => []
    end
  | SpecialCategoryRule =>
    match Ctx.gdpr_requirements ctx with
    | Some g => reasons (specialCatCheck c g freshResult)
    | None => []
    end
  | SectorRule => reasons (sectorCheck c ctx freshResult)
  | CertificationRule => reasons (certificationCheck c ctx freshResult)
  end.

(** The fields of the metadata that [checkCompliance] reads. *)
Definition readMetadata (c : Pec.t) :=
  (Pec.pec_version c, Pec.processing_locations c, Pec.certifications c,
   AiAct.classification (Pec.ai_act_status c),
   AiAct.conformity_assessed (Pec.ai_act_status c),
   Gdpr.transfer_mechanisms (Pec.gdpr c),
   Gdpr.special_categories_processed (Pec.gdpr c),
   Pec.suitable_for c, Pec.supply_chain_disclosure c).

(** The fields of the context that [checkCompliance] reads. *)
Definition readContext (ctx : Ctx.t) :=
  (Ctx.data_residency ctx, Ctx.gdpr_requirements ctx,
   Risk.maximum_permitted (Ctx.risk_classification ctx),
   Ctx.sectors ctx, Ctx.certifications ctx,
   Unknown.certifications (Ctx.unknown_handling ctx),
   Unknown.ai_act_status (Ctx.unknown_handling ctx),
   Legacy.policy (Ctx.legacy_servers ctx)).

(** The three summary fields [createEntry] copies from a context. *)
Definition summaryOf (ctx : Ctx.t) : Entry.summary :=
  {| Entry.governing_law := Ctx.governing_law ctx;
     Entry.jurisdiction := Ctx.jurisdiction ctx;
     Entry.max_risk := Risk.maximum_permitted (Ctx.risk_classification ctx) |}.

(** An entry written through logger [this]: it has the session id of the log
    and the summary of the logger's own context. *)
Definition StampedBy (this : PecAuditLogger) (e : Entry.t) : Prop :=
  Entry.session_id e = AuditLog.session_id (log this)
  /\ Entry.deployment_context e = summaryOf (context this).

(** All entries of the log were written through its logger. *)
Definition WellStamped (this : PecAuditLogger) : Prop :=
  Forall (StampedBy this) (AuditLog.entries (log this)).

(** [this'] is [this] with entries appended and nothing else changed. *)
Definition Extends (this this' : PecAuditLogger) : Prop :=
  exists es, this' = appendEntries this es.

(** Where the verdict of each rule's section stands in an evaluation trace,
    the text the trace builder searches the reasons for, and the line the
    section shows when it finds none. *)
Definition sectionLine (k : Rule) : nat :=
  match k with
  | LocationRule => 7
  | RiskRule => 12
  | ConformityRule => 17
  | TransferRule => 22
  | SpecialCategoryRule => 27
  | CertificationRule => 32
  | SectorRule => 37
  end.

Definition needleOf (k : Rule) : string :=
  match k with
  | LocationRule => "Processing location"
  | RiskRule => "risk classification"
  | ConformityRule => "conformity assessment"
  | TransferRule => "transfer mechanism"
  | SpecialCategoryRule => "special categories"
  | CertificationRule => "certification"
  | SectorRule => "prohibited sector"
  end.

Definition passLine (c : Pec.t) (k : Rule) : string :=
  match k with
  | LocationRule => "PASS: All processing locations acceptable"
  | RiskRule => "PASS: Risk classification within limits"
  | ConformityRule =>
    if negb (AiAct.conformity_assessed (Pec.ai_act_status c))
    then "WARNING: Tool has not undergone conformity assessment"
    else "PASS: Conformity assessment complete"
  | TransferRule => "PASS: Transfer mechanisms acceptable"
  | SpecialCategoryRule => "PASS: Special categories handling acceptable"
  | CertificationRule => "PASS: Certification requirements met"
  | SectorRule => "PASS: No prohibited sector conflicts"
  end.

(** Whether the evaluation of [tool] writes an entry of kind [ty]. *)
Definition logsEvent `{ToolLike T} (ctx : Ctx.t) (ty : AuditEventType) (tool : T) : bool :=
  audited tool
  && match ty with
     | tool_approved => compliant (evaluationOf ctx tool)
     | tool_rejected => negb (compliant (evaluationOf ctx tool))
     | compliance_warning =>
       compliant (evaluationOf ctx tool) && (0 <? length (warnings (evaluationOf ctx tool)))%nat
     | _ => false
     end.

(** [ctx'] is at most as demanding as [ctx]: it requires no fewer and
    prohibits no more locations, permits at least the same risk, is [strict]
    about unassessed tools and missing certifications only where [ctx] is,
    prohibits no more sectors, keeps or drops the GDPR requirements and the
    list of required certifications, and blocks legacy tools only if [ctx]
    does. *)
Definition Relaxes (ctx ctx' : Ctx.t) : Prop :=
  Residency.required (Ctx.data_residency ctx) ⊆ Residency.required (Ctx.data_residency ctx')
  /\ Residency.prohibited (Ctx.data_residency ctx')
     ⊆ Residency.prohibited (Ctx.data_residency ctx)
  /\ (RISK_LEVELS (Risk.maximum_permitted (Ctx.risk_classification ctx))
      <= RISK_LEVELS (Risk.maximum_permitted (Ctx.risk_classification ctx')))%Z
  /\ (Unknown.ai_act_status (Ctx.unknown_handling ctx') = strict ->
      Unknown.ai_act_status (Ctx.unknown_handling ctx) = strict)
  /\ (Unknown.certifications (Ctx.unknown_handling ctx') = strict ->
      Unknown.certifications (Ctx.unknown_handling ctx) = strict)
  /\ Sectors.prohibited (Ctx.sectors ctx') ⊆ Sectors.prohibited (Ctx.sectors ctx)
  /\ (Ctx.gdpr_requirements ctx' = Ctx.gdpr_requirements ctx
      \/ Ctx.gdpr_requirements ctx' = None)
  /\ (Certs.required_any (Ctx.certifications ctx')
      = Certs.required_any (Ctx.certifications ctx)
      \/ Certs.required_any (Ctx.certifications ctx') = [])
  /\ (Legacy.policy (Ctx.legacy_servers ctx') = block ->
      Legacy.policy (Ctx.legacy_servers ctx) = block).

(** [euDeploymentContext] with the maximum risk raised to [high], the
    conformity handling set to [escalate] and no prohibited sector. *)
Definition relaxedEuContext : Ctx.t :=
  {| Ctx.governing_law := "EU";
     Ctx.jurisdiction := "DE";
     Ctx.data_residency := Residency.mk ["EU"; "EEA"; "ADEQUACY"] ["US"; "CN"; "RU"];
     Ctx.gdpr_requirements :=
       Some (GdprReq.mk (Some ["ADEQUACY"; "SCCS_2021"; "BCR"]) (Some false));
     Ctx.risk_classification := Risk.mk high (Some limited);
     Ctx.sectors := Sectors.mk [];
     Ctx.certifications := Certs.mk ["ISO_27001"; "SOC2_TYPE_II"];
     Ctx.unknown_handling := Unknown.mk strict permissive escalate;
     Ctx.legacy_servers := Legacy.mk block true |}.

(** An entry written by an evaluation agrees with its own event kind: an
    approval stores a compliant result without reasons, a rejection a
    non-compliant result with at least one reason, both with the full trace
    whose decision line repeats the flag; a warning entry stores a compliant
    result with no reasons and at least one warning, and a trace of one
    heading and one line per warning. *)
Definition EntryCoherent (e : Entry.t) : Prop :=
  match Entry.event_type e, Entry.evaluation_result e with
  | tool_approved, Some r =>
    compliant r = true /\ reasons r = []
    /\ length (Entry.reasoning_trace e) = 43
    /\ Entry.reasoning_trace e !! 40 = Some "Compliant: true"
  | tool_rejected, Some r =>
    compliant r = false /\ reasons r <> []
    /\ length (Entry.reasoning_trace e) = 43
    /\ Entry.reasoning_trace e !! 40 = Some "Compliant: false"
  | compliance_warning, Some r =>
    compliant r = true /\ reasons r = [] /\ warnings r <> []
    /\ length (Entry.reasoning_trace e) = S (length (warnings r))
  | _, _ => False
  end.

(** *** The order of the risk levels, as the specification writes it *)

(** minimal < limited < gpai < high < gpai_systemic < unacceptable. *)
Definition riskOrder : list AiActClassification :=
  [minimal; limited; gpai; high; gpai_systemic; unacceptable].

(** The position of a level in [riskOrder]. *)
Definition rankOf (c : AiActClassification) : nat :=
  from_option fst 0 (list_find (fun x => x = c) riskOrder).

(** The name a level is written with. *)
Definition levelName (c : AiActClassification) : string :=
  match c with
  | minimal => "minimal"
  | limited => "limited"
  | gpai => "gpai"
  | high => "high"
  | gpai_systemic => "gpai_systemic"
  | unacceptable => "unacceptable"
  end.

(** *** Letter case of ASCII codes *)

(** Every character of [s] is an ASCII character; on such strings
    [String.prototype.toUpperCase] maps a-z to A-Z and nothing else. *)
Definition asciiOnly (s : string) : bool :=
  forallb (fun ch => (N_of_ascii ch <? 128)%N) (String.list_ascii_of_string s).

(** The lower-case letters with their upper-case letters. *)
Definition letterCases : list (ascii * ascii) :=
  zip (String.list_ascii_of_string "abcdefghijklmnopqrstuvwxyz")
      (String.list_ascii_of_string "ABCDEFGHIJKLMNOPQRSTUVWXYZ").

(** The same character, or the two cases of one letter. *)
Definition sameLetter (a b : ascii) : bool :=
  bool_decide (a = b) || bool_decide ((a, b) ∈ letterCases)
  || bool_decide ((b, a) ∈ letterCases).

(** Two strings that differ in the case of their letters only. *)
Fixpoint sameUpToCase (s t : string) : bool :=
  match s, t with
  | EmptyString, EmptyString => true
  | String a s', String b t' => sameLetter a b && sameUpToCase s' t'
  | _, _ => false
  end.

(** * Properties *)

(** ** Scenarios *)

Example isLocationAllowed_de :
  isLocationAllowed "de" ["EU"; "EEA"; "ADEQUACY"] ["US"; "CN"; "RU"] = true.
Proof. vm_compute. reflexivity. Qed.

Example isLocationAllowed_cn :
  isLocationAllowed "CN" ["EU"; "EEA"; "ADEQUACY"] ["US"; "CN"; "RU"] = false.
Proof. vm_compute. reflexivity. Qed.

Example scenario_eu_compliant :
  (checkCompliance "text_formatter" (Some complianceMetadataEuCompliant2)
     euDeploymentContext None).1
  = {| compliant := true; reasons := []; warnings := [] |}.
Proof. vm_compute. reflexivity. Qed.

Example scenario_non_compliant :
  (checkCompliance "data_exporter" (Some complianceMetadataNonCompliant)
     euDeploymentContext None).1
  = {| compliant := false;
       reasons :=
         ["Processing location 'US' is not allowed under deployment context";
          "Processing location 'CN' is not allowed under deployment context";
          "Tool risk classification 'high' exceeds maximum permitted 'limited'";
          "Tool has not undergone conformity assessment";
          "Tool declares no GDPR transfer mechanisms but context requires one of: ADEQUACY, SCCS_2021, BCR"];
       warnings :=
         ["Tool lacks preferred certifications: ISO_27001, SOC2_TYPE_II";
          "Tool has not disclosed supply chain dependencies"] |}.
Proof. vm_compute. reflexivity. Qed.

(** ** Results as an append-only accumulator *)

Lemma merge_fresh_r r : merge r freshResult = r.
Proof.
  destruct r as [c rs ws]; unfold merge; simpl.
  by rewrite andb_true_r, !app_nil_r.
Qed.

Lemma merge_fresh_l r : merge freshResult r = r.
Proof. by destruct r. Qed.

Lemma merge_assoc r s t : merge (merge r s) t = merge r (merge s t).
Proof. unfold merge; simpl. by rewrite andb_assoc, !app_assoc. Qed.

Lemma Appends_id : Appends (fun r => r).
Proof. intros r. by rewrite merge_fresh_r. Qed.

Lemma Appends_pushReason msg : Appends (pushReason msg).
Proof.
  intros [c rs ws]. unfold pushReason, merge; simpl.
  by rewrite andb_false_r, app_nil_r.
Qed.

Lemma Appends_pushWarning msg : Appends (pushWarning msg).
Proof.
  intros [c rs ws]. unfold pushWarning, merge; simpl.
  by rewrite andb_true_r, app_nil_r.
Qed.

Lemma Appends_compose f g : Appends f -> Appends g -> Appends (fun r => g (f r)).
Proof.
  intros Hf Hg r. cbv beta.
  rewrite (Hg (f r)), (Hf r), (Hg (f freshResult)).
  apply merge_assoc.
Qed.

Lemma Appends_fold {A} (step : ComplianceCheckResult -> A -> ComplianceCheckResult) (xs : list A) :
  (forall x, Appends (fun r => step r x)) -> Appends (fun r => fold_left step xs r).
Proof.
  intros Hstep. induction xs as [|x xs IH]; simpl.
  - apply Appends_id.
  - apply (Appends_compose (fun r => step r x) (fun r => fold_left step xs r)); auto.
Qed.

Lemma Consistent_fresh : Consistent freshResult.
Proof. reflexivity. Qed.

Lemma Consistent_pushReason msg r : Consistent (pushReason msg r).
Proof.
  unfold Consistent; simpl. symmetry. apply bool_decide_eq_false.
  by destruct (reasons r).
Qed.

Lemma Consistent_pushWarning msg r : Consistent r -> Consistent (pushWarning msg r).
Proof. done. Qed.

Lemma Consistent_merge r d : Consistent r -> Consistent d -> Consistent (merge r d).
Proof.
  unfold Consistent; simpl. intros -> ->.
  destruct (reasons r), (reasons d); reflexivity.
Qed.

Lemma Consistent_iff r : Consistent r -> (compliant r = true <-> reasons r = []).
Proof. unfold Consistent. intros ->. apply bool_decide_eq_true. Qed.

(** A loop that pushes one reason per element satisfying [p]. *)
Lemma fold_pushReason {A} (p : A -> bool) (msg : A -> string) (xs : list A) r :
  fold_left (fun r x => if p x then pushReason (msg x) r else r) xs r
  = merge r {| compliant := forallb (fun x => negb (p x)) xs;
               reasons := map msg (List.filter p xs);
               warnings := [] |}.
Proof.
  revert r. induction xs as [|x xs IH]; intros r; simpl.
  - symmetry. apply merge_fresh_r.
  - rewrite IH. destruct (p x); simpl.
    + destruct r as [c rs ws]; unfold merge, pushReason; simpl.
      rewrite andb_false_r. f_equal. by rewrite <- app_assoc.
    + reflexivity.
Qed.

Lemma Consistent_fold {A} (step : ComplianceCheckResult -> A -> ComplianceCheckResult)
    (xs : list A) r :
  (forall r x, Consistent r -> Consistent (step r x)) ->
  Consistent r -> Consistent (fold_left step xs r).
Proof.
  intros Hstep. revert r. induction xs as [|x xs IH]; simpl; auto.
Qed.

(** ** Every check of the battery only appends, and keeps the flag in step *)

Create HintDb pec_steps.
#[local] Hint Resolve Appends_id Appends_pushReason Appends_pushWarning : pec_steps.
#[local] Hint Resolve Consistent_fresh Consistent_pushReason Consistent_pushWarning : pec_steps.

Ltac split_step :=
  repeat match goal with
         | |- context [if ?b then _ else _] => destruct b
         | |- context [match ?o with Some _ => _ | None => _ end] => destruct o
         end;
  first [ apply Appends_pushReason | apply Appends_pushWarning
        | symmetry; apply merge_fresh_r | auto with pec_steps ].

Lemma Appends_locationCheck c ctx : Appends (locationCheck c ctx).
Proof.
  unfold locationCheck. apply Appends_fold. intros x r. cbv beta. split_step.
Qed.

Lemma Appends_riskCheck c ctx : Appends (riskCheck c ctx).
Proof. intros r. unfold riskCheck. cbv zeta. split_step. Qed.

Lemma Appends_conformityCheck c ctx : Appends (conformityCheck c ctx).
Proof. intros r. unfold conformityCheck. split_step. Qed.

Lemma Appends_transferCheck c g : Appends (transferCheck c g).
Proof. intros r. unfold transferCheck. split_step. Qed.

Lemma Appends_specialCatCheck c g : Appends (specialCatCheck c g).
Proof. intros r. unfold specialCatCheck. split_step. Qed.

Lemma Appends_gdprCheck c ctx : Appends (gdprCheck c ctx).
Proof.
  unfold gdprCheck. destruct (Ctx.gdpr_requirements ctx) as [g|].
  - apply (Appends_compose (transferCheck c g) (specialCatCheck c g));
      [apply Appends_transferCheck | apply Appends_specialCatCheck].
  - apply Appends_id.
Qed.

Lemma Appends_sectorCheck c ctx : Appends (sectorCheck c ctx).
Proof.
  unfold sectorCheck. apply Appends_fold. intros x r. cbv beta. split_step.
Qed.

Lemma Appends_certificationCheck c ctx : Appends (certificationCheck c ctx).
Proof. intros r. unfold certificationCheck. cbv zeta. split_step. Qed.

Lemma Appends_supplyChainCheck c : Appends (supplyChainCheck c).
Proof. intros r. unfold supplyChainCheck. split_step. Qed.

(** The battery is the concatenation of what each check pushes when it is
    run on its own. *)
Lemma runChecks_merge c ctx r :
  runChecks c ctx r =
  merge r
    (merge (locationCheck c ctx freshResult)
    (merge (riskCheck c ctx freshResult)
    (merge (conformityCheck c ctx freshResult)
    (merge (gdprCheck c ctx freshResult)
    (merge (sectorCheck c ctx freshResult)
    (merge (certificationCheck c ctx freshResult)
           (supplyChainCheck c freshResult))))))).
Proof.
  unfold runChecks. cbv zeta.
  rewrite (Appends_supplyChainCheck c), (Appends_certificationCheck c ctx),
    (Appends_sectorCheck c ctx), (Appends_gdprCheck c ctx),
    (Appends_conformityCheck c ctx), (Appends_riskCheck c ctx),
    (Appends_locationCheck c ctx).
  by rewrite !merge_assoc.
Qed.

Lemma Consistent_runChecks c ctx r : Consistent r -> Consistent (runChecks c ctx r).
Proof.
  intros Hr. unfold runChecks. cbv zeta.
  assert (Hloc : forall r, Consistent r -> Consistent (locationCheck c ctx r)).
  { intros r0 H0. unfold locationCheck. apply Consistent_fold; auto.
    intros r1 x H1. split_step. }
  assert (Hsec : forall r, Consistent r -> Consistent (sectorCheck c ctx r)).
  { intros r0 H0. unfold sectorCheck. apply Consistent_fold; auto.
    intros r1 x H1. split_step. }
  assert (Hrisk : forall r, Consistent r -> Consistent (riskCheck c ctx r)).
  { intros r0 H0. unfold riskCheck. cbv zeta. split_step. }
  assert (Hconf : forall r, Consistent r -> Consistent (conformityCheck c ctx r)).
  { intros r0 H0. unfold conformityCheck. split_step. }
  assert (Hgdpr : forall r, Consistent r -> Consistent (gdprCheck c ctx r)).
  { intros r0 H0. unfold gdprCheck, specialCatCheck, transferCheck. cbv zeta. split_step. }
  assert (Hcert : forall r, Consistent r -> Consistent (certificationCheck c ctx r)).
  { intros r0 H0. unfold certificationCheck. cbv zeta. split_step. }
  assert (Hsup : forall r, Consistent r -> Consistent (supplyChainCheck c r)).
  { intros r0 H0. unfold supplyChainCheck. split_step. }
  auto 10.
Qed.

(** The verdict of [checkCompliance] does not depend on the audit logger. *)
Lemma checkCompliance_result toolName c ctx lg :
  (checkCompliance toolName c ctx lg).1 =
  match c with
  | None =>
    match Legacy.policy (Ctx.legacy_servers ctx) with
    | block => pushReason "Tool lacks PEC compliance metadata and legacy servers are blocked"
                 freshResult
    | warn => pushWarning "Tool lacks PEC compliance metadata (legacy server)" freshResult
    | allow => freshResult
    end
  | Some c =>
    if Js.truthy (Pec.pec_version c) then runChecks c ctx freshResult
    else match Legacy.policy (Ctx.legacy_servers ctx) with
         | block => pushReason "Tool does not declare PEC version" freshResult
         | _ => freshResult
         end
  end.
Proof.
  unfold checkCompliance. cbv zeta.
  destruct c as [c|].
  - destruct (Js.truthy (Pec.pec_version c)); simpl.
    + destruct lg as [lg|]; [|reflexivity].
      by destruct (compliant _ && _).
    + by destruct (Legacy.policy _).
  - by destruct (Legacy.policy _).
Qed.

Lemma checkCompliance_Consistent toolName c ctx lg :
  Consistent (checkCompliance toolName c ctx lg).1.
Proof.
  rewrite checkCompliance_result.
  destruct c as [c|].
  - destruct (Js.truthy _).
    + apply Consistent_runChecks, Consistent_fresh.
    + destruct (Legacy.policy _); auto with pec_steps.
  - destruct (Legacy.policy _); auto with pec_steps.
Qed.

(** ** Jurisdiction resolver *)

Lemma elem_of_addExpansions x codes acc :
  x ∈ addExpansions codes acc <-> x ∈ acc \/ inExpansions x codes.
Proof.
  unfold addExpansions, inExpansions.
  revert acc. induction codes as [|code codes IH]; intros acc; simpl.
  - split; [auto | intros [H | (c & Hc & _)]; [done | by apply elem_of_nil in Hc]].
  - rewrite IH.
    assert (Hin : forall (ls : list string) (s : gset string),
               x ∈ fold_left (fun s loc => s ∪ {[loc]}) ls s <-> x ∈ s \/ x ∈ ls).
    { induction ls as [|l ls IHl]; intros s; simpl.
      - rewrite elem_of_nil. tauto.
      - rewrite IHl, elem_of_union, elem_of_singleton, elem_of_cons. tauto. }
    rewrite Hin. split.
    + intros [[H | H] | (c & Hc & Hx)]; eauto.
      * right. exists code. split; [apply list_elem_of_here | done].
      * right. exists c. split; [by apply list_elem_of_further | done].
    + intros [H | (c & Hc & Hx)]; [tauto|].
      apply elem_of_cons in Hc as [-> | Hc]; [tauto | right; eauto].
Qed.

Lemma isLocationAllowed_spec location required prohibited :
  isLocationAllowed location required prohibited = true <->
  inExpansions (Js.toUpperCase location) required
  /\ ~ inExpansions (Js.toUpperCase location) prohibited.
Proof.
  unfold isLocationAllowed. cbv zeta.
  destruct (bool_decide _) eqn:Hb.
  - apply bool_decide_eq_true in Hb. apply elem_of_addExpansions in Hb as [Hb | Hb].
    + by apply not_elem_of_empty in Hb.
    + split; [done | tauto].
  - apply bool_decide_eq_false in Hb.
    rewrite bool_decide_eq_true, elem_of_addExpansions.
    rewrite elem_of_addExpansions in Hb.
    split.
    + intros [H | H]; [by apply not_elem_of_empty in H | tauto].
    + tauto.
Qed.

Lemma expandJurisdiction_concrete code x :
  x ∈ expandJurisdiction code -> isAggregate x = false.
Proof.
  unfold expandJurisdiction. cbv zeta.
  destruct (String.eqb (Js.toUpperCase code) "EU") eqn:E1.
  { intros H. apply list_elem_of_In in H. simpl in H.
    repeat (destruct H as [<- | H]; [reflexivity|]). destruct H. }
  destruct (String.eqb (Js.toUpperCase code) "EEA") eqn:E2.
  { intros H. apply list_elem_of_In in H. simpl in H.
    repeat (destruct H as [<- | H]; [reflexivity|]). destruct H. }
  destruct (String.eqb (Js.toUpperCase code) "ADEQUACY") eqn:E3.
  { intros H. apply list_elem_of_In in H. simpl in H.
    repeat (destruct H as [<- | H]; [reflexivity|]). destruct H. }
  intros H. apply list_elem_of_singleton in H as ->.
  unfold isAggregate. by rewrite E1, E2, E3.
Qed.

(** ** What each check pushes when run on its own *)

Lemma truthy_nonempty s : Js.truthy s = true <-> s <> "".
Proof. destruct s; simpl; split; congruence. Qed.

Lemma reasons_locationCheck c ctx :
  reasons (locationCheck c ctx freshResult)
  = map (fun location => "Processing location '" +:+ location
                         +:+ "' is not allowed under deployment context")
        (List.filter
           (fun l => negb (isLocationAllowed l
                             (Residency.required (Ctx.data_residency ctx))
                             (Residency.prohibited (Ctx.data_residency ctx))))
           (Pec.processing_locations c)).
Proof.
  unfold locationCheck.
  rewrite (fold_pushReason
             (fun l => negb (isLocationAllowed l
                               (Residency.required (Ctx.data_residency ctx))
                               (Residency.prohibited (Ctx.data_residency ctx))))).
  reflexivity.
Qed.

Lemma reasons_sectorCheck c ctx :
  reasons (sectorCheck c ctx freshResult)
  = map (fun prohibited => "Tool is suitable for prohibited sector: '" +:+ prohibited +:+ "'")
        (List.filter (fun s => Js.includes (Pec.suitable_for c) s)
                     (Sectors.prohibited (Ctx.sectors ctx))).
Proof.
  unfold sectorCheck.
  rewrite (fold_pushReason (fun s => Js.includes (Pec.suitable_for c) s)).
  reflexivity.
Qed.

Lemma count_locationCheck c ctx :
  length (reasons (locationCheck c ctx freshResult)) = locationViolations c ctx.
Proof. rewrite reasons_locationCheck. apply length_map. Qed.

Lemma count_sectorCheck c ctx :
  length (reasons (sectorCheck c ctx freshResult)) = sectorViolations c ctx.
Proof. rewrite reasons_sectorCheck. apply length_map. Qed.

Lemma count_riskCheck c ctx :
  length (reasons (riskCheck c ctx freshResult)) = riskViolations c ctx.
Proof. unfold riskCheck, riskViolations. cbv zeta. by destruct (_ >? _)%Z. Qed.

Lemma count_conformityCheck c ctx :
  length (reasons (conformityCheck c ctx freshResult)) = conformityViolations c ctx.
Proof.
  unfold conformityCheck, conformityViolations.
  destruct (AiAct.conformity_assessed _); simpl; [done|].
  by destruct (bool_decide _).
Qed.

Lemma length_nonzero {A} (xs : list A) :
  (length xs =? 0)%nat = match xs with [] => true | _ => false end.
Proof. by destruct xs. Qed.

Lemma count_gdprCheck c ctx :
  length (reasons (gdprCheck c ctx freshResult))
  = transferViolations c ctx + specialCategoryViolations c ctx.
Proof.
  unfold gdprCheck, transferViolations, specialCategoryViolations.
  destruct (Ctx.gdpr_requirements ctx) as [g|]; [|done].
  cbv zeta. rewrite (Appends_specialCatCheck c g). simpl. rewrite length_app.
  f_equal.
  - unfold transferCheck, checkTransferMechanisms, failedWith.
    destruct (GdprReq.transfer_mechanisms_required g) as [[|m ms]|]; try done.
    rewrite !length_nonzero.
    destruct (Gdpr.transfer_mechanisms (Pec.gdpr c)) as [|t ts] eqn:Ht; [done|].
    unfold Js.some, Js.includes, overlaps.
    by destruct (existsb _ (t :: ts)).
  - unfold specialCatCheck, checkSpecialCategories, failedWith.
    destruct (GdprReq.special_categories_allowed g) as [[|]|]; try done;
      by destruct (Gdpr.special_categories_processed _).
Qed.

Lemma count_certificationCheck c ctx :
  length (reasons (certificationCheck c ctx freshResult)) = certificationViolations c ctx.
Proof.
  unfold certificationCheck, certificationViolations, overlaps, Js.some, Js.includes.
  cbv zeta.
  destruct (Certs.required_any (Ctx.certifications ctx)) as [|r rs]; [done|].
  destruct (existsb _ (r :: rs)); [done|]. cbn [negb andb length Nat.ltb Nat.leb].
  by destruct (bool_decide _).
Qed.

Lemma count_supplyChainCheck c :
  reasons (supplyChainCheck c freshResult) = [].
Proof. unfold supplyChainCheck. by destruct (Pec.supply_chain_disclosure c). Qed.

Lemma count_runChecks c ctx :
  length (reasons (runChecks c ctx freshResult)) = batteryViolations c ctx.
Proof.
  rewrite runChecks_merge. simpl. rewrite !length_app, count_supplyChainCheck.
  rewrite count_locationCheck, count_riskCheck, count_conformityCheck, count_gdprCheck,
    count_sectorCheck, count_certificationCheck.
  unfold batteryViolations. simpl. lia.
Qed.

(** ** Claims about [checkCompliance] *)

(** C1, as the code has it.  For metadata with a non-empty version string no
    check short-circuits another: the result is what the seven checks and the
    supply-chain check push when each is run on its own, appended in order;
    the number of fatal reasons is the number of violations (one per
    disallowed location, one per prohibited sector the tool is suitable for,
    one each for risk, conformity, transfer mechanisms, special categories and
    certifications), which is at least the number of distinct rules
    violated. *)
Theorem checkCompliance_no_short_circuit toolName c ctx lg :
  Pec.pec_version c <> "" ->
  let r := (checkCompliance toolName (Some c) ctx lg).1 in
  r = merge (locationCheck c ctx freshResult)
     (merge (riskCheck c ctx freshResult)
     (merge (conformityCheck c ctx freshResult)
     (merge (gdprCheck c ctx freshResult)
     (merge (sectorCheck c ctx freshResult)
     (merge (certificationCheck c ctx freshResult)
            (supplyChainCheck c freshResult))))))
  /\ length (reasons r) = violations c ctx
  /\ distinctRulesViolated c ctx <= length (reasons r).
Proof.
  intros Hv r. subst r. apply truthy_nonempty in Hv.
  rewrite checkCompliance_result, Hv.
  assert (Hlen : length (reasons (runChecks c ctx freshResult)) = violations c ctx).
  { rewrite count_runChecks. unfold violations, versionViolations. by rewrite Hv. }
  split; [|split].
  - rewrite runChecks_merge. apply merge_fresh_l.
  - exact Hlen.
  - rewrite Hlen. unfold violations, distinctRulesViolated, batteryViolations. lia.
Qed.

(** C1, witness: a versioned tool over the risk threshold and suitable for
    one prohibited sector gets exactly two reasons. *)
Lemma checkCompliance_no_short_circuit_witness :
  Pec.pec_version (riskyBiometricTool "1.0") <> ""
  /\ riskViolations (riskyBiometricTool "1.0") usHealthcareContext = 1
  /\ sectorViolations (riskyBiometricTool "1.0") usHealthcareContext = 1
  /\ length (reasons (checkCompliance "scanner" (Some (riskyBiometricTool "1.0"))
                        usHealthcareContext None).1) = 2.
Proof.
  split; [discriminate|].
  split; [vm_compute; reflexivity|].
  split; [vm_compute; reflexivity|].
  pose proof (checkCompliance_no_short_circuit "scanner" (riskyBiometricTool "1.0")
                usHealthcareContext None) as H.
  destruct H as (_ & H & _); [discriminate|].
  rewrite H. vm_compute. reflexivity.
Defined.

(** C1 as stated fails on a record whose version string is empty: under the
    [warn] policy the same tool violates the risk and the sector rule and gets
    no reason at all. *)
Lemma checkCompliance_empty_version_short_circuits :
  ~ (forall toolName c ctx lg,
        length (reasons (checkCompliance toolName (Some c) ctx lg).1) = violations c ctx).
Proof.
  intros H.
  specialize (H "scanner" (riskyBiometricTool "") usHealthcareContext None).
  vm_compute in H. discriminate H.
Qed.

(** C5: [compliant] is true exactly when no fatal reason was accumulated, so
    two evaluations with the same reasons have the same flag whatever their
    warnings are. *)
Theorem checkCompliance_compliant_iff_no_reasons toolName c ctx lg :
  let r := (checkCompliance toolName c ctx lg).1 in
  (compliant r = true <-> reasons r = [])
  /\ (forall toolName' c' ctx' lg',
        let r' := (checkCompliance toolName' c' ctx' lg').1 in
        reasons r' = reasons r -> compliant r' = compliant r).
Proof.
  cbv zeta. split.
  - apply Consistent_iff, checkCompliance_Consistent.
  - intros toolName' c' ctx' lg' Heq.
    rewrite (checkCompliance_Consistent toolName' c' ctx' lg'),
      (checkCompliance_Consistent toolName c ctx lg).
    by rewrite Heq.
Qed.

(** C5, witness: two evaluations without reasons, one of them with a
    warning, are both compliant. *)
Lemma checkCompliance_compliant_iff_no_reasons_witness :
  compliant (checkCompliance "legacy" None usHealthcareContext None).1
  = compliant (checkCompliance "text_formatter" (Some complianceMetadataEuCompliant2)
                 euDeploymentContext None).1.
Proof.
  apply (checkCompliance_compliant_iff_no_reasons "text_formatter"
           (Some complianceMetadataEuCompliant2) euDeploymentContext None).
  vm_compute. reflexivity.
Defined.

(** C7: without metadata the outcome is a function of
    [legacy_servers.policy] alone, nothing else is checked and nothing is
    logged: [block] gives one reason, [warn] one warning, [allow] neither. *)
Theorem checkCompliance_absent_metadata toolName ctx lg :
  checkCompliance toolName None ctx lg =
  (match Legacy.policy (Ctx.legacy_servers ctx) with
   | block =>
     {| compliant := false;
        reasons := ["Tool lacks PEC compliance metadata and legacy servers are blocked"];
        warnings := [] |}
   | warn =>
     {| compliant := true;
        reasons := [];
        warnings := ["Tool lacks PEC compliance metadata (legacy server)"] |}
   | allow => {| compliant := true; reasons := []; warnings := [] |}
   end, lg).
Proof. unfold checkCompliance. by destruct (Legacy.policy _). Qed.

(** ** Claims about the location check *)

Ltac in_list := apply list_elem_of_In; simpl; repeat (first [left; reflexivity | right]).

(** C3: a location whose uppercased code is in the expansion of the
    prohibited codes is rejected whatever the required codes are, also when
    it is in the expansion of the required codes; otherwise it is allowed
    exactly when it is in the expansion of the required codes, so a location
    in neither set is rejected. *)
Theorem isLocationAllowed_prohibition_precedence location required prohibited :
  let L := Js.toUpperCase location in
  (inExpansions L prohibited -> isLocationAllowed location required prohibited = false)
  /\ (~ inExpansions L prohibited ->
      (isLocationAllowed location required prohibited = true <-> inExpansions L required))
  /\ (~ inExpansions L prohibited -> ~ inExpansions L required ->
      isLocationAllowed location required prohibited = false).
Proof.
  cbv zeta.
  pose proof (isLocationAllowed_spec location required prohibited) as Hspec.
  destruct (isLocationAllowed location required prohibited).
  - destruct Hspec as [[Hreq Hpro] _]; [done|].
    split; [tauto|]. split; [tauto|]. tauto.
  - split; [done|]. split; [|done].
    intros Hpro. split; [done|]. intros Hreq. exfalso.
    assert (Hcontra : false = true) by (apply Hspec; tauto).
    discriminate Hcontra.
Qed.

(** C3, witness: [de] is derivable from the required [EU] and from the
    prohibited [EEA], and is rejected. *)
Lemma isLocationAllowed_prohibition_precedence_witness :
  inExpansions (Js.toUpperCase "de") ["EU"]
  /\ inExpansions (Js.toUpperCase "de") ["EEA"]
  /\ isLocationAllowed "de" ["EU"] ["EEA"] = false.
Proof.
  assert (Hpro : inExpansions (Js.toUpperCase "de") ["EEA"]).
  { exists "EEA". split; in_list. }
  split; [exists "EU"; split; in_list|].
  split; [exact Hpro|].
  exact (proj1 (isLocationAllowed_prohibition_precedence "de" ["EU"] ["EEA"]) Hpro).
Defined.

(** C10: a declared location is compared as it stands, uppercased, with the
    two expanded sets; an aggregate code is in no expansion, so a tool that
    declares one is rejected by the location check for every context, and
    [EU] under required [EU] and no prohibition in particular. *)
Theorem declared_locations_not_expanded :
  (forall location required prohibited,
      isLocationAllowed location required prohibited = true <->
      inExpansions (Js.toUpperCase location) required
      /\ ~ inExpansions (Js.toUpperCase location) prohibited)
  /\ (forall location required prohibited,
        isAggregate (Js.toUpperCase location) = true ->
        isLocationAllowed location required prohibited = false)
  /\ ("EU" ∉ expandJurisdiction "EU")
  /\ isLocationAllowed "EU" ["EU"] [] = false
  /\ (forall c ctx r,
        Pec.processing_locations c = ["EU"] ->
        Residency.required (Ctx.data_residency ctx) = ["EU"] ->
        Residency.prohibited (Ctx.data_residency ctx) = [] ->
        locationCheck c ctx r
        = pushReason "Processing location 'EU' is not allowed under deployment context" r).
Proof.
  assert (Hagg : forall location required prohibited,
             isAggregate (Js.toUpperCase location) = true ->
             isLocationAllowed location required prohibited = false).
  { intros location required prohibited Hagg.
    destruct (isLocationAllowed location required prohibited) eqn:Hallowed; [|done].
    apply isLocationAllowed_spec in Hallowed as [(code & _ & Hin) _].
    apply expandJurisdiction_concrete in Hin. congruence. }
  split; [apply isLocationAllowed_spec|].
  split; [exact Hagg|].
  split.
  { intros Hin. by apply expandJurisdiction_concrete in Hin. }
  split; [by apply Hagg|].
  intros c ctx r Hloc Hreq Hpro.
  unfold locationCheck. rewrite Hloc, Hreq, Hpro. simpl.
  by rewrite (Hagg "EU" ["EU"] []).
Qed.

(** C10, witness: the tool that declares [EU] is rejected under the context
    that requires [EU]. *)
Lemma declared_locations_not_expanded_witness :
  Pec.processing_locations euLabelledTool = ["EU"]
  /\ Residency.required (Ctx.data_residency euOnlyContext) = ["EU"]
  /\ Residency.prohibited (Ctx.data_residency euOnlyContext) = []
  /\ locationCheck euLabelledTool euOnlyContext freshResult
     = {| compliant := false;
          reasons := ["Processing location 'EU' is not allowed under deployment context"];
          warnings := [] |}
  /\ (checkCompliance "eu_tool" (Some euLabelledTool) euOnlyContext None).1
     = {| compliant := false;
          reasons := ["Processing location 'EU' is not allowed under deployment context"];
          warnings := [] |}.
Proof.
  split; [reflexivity|]. split; [reflexivity|]. split; [reflexivity|].
  split.
  - destruct declared_locations_not_expanded as (_ & _ & _ & _ & H).
    rewrite (H euLabelledTool euOnlyContext freshResult); reflexivity.
  - vm_compute. reflexivity.
Defined.

(** ** Claims about single checks of the battery *)

Lemma RISK_LEVELS_order :
  (RISK_LEVELS minimal < RISK_LEVELS limited < RISK_LEVELS gpai)%Z
  /\ (RISK_LEVELS gpai < RISK_LEVELS high < RISK_LEVELS gpai_systemic)%Z
  /\ (RISK_LEVELS gpai_systemic < RISK_LEVELS unacceptable)%Z.
Proof. simpl. lia. Qed.

Lemma reasons_runChecks c ctx :
  reasons (runChecks c ctx freshResult)
  = reasons (locationCheck c ctx freshResult)
    ++ reasons (riskCheck c ctx freshResult)
    ++ reasons (conformityCheck c ctx freshResult)
    ++ reasons (gdprCheck c ctx freshResult)
    ++ reasons (sectorCheck c ctx freshResult)
    ++ reasons (certificationCheck c ctx freshResult).
Proof.
  rewrite runChecks_merge. simpl.
  by rewrite count_supplyChainCheck, app_nil_r.
Qed.

Lemma overlaps_spec (xs ys : list string) :
  overlaps xs ys = true <-> exists m, m ∈ xs /\ m ∈ ys.
Proof.
  unfold overlaps. rewrite existsb_exists. split.
  - intros (m & Hm & Hex). apply existsb_exists in Hex as (m' & Hm' & Heq).
    apply String.eqb_eq in Heq as <-.
    exists m. by rewrite !list_elem_of_In.
  - intros (m & Hm & Hm'). exists m. rewrite <- list_elem_of_In. split; [done|].
    apply existsb_exists. exists m. rewrite <- list_elem_of_In. split; [done|].
    apply String.eqb_refl.
Qed.

Lemma runChecks_escalate_ai_act c ctx r :
  runChecks c (withAiActHandling escalate ctx) r
  = runChecks c (withAiActHandling permissive ctx) r.
Proof. reflexivity. Qed.

Lemma runChecks_escalate_certifications c ctx r :
  runChecks c (withCertificationHandling escalate ctx) r
  = runChecks c (withCertificationHandling permissive ctx) r.
Proof. reflexivity. Qed.

(** C9: [escalate] is [permissive].  Changing one for the other in
    [unknown_handling.ai_act_status] or [unknown_handling.certifications]
    changes neither the result nor the audit log of [checkCompliance]; a tool
    that is not conformity assessed, or holds none of a non-empty list of
    required certifications, gets a fatal reason under [strict] and a warning
    under the other two values. *)
Theorem escalate_behaves_as_permissive toolName c ctx lg :
  checkCompliance toolName c (withAiActHandling escalate ctx) lg
  = checkCompliance toolName c (withAiActHandling permissive ctx) lg
  /\ checkCompliance toolName c (withCertificationHandling escalate ctx) lg
     = checkCompliance toolName c (withCertificationHandling permissive ctx) lg
  /\ (forall m h r,
        AiAct.conformity_assessed (Pec.ai_act_status m) = false ->
        conformityCheck m (withAiActHandling h ctx) r
        = match h with
          | strict => pushReason "Tool has not undergone conformity assessment" r
          | permissive | escalate =>
            pushWarning "Tool has not undergone conformity assessment" r
          end)
  /\ (forall m h r,
        let required_any := Certs.required_any (Ctx.certifications ctx) in
        required_any <> [] ->
        overlaps required_any (Pec.certifications m) = false ->
        certificationCheck m (withCertificationHandling h ctx) r
        = match h with
          | strict =>
            pushReason ("Tool lacks required certifications. Required one of: "
                        +:+ Js.join ", " required_any) r
          | permissive | escalate =>
            pushWarning ("Tool lacks preferred certifications: "
                         +:+ Js.join ", " required_any) r
          end).
Proof.
  split; [|split; [|split]].
  - unfold checkCompliance. cbv zeta. destruct c as [c|]; [|reflexivity].
    rewrite runChecks_escalate_ai_act. reflexivity.
  - unfold checkCompliance. cbv zeta. destruct c as [c|]; [|reflexivity].
    rewrite runChecks_escalate_certifications. reflexivity.
  - intros m h r Hna. unfold conformityCheck. rewrite Hna. by destruct h.
  - intros m h r required_any Hne Hov.
    unfold certificationCheck. cbv zeta. simpl. fold required_any.
    unfold overlaps in Hov. unfold Js.some, Js.includes. rewrite Hov.
    destruct required_any; [done|]. by destruct h.
Qed.

(** C9, witness: the repository's unassessed, uncertified tool under
    [euDeploymentContext] with either handling set to [escalate]. *)
Lemma escalate_behaves_as_permissive_witness :
  conformityCheck complianceMetadataNonCompliant
    (withAiActHandling escalate euDeploymentContext) freshResult
  = {| compliant := true; reasons := [];
       warnings := ["Tool has not undergone conformity assessment"] |}
  /\ certificationCheck complianceMetadataNonCompliant
       (withCertificationHandling escalate euDeploymentContext) freshResult
     = {| compliant := true; reasons := [];
          warnings := ["Tool lacks preferred certifications: ISO_27001, SOC2_TYPE_II"] |}.
Proof.
  destruct (escalate_behaves_as_permissive "data_exporter"
              (Some complianceMetadataNonCompliant) euDeploymentContext None)
    as (_ & _ & Hconf & Hcert).
  split.
  - rewrite Hconf; reflexivity.
  - rewrite Hcert; [reflexivity | discriminate | reflexivity].
Defined.

(** ** The filter orchestrator *)

Lemma appendEntries_nil lg : appendEntries lg [] = lg.
Proof. destruct lg as [[es sid st h] cx]. unfold appendEntries; simpl. by rewrite app_nil_r. Qed.

Lemma appendEntries_app lg es es' :
  appendEntries (appendEntries lg es) es' = appendEntries lg (es ++ es').
Proof. unfold appendEntries; simpl. by rewrite app_assoc. Qed.

Lemma recordedEntries_appendEntries lg es ctx toolName c :
  recordedEntries (appendEntries lg es) ctx toolName c = recordedEntries lg ctx toolName c.
Proof. reflexivity. Qed.

(** What one call of [checkCompliance] does to the audit logger. *)
Lemma checkCompliance_logger toolName c ctx lg :
  (checkCompliance toolName c ctx lg).2
  = (fun l => appendEntries l (recordedEntries l ctx toolName c)) <$> lg.
Proof.
  unfold checkCompliance, recordedEntries. cbv zeta.
  destruct c as [c|].
  - destruct (Js.truthy (Pec.pec_version c)); simpl.
    + destruct lg as [lg|]; [|reflexivity]. simpl.
      destruct (compliant _ && _); [|reflexivity].
      unfold logComplianceWarning, logToolEvaluation, pushEntry, appendEntries; simpl.
      by rewrite <- app_assoc.
    + destruct (Legacy.policy _), lg as [lg|]; simpl; by rewrite ?appendEntries_nil.
  - destruct (Legacy.policy _), lg as [lg|]; simpl; by rewrite ?appendEntries_nil.
Qed.

Lemma checkCompliance_evaluationOf `{ToolLike T} (tool : T) ctx lg :
  (checkCompliance (name tool) (compliance tool) ctx lg).1 = evaluationOf ctx tool.
Proof. unfold evaluationOf. by rewrite !checkCompliance_result. Qed.

(** The loop of [filterCompliantTools], from any intermediate state. *)
Lemma filterStep_fold `{ToolLike T} (tools : list T) ctx out lg :
  fold_left (filterStep ctx) tools (out, lg)
  = (Filtered.mk
       (Filtered.compliant out
        ++ List.filter (fun t => compliant (evaluationOf ctx t)) tools)
       (Filtered.rejected out
        ++ map (fun t => Rejected.mk t (evaluationOf ctx t))
             (List.filter (fun t => negb (compliant (evaluationOf ctx t))) tools)),
     (fun l => appendEntries l
                 (flat_map (fun t => recordedEntries l ctx (name t) (compliance t)) tools))
     <$> lg).
Proof.
  revert out lg. induction tools as [|t tools IH]; intros out lg.
  - simpl. rewrite !app_nil_r. destruct out, lg as [l|]; simpl; by rewrite ?appendEntries_nil.
  - cbn [fold_left]. unfold filterStep at 2.
    rewrite (surjective_pairing (checkCompliance (name t) (compliance t) ctx lg)).
    rewrite checkCompliance_evaluationOf, checkCompliance_logger.
    cbn [List.filter flat_map].
    destruct (compliant (evaluationOf ctx t)) eqn:Hc; rewrite IH; cbn [negb map Filtered.compliant Filtered.rejected].
    + rewrite <- app_assoc. destruct lg as [l|]; simpl; [|reflexivity].
      by rewrite appendEntries_app.
    + rewrite <- app_assoc. destruct lg as [l|]; simpl; [|reflexivity].
      by rewrite appendEntries_app.
Qed.

Lemma filterCompliantTools_spec `{ToolLike T} (tools : list T) ctx lg :
  filterCompliantTools tools ctx lg
  = (Filtered.mk
       (List.filter (fun t => compliant (evaluationOf ctx t)) tools)
       (map (fun t => Rejected.mk t (evaluationOf ctx t))
          (List.filter (fun t => negb (compliant (evaluationOf ctx t))) tools)),
     (fun l => appendEntries l
                 (flat_map (fun t => recordedEntries l ctx (name t) (compliance t)) tools))
     <$> lg).
Proof. unfold filterCompliantTools. by rewrite filterStep_fold. Qed.

(** C2, as the code has it.  Without an installed logger nothing is
    recorded.  With one, the batch appends, in input order, the entries of the
    tools whose metadata is present and carries a non-empty version string:
    for each of them one evaluation entry ([tool_approved] when compliant,
    [tool_rejected] otherwise) followed by one [compliance_warning] entry when
    it is accepted with warnings.  A tool without metadata or with an empty
    version string appends no entry. *)
Theorem filterCompliantTools_audit_entries `{ToolLike T} (tools : list T) ctx lg :
  (filterCompliantTools tools ctx None).2 = None
  /\ (filterCompliantTools tools ctx (Some lg)).2
     = Some (appendEntries lg
               (flat_map (fun t => recordedEntries lg ctx (name t) (compliance t)) tools))
  /\ (forall t : T,
        map Entry.event_type (recordedEntries lg ctx (name t) (compliance t))
        = if audited t then claimedEvents ctx t else [])
  /\ (forall (t : T) e,
        e ∈ recordedEntries lg ctx (name t) (compliance t) ->
        Entry.tool_name e = Some (name t)).
Proof.
  split; [|split; [|split]].
  - by rewrite filterCompliantTools_spec.
  - by rewrite filterCompliantTools_spec.
  - intros t. unfold audited, claimedEvents, evaluationOf, recordedEntries.
    rewrite checkCompliance_result.
    destruct (compliance t) as [c|]; [|reflexivity].
    destruct (Js.truthy (Pec.pec_version c)); [|reflexivity].
    cbv zeta. destruct (compliant _); [|reflexivity].
    by destruct (0 <? _)%nat.
  - intros t e. unfold recordedEntries.
    destruct (compliance t) as [c|]; [|by intros ?%elem_of_nil].
    destruct (Js.truthy (Pec.pec_version c)); [|by intros ?%elem_of_nil].
    cbv zeta. intros [-> | Hin]%elem_of_cons; [reflexivity|].
    destruct (compliant _ && _); [|by apply elem_of_nil in Hin].
    by apply list_elem_of_singleton in Hin as ->.
Qed.

(** C2, witness: in [mixedBatch] only [text_formatter] reaches the logger. *)
Lemma filterCompliantTools_audit_entries_witness :
  map (fun e => (Entry.event_type e, Entry.tool_name e))
      (flat_map (fun t => recordedEntries
                            (initAuditLogger usHealthcareContext "session" "start" "hash")
                            euDeploymentContext (name t) (compliance t))
                mixedBatch)
  = [(tool_approved, Some "text_formatter")]
  /\ (filterCompliantTools mixedBatch euDeploymentContext
        (Some (initAuditLogger usHealthcareContext "session" "start" "hash"))).2
     = Some (appendEntries (initAuditLogger usHealthcareContext "session" "start" "hash")
               (flat_map (fun t => recordedEntries
                                     (initAuditLogger usHealthcareContext "session" "start" "hash")
                                     euDeploymentContext (name t) (compliance t))
                         mixedBatch)).
Proof.
  split; [vm_compute; reflexivity|].
  apply (filterCompliantTools_audit_entries mixedBatch euDeploymentContext
           (initAuditLogger usHealthcareContext "session" "start" "hash")).
Defined.

(** C2 as stated fails: under the [warn] policy the tool without metadata
    and the tool with an empty version string are both accepted, the first
    with a warning, and neither gets an audit entry. *)
Lemma filterCompliantTools_skips_unaudited_tools :
  ~ (forall (tools : list DemoTool) ctx lg lg',
        (filterCompliantTools tools ctx (Some lg)).2 = Some lg' ->
        map Entry.event_type (AuditLog.entries (log lg'))
        = map Entry.event_type (AuditLog.entries (log lg))
          ++ flat_map (claimedEvents ctx) tools).
Proof.
  intros H.
  specialize (H [mkTool "legacy_tool" None; mkTool "scanner" (Some (riskyBiometricTool ""))]
                usHealthcareContext
                (initAuditLogger usHealthcareContext "session" "start" "hash")
                (initAuditLogger usHealthcareContext "session" "start" "hash")
                eq_refl).
  vm_compute in H. discriminate H.
Qed.

(** ** Order of the two buckets *)

Section Positions.
Context {T : Type}.
Implicit Types (l xs ys : list (nat * T)) (p : nat * T -> bool).

Lemma mergeByPosition_nil_r xs : mergeByPosition xs [] = xs.
Proof. by destruct xs. Qed.

Lemma mergeByPosition_cons x xs y ys :
  mergeByPosition (x :: xs) (y :: ys)
  = if (x.1 <=? y.1)%nat then x :: mergeByPosition xs (y :: ys)
    else y :: mergeByPosition (x :: xs) ys.
Proof. reflexivity. Qed.

Lemma increasing_inv x l :
  increasing (x :: l) -> increasing l /\ Forall (fun y => x.1 < y.1) l.
Proof. intros Hs. by apply StronglySorted_inv in Hs. Qed.

Lemma increasing_filter p l : increasing l -> increasing (List.filter p l).
Proof.
  unfold increasing. induction 1 as [|x l Hs IH Hall]; simpl; [constructor|].
  destruct (p x); [|done].
  constructor; [done|].
  apply Forall_forall. intros y Hy%list_elem_of_In%filter_In.
  rewrite Forall_forall in Hall. apply Hall, list_elem_of_In, Hy.
Qed.

(** Splitting an increasing list by a predicate and merging the two halves
    by position gives the list back. *)
Lemma mergeByPosition_partition p l :
  increasing l ->
  mergeByPosition (List.filter p l) (List.filter (fun x => negb (p x)) l) = l.
Proof.
  induction l as [|a l IH]; intros Hs; [reflexivity|].
  apply increasing_inv in Hs as [Hs Hall]. specialize (IH Hs).
  rewrite Forall_forall in Hall. cbn [List.filter].
  destruct (p a); cbn [negb].
  - destruct (List.filter (fun x => negb (p x)) l) as [|y ys] eqn:Hneg.
    + rewrite mergeByPosition_nil_r in IH |- *. by rewrite IH.
    + rewrite mergeByPosition_cons.
      assert (Hy : a.1 < y.1).
      { apply Hall, list_elem_of_In.
        apply (proj1 (filter_In (fun x => negb (p x)) y l)).
        rewrite Hneg. by left. }
      apply Nat.lt_le_incl, Nat.leb_le in Hy. by rewrite Hy, IH.
  - destruct (List.filter p l) as [|x xs] eqn:Hpos.
    + cbn [mergeByPosition] in IH |- *. by rewrite IH.
    + rewrite mergeByPosition_cons.
      assert (Hx : a.1 < x.1).
      { apply Hall, list_elem_of_In.
        apply (proj1 (filter_In p x l)). rewrite Hpos. by left. }
      apply Nat.leb_gt in Hx. by rewrite Hx, IH.
Qed.

Lemma increasing_zip_seq (ts : list T) k : increasing (zip (seq k (length ts)) ts).
Proof.
  unfold increasing. revert k. induction ts as [|t ts IH]; intros k; simpl; [constructor|].
  constructor; [apply IH|].
  apply Forall_forall. intros [i u] Hin. simpl.
  apply elem_of_zip_l, list_elem_of_In, in_seq in Hin. lia.
Qed.

Lemma filter_zip_snd (q : T -> bool) (ts : list T) k :
  map snd (List.filter (fun x => q x.2) (zip (seq k (length ts)) ts)) = List.filter q ts.
Proof.
  revert k. induction ts as [|t ts IH]; intros k; simpl; [reflexivity|].
  destruct (q t); simpl; by rewrite IH.
Qed.
End Positions.

Lemma map_tool_rejected {T} (f : T -> ComplianceCheckResult) (l : list T) :
  map Rejected.tool (map (fun t => Rejected.mk t (f t)) l) = l.
Proof. induction l as [|t l IH]; simpl; by rewrite ?IH. Qed.

(** C4: run on the batch with every tool tagged with its position, the
    filter returns two buckets whose positions increase, and merging them by
    position gives the tagged batch back; without the tags these are the
    buckets of the plain run, which are the compliant tools and the others,
    each in input order. *)
Theorem filterCompliantTools_preserves_order `{ToolLike T} (tools : list T) ctx lg :
  let out := (filterCompliantTools (positioned tools) ctx lg).1 in
  let plain := (filterCompliantTools tools ctx lg).1 in
  let accepted := Filtered.compliant out in
  let rejected := map Rejected.tool (Filtered.rejected out) in
  mergeByPosition accepted rejected = positioned tools
  /\ increasing accepted
  /\ increasing rejected
  /\ map snd accepted = Filtered.compliant plain
  /\ map snd rejected = map Rejected.tool (Filtered.rejected plain)
  /\ Filtered.compliant plain
     = List.filter (fun t => compliant (evaluationOf ctx t)) tools
  /\ map Rejected.tool (Filtered.rejected plain)
     = List.filter (fun t => negb (compliant (evaluationOf ctx t))) tools.
Proof.
  cbv zeta. rewrite !filterCompliantTools_spec. cbn [fst Filtered.compliant Filtered.rejected].
  rewrite !map_tool_rejected. unfold positioned.
  pose proof (increasing_zip_seq tools 0) as Hinc.
  split; [|split; [|split; [|split; [|split; [|split]]]]].
  - apply (mergeByPosition_partition
             (fun x : nat * T => compliant (evaluationOf ctx x))), Hinc.
  - by apply increasing_filter.
  - by apply increasing_filter.
  - apply (filter_zip_snd (fun t => compliant (evaluationOf ctx t))).
  - apply (filter_zip_snd (fun t => negb (compliant (evaluationOf ctx t)))).
  - reflexivity.
  - reflexivity.
Qed.

Example filterCompliantTools_mixedBatch :
  (filterCompliantTools (positioned mixedBatch) euDeploymentContext None).1
  = Filtered.mk
      [(2, mkTool "text_formatter" (Some complianceMetadataEuCompliant2))]
      [Rejected.mk (0, mkTool "legacy_tool" None)
         {| compliant := false;
            reasons := ["Tool lacks PEC compliance metadata and legacy servers are blocked"];
            warnings := [] |};
       Rejected.mk (1, mkTool "scanner" (Some (riskyBiometricTool "")))
         {| compliant := false;
            reasons := ["Tool does not declare PEC version"];
            warnings := [] |}].
Proof. vm_compute. reflexivity. Qed.

(** * Further properties of the code *)

(** ** Jurisdiction resolver *)

Lemma upper_ascii_idem c : Js.upper_ascii (Js.upper_ascii c) = Js.upper_ascii c.
Proof. destruct c as [[] [] [] [] [] [] [] []]; reflexivity. Qed.

Lemma toUpperCase_idem s : Js.toUpperCase (Js.toUpperCase s) = Js.toUpperCase s.
Proof. induction s as [|c s IH]; simpl; [done|]. by rewrite upper_ascii_idem, IH. Qed.

Lemma bool_eq_iff (a b : bool) : (a = true <-> b = true) -> a = b.
Proof. destruct a, b; intros [H1 H2]; auto. symmetry; auto. Qed.

Lemma sameLetter_upper a b : sameLetter a b = true -> Js.upper_ascii a = Js.upper_ascii b.
Proof.
  unfold sameLetter. rewrite !orb_true_iff, !bool_decide_eq_true.
  intros [[-> | H] | H]; [reflexivity | |];
    apply list_elem_of_In in H; unfold letterCases in H; simpl in H;
    repeat (destruct H as [[= <- <-] | H]; [reflexivity|]); destruct H.
Qed.

Lemma sameUpToCase_upper s t :
  sameUpToCase s t = true -> Js.toUpperCase s = Js.toUpperCase t.
Proof.
  revert t. induction s as [|a s IH]; intros [|b t]; simpl; try done.
  intros [Hab Hst]%andb_true_iff. by rewrite (sameLetter_upper a b Hab), (IH t Hst).
Qed.

Lemma expandJurisdiction_same_upper s t :
  Js.toUpperCase s = Js.toUpperCase t -> expandJurisdiction s = expandJurisdiction t.
Proof. unfold expandJurisdiction. by intros ->. Qed.

Lemma inExpansions_cons x code codes :
  inExpansions x (code :: codes) <-> x ∈ expandJurisdiction code \/ inExpansions x codes.
Proof.
  unfold inExpansions. split.
  - intros (c & [-> | Hc]%elem_of_cons & Hx); [by left | right; eauto].
  - intros [Hx | (c & Hc & Hx)].
    + exists code. split; [apply list_elem_of_here | done].
    + exists c. split; [by apply list_elem_of_further | done].
Qed.

Lemma inExpansions_sameUpToCase x codes codes' :
  Forall2 (fun s t => sameUpToCase s t = true) codes codes' ->
  inExpansions x codes <-> inExpansions x codes'.
Proof.
  induction 1 as [|s t codes codes' Hst _ IH].
  - done.
  - rewrite !inExpansions_cons, IH.
    by rewrite (expandJurisdiction_same_upper s t (sameUpToCase_upper s t Hst)).
Qed.

(** X1: on ASCII codes the location check ignores letter case.  Two
    locations that differ only in the case of their letters, checked against
    required and prohibited lists that differ only in the case of their
    letters, get the same answer. *)
Theorem isLocationAllowed_case_insensitive
    location location' (required required' prohibited prohibited' : list string) :
  asciiOnly location = true ->
  Forall (fun s => asciiOnly s = true) required ->
  Forall (fun s => asciiOnly s = true) prohibited ->
  sameUpToCase location location' = true ->
  Forall2 (fun s t => sameUpToCase s t = true) required required' ->
  Forall2 (fun s t => sameUpToCase s t = true) prohibited prohibited' ->
  isLocationAllowed location required prohibited
  = isLocationAllowed location' required' prohibited'.
Proof.
  intros _ _ _ Hloc Hreq Hpro.
  apply bool_eq_iff. rewrite !isLocationAllowed_spec.
  rewrite (sameUpToCase_upper location location' Hloc).
  by rewrite (inExpansions_sameUpToCase _ required required' Hreq),
    (inExpansions_sameUpToCase _ prohibited prohibited' Hpro).
Qed.

(** X1, witness: [de] under lower- and mixed-case codes is allowed, as [DE]
    is under the upper-case codes. *)
Lemma isLocationAllowed_case_insensitive_witness :
  asciiOnly "de" = true
  /\ Forall (fun s => asciiOnly s = true) ["eu"; "Ch"]
  /\ Forall (fun s => asciiOnly s = true) ["us"]
  /\ sameUpToCase "de" "DE" = true
  /\ Forall2 (fun s t => sameUpToCase s t = true) ["eu"; "Ch"] ["EU"; "CH"]
  /\ Forall2 (fun s t => sameUpToCase s t = true) ["us"] ["US"]
  /\ isLocationAllowed "DE" ["EU"; "CH"] ["US"] = true
  /\ isLocationAllowed "de" ["eu"; "Ch"] ["us"] = true.
Proof.
  assert (H1 : asciiOnly "de" = true) by reflexivity.
  assert (H2 : Forall (fun s => asciiOnly s = true) ["eu"; "Ch"])
    by (repeat constructor).
  assert (H3 : Forall (fun s => asciiOnly s = true) ["us"]) by (repeat constructor).
  assert (H4 : sameUpToCase "de" "DE" = true) by (vm_compute; reflexivity).
  assert (H5 : Forall2 (fun s t => sameUpToCase s t = true) ["eu"; "Ch"] ["EU"; "CH"])
    by (repeat constructor; vm_compute; reflexivity).
  assert (H6 : Forall2 (fun s t => sameUpToCase s t = true) ["us"] ["US"])
    by (repeat constructor; vm_compute; reflexivity).
  assert (H7 : isLocationAllowed "DE" ["EU"; "CH"] ["US"] = true)
    by (vm_compute; reflexivity).
  repeat (split; [assumption|]).
  rewrite (isLocationAllowed_case_insensitive "de" "DE" ["eu"; "Ch"] ["EU"; "CH"]
             ["us"] ["US"] H1 H2 H3 H4 H5 H6).
  exact H7.
Defined.

Lemma inExpansions_subseteq x (codes codes' : list string) :
  codes ⊆ codes' -> inExpansions x codes -> inExpansions x codes'.
Proof. intros Hsub (code & Hin & Hx). exists code. split; [by apply Hsub | done]. Qed.

(** X2: the location check is monotone in the two code lists read as sets:
    with more required codes and fewer prohibited ones an allowed location
    stays allowed; so the order and the repetitions of the codes do not
    matter. *)
Theorem isLocationAllowed_monotone location (required required' prohibited prohibited' : list string) :
  required ⊆ required' ->
  prohibited' ⊆ prohibited ->
  (isLocationAllowed location required prohibited = true ->
   isLocationAllowed location required' prohibited' = true)
  /\ (required' ⊆ required -> prohibited ⊆ prohibited' ->
      isLocationAllowed location required' prohibited'
      = isLocationAllowed location required prohibited).
Proof.
  intros Hreq Hpro.
  assert (Hmono : forall r r' p p' : list string, r ⊆ r' -> p' ⊆ p ->
            isLocationAllowed location r p = true ->
            isLocationAllowed location r' p' = true).
  { intros r r' p p' Hr Hp. rewrite !isLocationAllowed_spec. intros [Hin Hout]. split.
    - by apply (inExpansions_subseteq _ r).
    - intros Hin'. apply Hout. by apply (inExpansions_subseteq _ p'). }
  split; [by apply Hmono|].
  intros Hreq' Hpro'. apply bool_eq_iff. split; by apply Hmono.
Qed.

Ltac list_incl :=
  let x := fresh "x" in
  let Hx := fresh "Hx" in
  intros x Hx; apply list_elem_of_In in Hx; apply list_elem_of_In; simpl in *; tauto.

(** X2, witness: reordering and repeating codes changes nothing. *)
Lemma isLocationAllowed_monotone_witness :
  ["EU"; "CH"] ⊆ ["CH"; "EU"; "CH"]
  /\ ["RU"; "US"] ⊆ ["US"; "RU"; "US"]
  /\ isLocationAllowed "ch" ["CH"; "EU"; "CH"] ["RU"; "US"]
     = isLocationAllowed "ch" ["EU"; "CH"] ["US"; "RU"; "US"].
Proof.
  split; [list_incl|]. split; [list_incl|].
  apply (isLocationAllowed_monotone "ch" ["EU"; "CH"] ["CH"; "EU"; "CH"]
           ["US"; "RU"; "US"] ["RU"; "US"]); list_incl.
Defined.

Lemma isLocationAllowed_no_required location prohibited :
  isLocationAllowed location [] prohibited = false.
Proof.
  destruct (isLocationAllowed location [] prohibited) eqn:H; [|done].
  apply isLocationAllowed_spec in H as [(code & Hin & _) _].
  by apply elem_of_nil in Hin.
Qed.

Lemma filter_all {A} (p : A -> bool) (xs : list A) :
  (forall x, p x = true) -> List.filter p xs = xs.
Proof. intros Hp. induction xs as [|x xs IH]; simpl; [done|]. by rewrite Hp, IH. Qed.

(** X3: the edges of the location check.  A tool that declares no processing
    location passes it under every context; under a context that requires
    no location every declared location is reported, in declaration order,
    and a versioned tool with at least one location is rejected. *)
Theorem locationCheck_edges c ctx r :
  (Pec.processing_locations c = [] -> locationCheck c ctx r = r)
  /\ (Residency.required (Ctx.data_residency ctx) = [] ->
      reasons (locationCheck c ctx r)
      = reasons r
        ++ map (fun location => "Processing location '" +:+ location
                                +:+ "' is not allowed under deployment context")
               (Pec.processing_locations c))
  /\ (Residency.required (Ctx.data_residency ctx) = [] ->
      Pec.processing_locations c <> [] ->
      Pec.pec_version c <> "" ->
      forall toolName lg,
        compliant (checkCompliance toolName (Some c) ctx lg).1 = false).
Proof.
  assert (Hall : Residency.required (Ctx.data_residency ctx) = [] ->
            reasons (locationCheck c ctx freshResult)
            = map (fun location => "Processing location '" +:+ location
                                   +:+ "' is not allowed under deployment context")
                  (Pec.processing_locations c)).
  { intros Hreq. rewrite reasons_locationCheck, Hreq. f_equal.
    apply filter_all. intros l. by rewrite isLocationAllowed_no_required. }
  split; [|split].
  - intros Hloc. unfold locationCheck. by rewrite Hloc.
  - intros Hreq. rewrite (Appends_locationCheck c ctx r). simpl. by rewrite Hall.
  - intros Hreq Hloc Hv toolName lg.
    rewrite (checkCompliance_Consistent toolName (Some c) ctx lg).
    apply bool_decide_eq_false.
    apply truthy_nonempty in Hv. rewrite checkCompliance_result, Hv.
    rewrite reasons_runChecks, (Hall Hreq).
    destruct (Pec.processing_locations c); [done|]. discriminate.
Qed.

(** X3, witness: under a context without required locations both locations
    of the repository's [data_exporter] are reported. *)
Lemma locationCheck_edges_witness :
  Residency.required (Ctx.data_residency
                        (Ctx.mk "EU" "DE" (Residency.mk [] []) None (Risk.mk high None)
                           (Sectors.mk []) (Certs.mk []) (Unknown.mk strict strict strict)
                           (Legacy.mk allow false))) = []
  /\ reasons (locationCheck complianceMetadataNonCompliant
                (Ctx.mk "EU" "DE" (Residency.mk [] []) None (Risk.mk high None)
                   (Sectors.mk []) (Certs.mk []) (Unknown.mk strict strict strict)
                   (Legacy.mk allow false)) freshResult)
     = ["Processing location 'US' is not allowed under deployment context";
        "Processing location 'CN' is not allowed under deployment context"].
Proof.
  split; [reflexivity|].
  destruct (locationCheck_edges complianceMetadataNonCompliant
              (Ctx.mk "EU" "DE" (Residency.mk [] []) None (Risk.mk high None)
                 (Sectors.mk []) (Certs.mk []) (Unknown.mk strict strict strict)
                 (Legacy.mk allow false)) freshResult) as (_ & H & _).
  rewrite H; reflexivity.
Defined.

Lemma upper_ascii_ascii ch :
  (N_of_ascii ch <? 128)%N = true -> (N_of_ascii (Js.upper_ascii ch) <? 128)%N = true.
Proof. destruct ch as [[] [] [] [] [] [] [] []]; vm_compute; auto. Qed.

Lemma asciiOnly_toUpperCase s : asciiOnly s = true -> asciiOnly (Js.toUpperCase s) = true.
Proof.
  unfold asciiOnly. induction s as [|ch s IH]; simpl; [done|].
  intros [Hch Hs]%andb_true_iff. by rewrite (upper_ascii_ascii ch Hch), (IH Hs).
Qed.

(** X4: on ASCII codes expansions are flat.  Every code an expansion
    contains is an ASCII code that expands to itself alone, so expanding the
    members of an expansion again gives nothing new; and the expansion of
    [EU] is contained in that of [EEA], which is contained in that of
    [ADEQUACY], however the codes are cased. *)
Theorem expandJurisdiction_flat code :
  asciiOnly code = true ->
  (forall x, x ∈ expandJurisdiction code ->
     asciiOnly x = true /\ expandJurisdiction x = [x])
  /\ (forall y, inExpansions y (expandJurisdiction code) <-> y ∈ expandJurisdiction code)
  /\ (forall b, asciiOnly b = true ->
        Js.toUpperCase code = "EU" -> Js.toUpperCase b = "EEA" ->
        expandJurisdiction code ⊆ expandJurisdiction b)
  /\ (forall d, asciiOnly d = true ->
        Js.toUpperCase code = "EEA" -> Js.toUpperCase d = "ADEQUACY" ->
        expandJurisdiction code ⊆ expandJurisdiction d).
Proof.
  intros Hascii.
  assert (Hflat : forall x, x ∈ expandJurisdiction code ->
            asciiOnly x = true /\ expandJurisdiction x = [x]).
  { intros x. unfold expandJurisdiction at 1. cbv zeta.
    destruct (String.eqb (Js.toUpperCase code) "EU") eqn:E1.
    { intros H. apply list_elem_of_In in H. simpl in H.
      repeat (destruct H as [<- | H]; [by split|]). destruct H. }
    destruct (String.eqb (Js.toUpperCase code) "EEA") eqn:E2.
    { intros H. apply list_elem_of_In in H. simpl in H.
      repeat (destruct H as [<- | H]; [by split|]). destruct H. }
    destruct (String.eqb (Js.toUpperCase code) "ADEQUACY") eqn:E3.
    { intros H. apply list_elem_of_In in H. simpl in H.
      repeat (destruct H as [<- | H]; [by split|]). destruct H. }
    intros H. apply list_elem_of_singleton in H as ->.
    split; [by apply asciiOnly_toUpperCase|].
    unfold expandJurisdiction. by rewrite toUpperCase_idem, E1, E2, E3. }
  split; [exact Hflat|]. split; [|split].
  - intros y. unfold inExpansions. split.
    + intros (z & Hz & Hy). rewrite (proj2 (Hflat z Hz)) in Hy.
      by apply list_elem_of_singleton in Hy as ->.
    + intros Hy. exists y. split; [done|].
      rewrite (proj2 (Hflat y Hy)). apply list_elem_of_here.
  - intros b _ Ha Hb.
    assert (Ea : expandJurisdiction code = EU_COUNTRIES)
      by (unfold expandJurisdiction; rewrite Ha; reflexivity).
    assert (Eb : expandJurisdiction b = EU_COUNTRIES ++ ["NO"; "IS"; "LI"])
      by (unfold expandJurisdiction; rewrite Hb; reflexivity).
    rewrite Ea, Eb. intros y Hy. apply elem_of_app. by left.
  - intros d _ Hb Hd.
    assert (Eb : expandJurisdiction code = EEA_COUNTRIES)
      by (unfold expandJurisdiction; rewrite Hb; reflexivity).
    assert (Ed : expandJurisdiction d = EEA_COUNTRIES ++ ADEQUACY_COUNTRIES)
      by (unfold expandJurisdiction; rewrite Hd; reflexivity).
    rewrite Eb, Ed. intros y Hy. apply elem_of_app. by left.
Qed.

(** X4, witness: [FR] is in the expansion of [eu], which lies within that of
    [eea], and expands to itself. *)
Lemma expandJurisdiction_flat_witness :
  asciiOnly "eu" = true
  /\ "FR" ∈ expandJurisdiction "eu"
  /\ expandJurisdiction "FR" = ["FR"]
  /\ expandJurisdiction "eu" ⊆ expandJurisdiction "eea".
Proof.
  assert (Ha : asciiOnly "eu" = true) by reflexivity.
  assert (H : "FR" ∈ expandJurisdiction "eu") by in_list.
  destruct (expandJurisdiction_flat "eu" Ha) as (Hflat & _ & Hsub & _).
  split; [exact Ha|]. split; [exact H|].
  split; [exact (proj2 (Hflat "FR" H))|].
  apply (Hsub "eea"); reflexivity.
Defined.

(** ** Reasons and the rules they come from *)

Lemma list_ascii_of_string_app s t :
  String.list_ascii_of_string (s +:+ t) = String.list_ascii_of_string s ++ String.list_ascii_of_string t.
Proof. induction s as [|a s IH]; simpl; [done|]. by rewrite IH. Qed.

Lemma string_app_inj_r s1 s2 t : s1 +:+ t = s2 +:+ t -> s1 = s2.
Proof.
  intros H. apply (f_equal String.list_ascii_of_string) in H.
  rewrite !list_ascii_of_string_app in H. apply app_inv_tail in H.
  apply (f_equal String.string_of_list_ascii) in H.
  by rewrite !String.string_of_list_ascii_of_string in H.
Qed.

Lemma quoted_inj (pre post s1 s2 : string) :
  pre +:+ s1 +:+ post = pre +:+ s2 +:+ post -> s1 = s2.
Proof.
  intros H. apply (inj (String.append pre)) in H. by apply string_app_inj_r in H.
Qed.

Lemma reasonsOfRule_app k rs rs' :
  reasonsOfRule k (rs ++ rs') = reasonsOfRule k rs ++ reasonsOfRule k rs'.
Proof. unfold reasonsOfRule. apply List.filter_app. Qed.

Lemma reasonsOfRule_own k k' rs :
  Forall (fun x => ruleOf x = Some k') rs ->
  reasonsOfRule k rs = if bool_decide (k' = k) then rs else [].
Proof.
  unfold reasonsOfRule. induction 1 as [|x rs Hx _ IH]; simpl.
  - by destruct (bool_decide _).
  - rewrite Hx, IH. destruct (decide (k' = k)) as [->|Hne].
    + by rewrite !bool_decide_eq_true_2.
    + rewrite (bool_decide_eq_false_2 (Some k' = Some k)) by congruence.
      by rewrite bool_decide_eq_false_2.
Qed.

Lemma transferCheck_eq c g r :
  transferCheck c g r
  = match GdprReq.transfer_mechanisms_required g with
    | Some (q :: qs) =>
      if overlaps (Gdpr.transfer_mechanisms (Pec.gdpr c)) (q :: qs) then r
      else pushReason
             (match Gdpr.transfer_mechanisms (Pec.gdpr c) with
              | [] => noMechanismMessage (q :: qs)
              | _ => mechanismMismatchMessage (Gdpr.transfer_mechanisms (Pec.gdpr c)) (q :: qs)
              end) r
    | _ => r
    end.
Proof.
  unfold transferCheck, checkTransferMechanisms, failedWith.
  destruct (GdprReq.transfer_mechanisms_required g) as [[|q qs]|]; try done.
  rewrite !length_nonzero.
  destruct (Gdpr.transfer_mechanisms (Pec.gdpr c)) as [|t ts]; [done|].
  unfold Js.some, Js.includes, overlaps.
  by destruct (existsb _ (t :: ts)).
Qed.

Lemma ownReasons_rule c ctx k : Forall (fun x => ruleOf x = Some k) (ownReasons c ctx k).
Proof.
  destruct k; simpl.
  - rewrite reasons_locationCheck. apply Forall_forall.
    intros x (l & -> & _)%list_elem_of_fmap. by vm_compute.
  - unfold riskCheck. cbv zeta. destruct (_ >? _)%Z; simpl; [|constructor].
    apply Forall_singleton.
    by destruct (AiAct.classification _), (Risk.maximum_permitted _).
  - unfold conformityCheck.
    destruct (AiAct.conformity_assessed _); simpl; [constructor|].
    destruct (bool_decide _); simpl; [|constructor]. by apply Forall_singleton.
  - destruct (Ctx.gdpr_requirements ctx) as [g|]; [|constructor].
    rewrite transferCheck_eq.
    destruct (GdprReq.transfer_mechanisms_required g) as [[|q qs]|]; try constructor.
    destruct (overlaps _ _); [constructor|].
    apply Forall_singleton.
    by destruct (Gdpr.transfer_mechanisms (Pec.gdpr c)); vm_compute.
  - destruct (Ctx.gdpr_requirements ctx) as [g|]; [|constructor].
    unfold specialCatCheck, checkSpecialCategories, failedWith.
    destruct (GdprReq.special_categories_allowed g) as [[|]|],
      (Gdpr.special_categories_processed (Pec.gdpr c)); simpl;
      first [by apply Forall_nil | by apply Forall_singleton].
  - rewrite reasons_sectorCheck. apply Forall_forall.
    intros x (l & -> & _)%list_elem_of_fmap. by vm_compute.
  - unfold certificationCheck. cbv zeta.
    destruct (negb _ && _); simpl; [|constructor].
    destruct (bool_decide _); simpl; [|constructor]. by apply Forall_singleton.
Qed.

Lemma reasons_gdprCheck c ctx :
  reasons (gdprCheck c ctx freshResult)
  = ownReasons c ctx TransferRule ++ ownReasons c ctx SpecialCategoryRule.
Proof.
  unfold gdprCheck, ownReasons. destruct (Ctx.gdpr_requirements ctx) as [g|]; [|done].
  cbv zeta. by rewrite (Appends_specialCatCheck c g).
Qed.

Lemma reasons_runChecks_by_rule c ctx :
  reasons (runChecks c ctx freshResult)
  = ownReasons c ctx LocationRule ++ ownReasons c ctx RiskRule
    ++ ownReasons c ctx ConformityRule ++ ownReasons c ctx TransferRule
    ++ ownReasons c ctx SpecialCategoryRule ++ ownReasons c ctx SectorRule
    ++ ownReasons c ctx CertificationRule.
Proof. rewrite reasons_runChecks, reasons_gdprCheck. simpl. by rewrite <- !app_assoc. Qed.

Lemma reasonsOfRule_runChecks c ctx k :
  reasonsOfRule k (reasons (runChecks c ctx freshResult)) = ownReasons c ctx k.
Proof.
  rewrite reasons_runChecks_by_rule, !reasonsOfRule_app.
  rewrite (reasonsOfRule_own k LocationRule), (reasonsOfRule_own k RiskRule),
    (reasonsOfRule_own k ConformityRule), (reasonsOfRule_own k TransferRule),
    (reasonsOfRule_own k SpecialCategoryRule), (reasonsOfRule_own k SectorRule),
    (reasonsOfRule_own k CertificationRule) by apply ownReasons_rule.
  destruct k; simpl; by rewrite ?app_nil_r.
Qed.

(** X5: the reasons of an evaluation can be told apart by the fixed text they
    begin with.  For metadata with a version, every reason belongs to a rule,
    and the reasons of a rule, in their order, are exactly what the check of
    that rule pushes when it is run on its own. *)
Theorem reasons_attributed_by_prefix toolName c ctx lg k :
  Pec.pec_version c <> "" ->
  let rs := reasons (checkCompliance toolName (Some c) ctx lg).1 in
  reasonsOfRule k rs = ownReasons c ctx k
  /\ Forall (fun x => is_Some (ruleOf x)) rs.
Proof.
  intros Hv rs. subst rs. apply truthy_nonempty in Hv.
  rewrite checkCompliance_result, Hv. split; [apply reasonsOfRule_runChecks|].
  rewrite reasons_runChecks_by_rule. rewrite !Forall_app.
  repeat split;
    (eapply Forall_impl; [apply ownReasons_rule|]; by intros x ->).
Qed.

(** X5, witness: the risk reason of the repository's [data_exporter] under
    [euDeploymentContext]. *)
Lemma reasons_attributed_by_prefix_witness :
  Pec.pec_version complianceMetadataNonCompliant <> ""
  /\ reasonsOfRule RiskRule
       (reasons (checkCompliance "data_exporter" (Some complianceMetadataNonCompliant)
                   euDeploymentContext None).1)
     = ["Tool risk classification 'high' exceeds maximum permitted 'limited'"].
Proof.
  split; [discriminate|].
  rewrite (proj1 (reasons_attributed_by_prefix "data_exporter" complianceMetadataNonCompliant
                    euDeploymentContext None RiskRule ltac:(discriminate))).
  reflexivity.
Defined.

Lemma elem_of_reasonsOfRule k x rs :
  x ∈ reasonsOfRule k rs <-> x ∈ rs /\ ruleOf x = Some k.
Proof.
  unfold reasonsOfRule. rewrite !list_elem_of_In, filter_In.
  by rewrite bool_decide_eq_true.
Qed.

Lemma elem_of_named (pre post : string) (p : string -> bool) (xs : list string) L :
  (pre +:+ L +:+ post) ∈ map (fun l => pre +:+ l +:+ post) (List.filter p xs)
  <-> L ∈ xs /\ p L = true.
Proof.
  rewrite list_elem_of_fmap. split.
  - intros (l & Heq & Hin). apply quoted_inj in Heq as <-.
    by rewrite list_elem_of_In, filter_In, <- list_elem_of_In in Hin.
  - intros [Hin Hp]. exists L. split; [done|].
    rewrite list_elem_of_In, filter_In, <- list_elem_of_In. done.
Qed.

(** X6: for metadata with a version, the reason naming location [L] is
    among the reasons exactly when [L] is one of the declared processing
    locations and the location check does not allow it; the location is named
    as it was declared. *)
Theorem location_reason_iff toolName c ctx lg L :
  Pec.pec_version c <> "" ->
  ("Processing location '" +:+ L +:+ "' is not allowed under deployment context")
    ∈ reasons (checkCompliance toolName (Some c) ctx lg).1
  <-> L ∈ Pec.processing_locations c
      /\ isLocationAllowed L (Residency.required (Ctx.data_residency ctx))
           (Residency.prohibited (Ctx.data_residency ctx)) = false.
Proof.
  intros Hv. apply truthy_nonempty in Hv. rewrite checkCompliance_result, Hv.
  transitivity
    (("Processing location '" +:+ L +:+ "' is not allowed under deployment context")
       ∈ reasonsOfRule LocationRule (reasons (runChecks c ctx freshResult))).
  { rewrite elem_of_reasonsOfRule. split; [|tauto].
    intros H. split; [done|]. by vm_compute. }
  rewrite reasonsOfRule_runChecks. cbn [ownReasons]. rewrite reasons_locationCheck.
  rewrite (elem_of_named "Processing location '"
             "' is not allowed under deployment context").
  by rewrite negb_true_iff.
Qed.

(** X6, witness: [CN] is reported for the repository's [data_exporter]. *)
Lemma location_reason_iff_witness :
  Pec.pec_version complianceMetadataNonCompliant <> ""
  /\ "Processing location 'CN' is not allowed under deployment context"
       ∈ reasons (checkCompliance "data_exporter" (Some complianceMetadataNonCompliant)
                    euDeploymentContext None).1.
Proof.
  split; [discriminate|].
  apply (location_reason_iff "data_exporter" complianceMetadataNonCompliant
           euDeploymentContext None "CN"); [discriminate|].
  split; [in_list | vm_compute; reflexivity].
Defined.

(** X7: for metadata with a version, the reason naming sector [s] is among
    the reasons exactly when [s] is one of the context's prohibited sectors
    and one of the tool's [suitable_for] tags; [unsuitable_for] plays no
    part. *)
Theorem sector_reason_iff toolName c ctx lg s :
  Pec.pec_version c <> "" ->
  ("Tool is suitable for prohibited sector: '" +:+ s +:+ "'")
    ∈ reasons (checkCompliance toolName (Some c) ctx lg).1
  <-> s ∈ Sectors.prohibited (Ctx.sectors ctx) /\ s ∈ Pec.suitable_for c.
Proof.
  intros Hv. apply truthy_nonempty in Hv. rewrite checkCompliance_result, Hv.
  transitivity
    (("Tool is suitable for prohibited sector: '" +:+ s +:+ "'")
       ∈ reasonsOfRule SectorRule (reasons (runChecks c ctx freshResult))).
  { rewrite elem_of_reasonsOfRule. split; [|tauto].
    intros H. split; [done|]. by vm_compute. }
  rewrite reasonsOfRule_runChecks. cbn [ownReasons]. rewrite reasons_sectorCheck.
  rewrite (elem_of_named "Tool is suitable for prohibited sector: '" "'").
  unfold Js.includes. rewrite existsb_exists.
  split.
  - intros [Hin (x & Hx & Heq)]. apply String.eqb_eq in Heq as ->.
    split; [done | by apply list_elem_of_In].
  - intros [Hin Hs]. split; [done|]. exists s. rewrite <- list_elem_of_In.
    split; [done | apply String.eqb_refl].
Qed.

(** X7, witness: the sector of [riskyBiometricTool] under
    [usHealthcareContext]. *)
Lemma sector_reason_iff_witness :
  Pec.pec_version (riskyBiometricTool "1.0") <> ""
  /\ "Tool is suitable for prohibited sector: 'biometric_identification'"
       ∈ reasons (checkCompliance "scanner" (Some (riskyBiometricTool "1.0"))
                    usHealthcareContext None).1.
Proof.
  split; [discriminate|].
  apply (sector_reason_iff "scanner" (riskyBiometricTool "1.0") usHealthcareContext None
           "biometric_identification"); [discriminate|].
  split; in_list.
Defined.

(** X8: for metadata with a version, the special-categories reason is pushed
    exactly when the tool processes special categories and the context
    declares [gdpr_requirements] whose [special_categories_allowed] is
    [false]; a context without [gdpr_requirements], or one that leaves the
    flag out, never triggers it. *)
Theorem special_categories_reason_iff toolName c ctx lg :
  Pec.pec_version c <> "" ->
  "Tool processes GDPR special categories (Art 9) but deployment context prohibits this"
    ∈ reasons (checkCompliance toolName (Some c) ctx lg).1
  <-> Gdpr.special_categories_processed (Pec.gdpr c) = true
      /\ exists g, Ctx.gdpr_requirements ctx = Some g
                   /\ GdprReq.special_categories_allowed g = Some false.
Proof.
  intros Hv. apply truthy_nonempty in Hv. rewrite checkCompliance_result, Hv.
  transitivity
    ("Tool processes GDPR special categories (Art 9) but deployment context prohibits this"
       ∈ reasonsOfRule SpecialCategoryRule (reasons (runChecks c ctx freshResult))).
  { rewrite elem_of_reasonsOfRule. split; [|tauto]. intros H. split; [done|]. by vm_compute. }
  rewrite reasonsOfRule_runChecks. cbn [ownReasons].
  destruct (Ctx.gdpr_requirements ctx) as [g|].
  - unfold specialCatCheck, checkSpecialCategories, failedWith.
    destruct (GdprReq.special_categories_allowed g) as [[|]|] eqn:Ha,
      (Gdpr.special_categories_processed (Pec.gdpr c)); simpl.
    all: rewrite ?elem_of_nil, ?list_elem_of_singleton.
    all: split; [try done | try (intros [? (g' & [= <-] & ?)]; congruence)].
    intros _. split; [done|]. by exists g.
  - rewrite elem_of_nil. split; [done|]. by intros [_ (g & ? & _)].
Qed.

(** X8, witness: a tool that processes special categories under
    [euDeploymentContext], which forbids them. *)
Lemma special_categories_reason_iff_witness :
  Pec.pec_version complianceMetadataUsHealthcare <> ""
  /\ "Tool processes GDPR special categories (Art 9) but deployment context prohibits this"
       ∈ reasons (checkCompliance "healthcare_analyser" (Some complianceMetadataUsHealthcare)
                    euDeploymentContext None).1.
Proof.
  split; [discriminate|].
  apply (special_categories_reason_iff "healthcare_analyser" complianceMetadataUsHealthcare
           euDeploymentContext None); [discriminate|].
  split; [reflexivity|].
  exists (GdprReq.mk (Some ["ADEQUACY"; "SCCS_2021"; "BCR"]) (Some false)).
  split; reflexivity.
Defined.

(** ** Warnings *)

Lemma warnings_fold_pushReason {A} (p : A -> bool) (msg : A -> string) (xs : list A) r :
  warnings (fold_left (fun r x => if p x then pushReason (msg x) r else r) xs r) = warnings r.
Proof. rewrite fold_pushReason. simpl. apply app_nil_r. Qed.

Lemma warnings_runChecks c ctx :
  warnings (runChecks c ctx freshResult)
  = warnings (conformityCheck c ctx freshResult)
    ++ warnings (certificationCheck c ctx freshResult)
    ++ warnings (supplyChainCheck c freshResult).
Proof.
  rewrite runChecks_merge. simpl.
  assert (Hloc : warnings (locationCheck c ctx freshResult) = []).
  { unfold locationCheck.
    by rewrite (warnings_fold_pushReason
                  (fun l => negb (isLocationAllowed l
                                    (Residency.required (Ctx.data_residency ctx))
                                    (Residency.prohibited (Ctx.data_residency ctx))))). }
  assert (Hsec : warnings (sectorCheck c ctx freshResult) = []).
  { unfold sectorCheck.
    by rewrite (warnings_fold_pushReason (fun s => Js.includes (Pec.suitable_for c) s)). }
  assert (Hrisk : warnings (riskCheck c ctx freshResult) = []).
  { unfold riskCheck. cbv zeta. by destruct (_ >? _)%Z. }
  assert (Hgdpr : warnings (gdprCheck c ctx freshResult) = []).
  { unfold gdprCheck, specialCatCheck, transferCheck. cbv zeta.
    destruct (Ctx.gdpr_requirements ctx) as [g|]; [|done].
    by destruct (failedWith _), (failedWith _). }
  by rewrite Hloc, Hsec, Hrisk, Hgdpr.
Qed.

(** X9: the warnings of an evaluation of versioned metadata are, in this
    order, at most three: the conformity warning (tool not assessed,
    handling not [strict]), the certification warning (a non-empty required
    list, none of it held, handling not [strict]) and the supply-chain
    warning (no disclosure).  The location, risk, GDPR and sector checks never
    warn, and the conformity and the certification check never push a reason
    and a warning together. *)
Theorem checkCompliance_warnings toolName c ctx lg :
  Pec.pec_version c <> "" ->
  let r := (checkCompliance toolName (Some c) ctx lg).1 in
  let required_any := Certs.required_any (Ctx.certifications ctx) in
  warnings r
  = (if negb (AiAct.conformity_assessed (Pec.ai_act_status c))
        && negb (bool_decide (Unknown.ai_act_status (Ctx.unknown_handling ctx) = strict))
     then ["Tool has not undergone conformity assessment"] else [])
    ++ (if negb (overlaps required_any (Pec.certifications c))
           && (0 <? length required_any)%nat
           && negb (bool_decide (Unknown.certifications (Ctx.unknown_handling ctx) = strict))
        then ["Tool lacks preferred certifications: " +:+ Js.join ", " required_any] else [])
    ++ (if negb (Pec.supply_chain_disclosure c)
        then ["Tool has not disclosed supply chain dependencies"] else [])
  /\ length (warnings r) <= 3
  /\ (warnings (conformityCheck c ctx freshResult) = []
      \/ reasons (conformityCheck c ctx freshResult) = [])
  /\ (warnings (certificationCheck c ctx freshResult) = []
      \/ reasons (certificationCheck c ctx freshResult) = []).
Proof.
  intros Hv r required_any. subst r. apply truthy_nonempty in Hv.
  rewrite checkCompliance_result, Hv, warnings_runChecks.
  unfold conformityCheck, certificationCheck, supplyChainCheck, overlaps, Js.some, Js.includes.
  cbv zeta. fold required_any.
  destruct (AiAct.conformity_assessed _),
    (bool_decide (Unknown.ai_act_status _ = strict)),
    (existsb _ required_any), (0 <? length required_any)%nat,
    (bool_decide (Unknown.certifications _ = strict)),
    (Pec.supply_chain_disclosure c); simpl; repeat split; auto; lia.
Qed.

(** X9, witness: the two warnings of the repository's [data_exporter]. *)
Lemma checkCompliance_warnings_witness :
  Pec.pec_version complianceMetadataNonCompliant <> ""
  /\ warnings (checkCompliance "data_exporter" (Some complianceMetadataNonCompliant)
                 euDeploymentContext None).1
     = ["Tool lacks preferred certifications: ISO_27001, SOC2_TYPE_II";
        "Tool has not disclosed supply chain dependencies"].
Proof.
  split; [discriminate|].
  rewrite (proj1 (checkCompliance_warnings "data_exporter" complianceMetadataNonCompliant
                    euDeploymentContext None ltac:(discriminate))).
  reflexivity.
Defined.

(** ** The verdict as a whole *)

Lemma filter_nil_iff {A} (p : A -> bool) (xs : list A) :
  List.filter p xs = [] <-> forall x, x ∈ xs -> p x = false.
Proof.
  induction xs as [|x xs IH]; simpl.
  - split; [by intros _ x ?%elem_of_nil | done].
  - destruct (p x) eqn:Hp.
    + split; [done|]. intros H. specialize (H x (list_elem_of_here _ _)). congruence.
    + rewrite IH. split.
      * intros H y [-> | Hy]%elem_of_cons; auto.
      * intros H y Hy. apply H. by apply list_elem_of_further.
Qed.

Lemma map_nil_iff {A B} (f : A -> B) (xs : list A) : map f xs = [] <-> xs = [].
Proof. by destruct xs. Qed.

Section NoReasons.
Variables (c : Pec.t) (ctx : Ctx.t).

Lemma noReasons_location :
  reasons (locationCheck c ctx freshResult) = [] <->
  forall l, l ∈ Pec.processing_locations c ->
    isLocationAllowed l (Residency.required (Ctx.data_residency ctx))
      (Residency.prohibited (Ctx.data_residency ctx)) = true.
Proof.
  rewrite reasons_locationCheck, map_nil_iff, filter_nil_iff.
  split; intros H l Hl; specialize (H l Hl); by destruct (isLocationAllowed _ _ _).
Qed.

Lemma noReasons_risk :
  reasons (riskCheck c ctx freshResult) = [] <->
  (RISK_LEVELS (AiAct.classification (Pec.ai_act_status c))
   <= RISK_LEVELS (Risk.maximum_permitted (Ctx.risk_classification ctx)))%Z.
Proof.
  unfold riskCheck. cbv zeta. rewrite Z.gtb_ltb.
  destruct (_ <? _)%Z eqn:E; simpl.
  - apply Z.ltb_lt in E. split; [done | lia].
  - apply Z.ltb_ge in E. done.
Qed.

Lemma noReasons_conformity :
  reasons (conformityCheck c ctx freshResult) = [] <->
  AiAct.conformity_assessed (Pec.ai_act_status c) = true
  \/ Unknown.ai_act_status (Ctx.unknown_handling ctx) <> strict.
Proof.
  unfold conformityCheck. destruct (AiAct.conformity_assessed _); simpl; [tauto|].
  destruct (decide (Unknown.ai_act_status (Ctx.unknown_handling ctx) = strict)) as [E|E].
  - rewrite bool_decide_eq_true_2 by done. simpl. split; [done | intros [?|?]; done].
  - rewrite bool_decide_eq_false_2 by done. simpl. tauto.
Qed.

Lemma noReasons_sector :
  reasons (sectorCheck c ctx freshResult) = [] <->
  forall s, s ∈ Sectors.prohibited (Ctx.sectors ctx) -> s ∉ Pec.suitable_for c.
Proof.
  rewrite reasons_sectorCheck, map_nil_iff, filter_nil_iff.
  assert (Hinc : forall s, Js.includes (Pec.suitable_for c) s = false
                           <-> s ∉ Pec.suitable_for c).
  { intros s. unfold Js.includes. rewrite <- not_true_iff_false, existsb_exists.
    split.
    - intros H Hin. apply H. exists s. rewrite <- list_elem_of_In.
      split; [done | apply String.eqb_refl].
    - intros H (x & Hx & Heq). apply String.eqb_eq in Heq as ->.
      by apply H, list_elem_of_In. }
  split; intros H s Hs; apply Hinc; auto.
Qed.

Lemma noReasons_certification :
  reasons (certificationCheck c ctx freshResult) = [] <->
  Certs.required_any (Ctx.certifications ctx) = []
  \/ (exists cert, cert ∈ Certs.required_any (Ctx.certifications ctx)
                   /\ cert ∈ Pec.certifications c)
  \/ Unknown.certifications (Ctx.unknown_handling ctx) <> strict.
Proof.
  rewrite <- overlaps_spec. unfold certificationCheck, overlaps, Js.some, Js.includes.
  cbv zeta.
  destruct (Certs.required_any (Ctx.certifications ctx)) as [|q qs]; [simpl; tauto|].
  destruct (existsb _ (q :: qs)); [simpl; tauto|]. cbn [negb andb length Nat.ltb Nat.leb].
  destruct (decide (Unknown.certifications (Ctx.unknown_handling ctx) = strict)) as [E|E].
  - rewrite bool_decide_eq_true_2 by done. simpl.
    split; [done | intros [?|[?|?]]; done].
  - rewrite bool_decide_eq_false_2 by done. simpl. tauto.
Qed.

Lemma noReasons_gdpr :
  ownReasons c ctx TransferRule = [] /\ ownReasons c ctx SpecialCategoryRule = []
  <-> forall g, Ctx.gdpr_requirements ctx = Some g ->
        (forall required, GdprReq.transfer_mechanisms_required g = Some required ->
           required <> [] ->
           exists m, m ∈ Gdpr.transfer_mechanisms (Pec.gdpr c) /\ m ∈ required)
        /\ (GdprReq.special_categories_allowed g = Some false ->
            Gdpr.special_categories_processed (Pec.gdpr c) = false).
Proof.
  cbn [ownReasons].
  destruct (Ctx.gdpr_requirements ctx) as [g|]; [|split; [by intros _ g [=] | done]].
  assert (Ht : reasons (transferCheck c g freshResult) = [] <->
            forall required, GdprReq.transfer_mechanisms_required g = Some required ->
              required <> [] ->
              exists m, m ∈ Gdpr.transfer_mechanisms (Pec.gdpr c) /\ m ∈ required).
  { rewrite transferCheck_eq.
    destruct (GdprReq.transfer_mechanisms_required g) as [[|q qs]|].
    - split; [by intros _ required [= <-] | done].
    - destruct (overlaps _ (q :: qs)) eqn:Hov; simpl.
      + split; [|done]. intros _ required [= <-] _. by apply overlaps_spec.
      + split; [done|]. intros H. specialize (H (q :: qs) eq_refl ltac:(done)).
        apply overlaps_spec in H. congruence.
    - split; [by intros _ required [=] | done]. }
  assert (Hs : reasons (specialCatCheck c g freshResult) = [] <->
            (GdprReq.special_categories_allowed g = Some false ->
             Gdpr.special_categories_processed (Pec.gdpr c) = false)).
  { unfold specialCatCheck, checkSpecialCategories, failedWith.
    destruct (GdprReq.special_categories_allowed g) as [[|]|],
      (Gdpr.special_categories_processed (Pec.gdpr c)); simpl;
      split; try done; intros H; by specialize (H eq_refl). }
  rewrite Ht, Hs. split.
  - intros [H1 H2] g' [= <-]. done.
  - intros H. by apply (H g).
Qed.

Lemma compliant_iff_noReasons toolName lg :
  Pec.pec_version c <> "" ->
  compliant (checkCompliance toolName (Some c) ctx lg).1 = true
  <-> reasons (locationCheck c ctx freshResult) = []
      /\ reasons (riskCheck c ctx freshResult) = []
      /\ reasons (conformityCheck c ctx freshResult) = []
      /\ (ownReasons c ctx TransferRule = [] /\ ownReasons c ctx SpecialCategoryRule = [])
      /\ reasons (sectorCheck c ctx freshResult) = []
      /\ reasons (certificationCheck c ctx freshResult) = [].
Proof.
  intros Hv.
  rewrite (Consistent_iff _ (checkCompliance_Consistent toolName (Some c) ctx lg)).
  apply truthy_nonempty in Hv. rewrite checkCompliance_result, Hv.
  rewrite reasons_runChecks_by_rule, !app_nil.
  change (ownReasons c ctx LocationRule) with (reasons (locationCheck c ctx freshResult)).
  change (ownReasons c ctx RiskRule) with (reasons (riskCheck c ctx freshResult)).
  change (ownReasons c ctx ConformityRule) with (reasons (conformityCheck c ctx freshResult)).
  change (ownReasons c ctx SectorRule) with (reasons (sectorCheck c ctx freshResult)).
  change (ownReasons c ctx CertificationRule)
    with (reasons (certificationCheck c ctx freshResult)).
  tauto.
Qed.
End NoReasons.

(** X10: when a tool with versioned metadata is accepted.  [compliant] is
    true exactly when every declared location is allowed, the risk level does
    not exceed the maximum, the tool is conformity assessed or the handling
    is not [strict], the declared [gdpr_requirements] (if any) are met, no
    prohibited sector is among [suitable_for], and a required certification
    is held or none is required or the handling is not [strict]. *)
Theorem checkCompliance_accepts_iff toolName c ctx lg :
  Pec.pec_version c <> "" ->
  compliant (checkCompliance toolName (Some c) ctx lg).1 = true
  <-> (forall l, l ∈ Pec.processing_locations c ->
         isLocationAllowed l (Residency.required (Ctx.data_residency ctx))
           (Residency.prohibited (Ctx.data_residency ctx)) = true)
      /\ (RISK_LEVELS (AiAct.classification (Pec.ai_act_status c))
          <= RISK_LEVELS (Risk.maximum_permitted (Ctx.risk_classification ctx)))%Z
      /\ (AiAct.conformity_assessed (Pec.ai_act_status c) = true
          \/ Unknown.ai_act_status (Ctx.unknown_handling ctx) <> strict)
      /\ (forall g, Ctx.gdpr_requirements ctx = Some g ->
            (forall required, GdprReq.transfer_mechanisms_required g = Some required ->
               required <> [] ->
               exists m, m ∈ Gdpr.transfer_mechanisms (Pec.gdpr c) /\ m ∈ required)
            /\ (GdprReq.special_categories_allowed g = Some false ->
                Gdpr.special_categories_processed (Pec.gdpr c) = false))
      /\ (forall s, s ∈ Sectors.prohibited (Ctx.sectors ctx) -> s ∉ Pec.suitable_for c)
      /\ (Certs.required_any (Ctx.certifications ctx) = []
          \/ (exists cert, cert ∈ Certs.required_any (Ctx.certifications ctx)
                           /\ cert ∈ Pec.certifications c)
          \/ Unknown.certifications (Ctx.unknown_handling ctx) <> strict).
Proof.
  intros Hv. rewrite (compliant_iff_noReasons c ctx toolName lg Hv).
  rewrite noReasons_location, noReasons_risk, noReasons_conformity, noReasons_gdpr,
    noReasons_sector, noReasons_certification.
  tauto.
Qed.

(** X10, witness: the repository's [text_formatter] meets every condition
    of [euDeploymentContext]. *)
Lemma checkCompliance_accepts_iff_witness :
  Pec.pec_version complianceMetadataEuCompliant2 <> ""
  /\ compliant (checkCompliance "text_formatter" (Some complianceMetadataEuCompliant2)
                  euDeploymentContext None).1 = true.
Proof.
  split; [discriminate|].
  apply (checkCompliance_accepts_iff "text_formatter" complianceMetadataEuCompliant2
           euDeploymentContext None); [discriminate|].
  split; [|split; [|split; [|split; [|split]]]].
  - intros l Hl. apply list_elem_of_singleton in Hl as ->. vm_compute. reflexivity.
  - simpl. lia.
  - by left.
  - intros g [= <-]. split; [|done].
    intros required [= <-] _. exists "ADEQUACY". split; in_list.
  - intros s Hs Hin. apply list_elem_of_In in Hs, Hin. simpl in Hs, Hin.
    repeat (destruct Hs as [<- | Hs];
            [repeat (destruct Hin as [Hin | Hin]; [discriminate Hin|]); exact Hin|]).
    exact Hs.
  - right. left. exists "ISO_27001". split; in_list.
Defined.

(** X11: metadata with an empty version string is decided by the legacy
    policy alone.  Under [block] the result is the single reason that the
    version is missing; under [warn] and [allow] the tool is accepted without
    any reason or warning, whatever the rest of the record says; no check of
    the battery runs and nothing is logged. *)
Theorem checkCompliance_unversioned toolName c ctx lg :
  Pec.pec_version c = "" ->
  checkCompliance toolName (Some c) ctx lg
  = (match Legacy.policy (Ctx.legacy_servers ctx) with
     | block =>
       {| compliant := false;
          reasons := ["Tool does not declare PEC version"];
          warnings := [] |}
     | warn | allow => {| compliant := true; reasons := []; warnings := [] |}
     end, lg).
Proof.
  intros Hv. unfold checkCompliance. rewrite Hv. simpl.
  by destruct (Legacy.policy _).
Qed.

(** X11, witness: under the [warn] policy of [usHealthcareContext] the
    unversioned tool classified [unacceptable] is accepted. *)
Lemma checkCompliance_unversioned_witness :
  Pec.pec_version (riskyBiometricTool "") = ""
  /\ checkCompliance "scanner" (Some (riskyBiometricTool "")) usHealthcareContext None
     = ({| compliant := true; reasons := []; warnings := [] |}, None).
Proof.
  split; [reflexivity|].
  exact (checkCompliance_unversioned "scanner" (riskyBiometricTool "") usHealthcareContext
           None eq_refl).
Defined.

(** X12: the verdict depends on nothing but the fields the checks read.  Two
    evaluations whose metadata agree on version, locations, certifications,
    classification, conformity flag, transfer mechanisms, special-category
    flag, [suitable_for] and supply-chain flag, under contexts that agree on
    residency, GDPR requirements, maximum risk, prohibited sectors, required
    certifications, the two handlings that are consulted and the legacy
    policy, give the same result, whatever the tool name, the logger,
    [unsuitable_for], the retention period or
    [unknown_handling.processing_locations] are. *)
Theorem checkCompliance_reads_only toolName toolName' c c' ctx ctx' lg lg' :
  readMetadata c = readMetadata c' ->
  readContext ctx = readContext ctx' ->
  (checkCompliance toolName (Some c) ctx lg).1
  = (checkCompliance toolName' (Some c') ctx' lg').1.
Proof.
  intros Hc Hctx. rewrite !checkCompliance_result.
  destruct c as [v locs days certs [cls assessed body] [cps mechs dpa special] suit unsuit sup].
  destruct c' as [v' locs' days' certs' [cls' assessed' body'] [cps' mechs' dpa' special']
                     suit' unsuit' sup'].
  destruct ctx as [law jur res gd [mx he] sec crt [hl hc ha] [pol logi]].
  destruct ctx' as [law' jur' res' gd' [mx' he'] sec' crt' [hl' hc' ha'] [pol' logi']].
  unfold readMetadata, readContext in Hc, Hctx. simpl in Hc, Hctx.
  injection Hc as -> -> -> -> -> -> -> -> ->.
  injection Hctx as -> -> -> -> -> -> -> ->.
  reflexivity.
Qed.

(** X12, witness: [text_formatter] with another name, retention period and
    [unsuitable_for] list. *)
Lemma checkCompliance_reads_only_witness :
  (checkCompliance "text_formatter" (Some complianceMetadataEuCompliant2)
     euDeploymentContext None).1
  = (checkCompliance "renamed"
       (Some {| Pec.pec_version := "1.0";
                Pec.processing_locations := ["NL"];
                Pec.data_retention_days := 3650;
                Pec.certifications := ["ISO_27001"];
                Pec.ai_act_status := AiAct.mk minimal true (Some "body");
                Pec.gdpr := Gdpr.mk controller ["ADEQUACY"] false false;
                Pec.suitable_for := ["text_processing"; "formatting"; "spell_check"];
                Pec.unsuitable_for := [];
                Pec.supply_chain_disclosure := true |})
       euDeploymentContext
       (Some (initAuditLogger euDeploymentContext "session" "start" "hash"))).1.
Proof.
  apply checkCompliance_reads_only; reflexivity.
Defined.

(** ** The two buckets *)

Lemma filter_partition_length {A} (p : A -> bool) (xs : list A) :
  length (List.filter p xs) + length (List.filter (fun x => negb (p x)) xs) = length xs.
Proof. induction xs as [|x xs IH]; simpl; [done|]. destruct (p x); simpl; lia. Qed.

Lemma filterCompliantTools_lengths `{ToolLike T} (tools : list T) ctx lg :
  length (Filtered.compliant (filterCompliantTools tools ctx lg).1)
  + length (Filtered.rejected (filterCompliantTools tools ctx lg).1)
  = length tools.
Proof.
  rewrite filterCompliantTools_spec. cbn [fst Filtered.compliant Filtered.rejected].
  rewrite length_map. apply filter_partition_length.
Qed.


Lemma flat_map_recorded_appendEntries `{ToolLike T} (tools : list T) ctx l es :
  flat_map (fun t => recordedEntries (appendEntries l es) ctx (name t) (compliance t)) tools
  = flat_map (fun t => recordedEntries l ctx (name t) (compliance t)) tools.
Proof. reflexivity. Qed.

(** A batch split in two gives the same buckets and the same log as the
    whole batch. *)
Lemma filterCompliantTools_app_eq `{ToolLike T} (xs ys : list T) ctx lg :
  filterCompliantTools (xs ++ ys) ctx lg
  = (Filtered.mk
       (Filtered.compliant (filterCompliantTools xs ctx lg).1
        ++ Filtered.compliant
             (filterCompliantTools ys ctx (filterCompliantTools xs ctx lg).2).1)
       (Filtered.rejected (filterCompliantTools xs ctx lg).1
        ++ Filtered.rejected
             (filterCompliantTools ys ctx (filterCompliantTools xs ctx lg).2).1),
     (filterCompliantTools ys ctx (filterCompliantTools xs ctx lg).2).2).
Proof.
  rewrite !filterCompliantTools_spec. cbn [fst snd Filtered.compliant Filtered.rejected].
  rewrite !List.filter_app, map_app.
  f_equal. destruct lg as [l|]; simpl; [|done].
  by rewrite flat_map_app, flat_map_recorded_appendEntries, appendEntries_app.
Qed.

(** X14: filtering composes over concatenation.  Filtering [xs ++ ys] is
    filtering [xs] and then [ys] with the logger the first run leaves: the
    buckets are the concatenations of the buckets of the two runs and the log
    is that of the second run. *)
Theorem filterCompliantTools_app `{ToolLike T} (xs ys : list T) ctx lg :
  let first := filterCompliantTools xs ctx lg in
  let second := filterCompliantTools ys ctx first.2 in
  filterCompliantTools (xs ++ ys) ctx lg
  = (Filtered.mk
       (Filtered.compliant first.1 ++ Filtered.compliant second.1)
       (Filtered.rejected first.1 ++ Filtered.rejected second.1),
     second.2).
Proof.
  cbv zeta. rewrite !filterCompliantTools_spec.
  cbn [fst snd Filtered.compliant Filtered.rejected].
  rewrite !List.filter_app, map_app.
  f_equal. destruct lg as [l|]; simpl; [|done].
  by rewrite flat_map_app, flat_map_recorded_appendEntries, appendEntries_app.
Qed.

(** ** The demo driver *)

Lemma runMockServers_fold servers ctx a r lg :
  fold_left
    (fun '(totalCompliant, totalRejected, globalAuditLogger) server =>
       let toolsForFiltering := Server.tools server in
       let '(out, globalAuditLogger) :=
         filterCompliantTools toolsForFiltering ctx globalAuditLogger in
       (totalCompliant + length (Filtered.compliant out),
        totalRejected + length (Filtered.rejected out),
        globalAuditLogger))
    servers (a, r, lg)
  = (a + length (Filtered.compliant
                   (filterCompliantTools (concat (map Server.tools servers)) ctx lg).1),
     r + length (Filtered.rejected
                   (filterCompliantTools (concat (map Server.tools servers)) ctx lg).1),
     (filterCompliantTools (concat (map Server.tools servers)) ctx lg).2).
Proof.
  revert a r lg. induction servers as [|server servers IH]; intros a r lg.
  - simpl. by rewrite !Nat.add_0_r.
  - cbn [fold_left map concat]. cbv zeta.
    rewrite (surjective_pairing (filterCompliantTools (Server.tools server) ctx lg)).
    rewrite IH, filterCompliantTools_app_eq.
    cbn [fst snd Filtered.compliant Filtered.rejected].
    by rewrite !length_app, !Nat.add_assoc.
Qed.

(** X15: the mock-server loop is one run of the filter.  Filtering server
    by server with running totals gives the bucket sizes and the log of
    filtering all tools of all servers as one batch, and the two totals add up
    to the number of tools. *)
Theorem runMockServers_as_one_batch servers ctx lg :
  let all := concat (map Server.tools servers) in
  let whole := filterCompliantTools all ctx lg in
  runMockServers servers ctx lg
  = (length (Filtered.compliant whole.1), length (Filtered.rejected whole.1), whole.2)
  /\ (runMockServers servers ctx lg).1.1 + (runMockServers servers ctx lg).1.2
     = length all.
Proof.
  cbv zeta.
  assert (Heq : runMockServers servers ctx lg
                = (length (Filtered.compliant
                             (filterCompliantTools (concat (map Server.tools servers)) ctx lg).1),
                   length (Filtered.rejected
                             (filterCompliantTools (concat (map Server.tools servers)) ctx lg).1),
                   (filterCompliantTools (concat (map Server.tools servers)) ctx lg).2)).
  { unfold runMockServers. by rewrite runMockServers_fold. }
  split; [exact Heq|].
  rewrite Heq. cbn [fst snd]. apply filterCompliantTools_lengths.
Qed.

Lemma formatDiscoveredToolsForFiltering_cons t tools :
  formatDiscoveredToolsForFiltering (t :: tools)
  = match Discovered.compliance t with
    | Some c => Formatted.mk (Discovered.name t) c (Discovered.name t)
                :: formatDiscoveredToolsForFiltering tools
    | None => formatDiscoveredToolsForFiltering tools
    end.
Proof. unfold formatDiscoveredToolsForFiltering. simpl. by destruct (Discovered.compliance t). Qed.

(** X16: discovered tools without metadata never reach the filter.
    [formatDiscoveredToolsForFiltering] keeps, in order and under their
    names, exactly the tools that carry metadata; [runRealMcpServerDemo]
    counts only those, so its two counts add up to their number, and a
    discovered tool without metadata changes neither the counts nor the log,
    whatever the legacy policy of the context is. *)
Theorem runRealMcpServerDemo_ignores_legacy ctx tools lg :
  map (fun f => (Formatted.name f, Some (Formatted.compliance f)))
      (formatDiscoveredToolsForFiltering tools)
  = List.filter (fun p => bool_decide (is_Some p.2))
                (map (fun t => (Discovered.name t, Discovered.compliance t)) tools)
  /\ (let run := runRealMcpServerDemo ctx tools lg in
      let out := filterCompliantTools (formatDiscoveredToolsForFiltering tools) ctx lg in
      run = (length (Filtered.compliant out.1), length (Filtered.rejected out.1), out.2)
      /\ run.1.1 + run.1.2 = length (formatDiscoveredToolsForFiltering tools))
  /\ (forall t, Discovered.compliance t = None ->
        runRealMcpServerDemo ctx (t :: tools) lg = runRealMcpServerDemo ctx tools lg).
Proof.
  split; [|split].
  - induction tools as [|t tools IH]; [done|].
    rewrite formatDiscoveredToolsForFiltering_cons. cbn [map List.filter snd].
    destruct (Discovered.compliance t) as [c|]; simpl; by rewrite IH.
  - cbv zeta.
    assert (Heq : runRealMcpServerDemo ctx tools lg
                  = (length (Filtered.compliant
                               (filterCompliantTools
                                  (formatDiscoveredToolsForFiltering tools) ctx lg).1),
                     length (Filtered.rejected
                               (filterCompliantTools
                                  (formatDiscoveredToolsForFiltering tools) ctx lg).1),
                     (filterCompliantTools
                        (formatDiscoveredToolsForFiltering tools) ctx lg).2)).
    { unfold runRealMcpServerDemo. cbv zeta.
      destruct (formatDiscoveredToolsForFiltering tools) as [|f fs] eqn:Hf.
      - simpl. by destruct lg.
      - cbn [length Nat.eqb].
        by rewrite (surjective_pairing (filterCompliantTools (f :: fs) ctx lg)). }
    split; [exact Heq|]. rewrite Heq. cbn [fst snd].
    apply filterCompliantTools_lengths.
  - intros t Ht. unfold runRealMcpServerDemo.
    by rewrite formatDiscoveredToolsForFiltering_cons, Ht.
Qed.

(** X16, witness: a discovered tool without metadata under the [block]
    policy of [euDeploymentContext] is not counted as rejected. *)
Lemma runRealMcpServerDemo_ignores_legacy_witness :
  Discovered.compliance (Discovered.mk "legacy_tool" "A tool without metadata" None) = None
  /\ runRealMcpServerDemo euDeploymentContext
       [Discovered.mk "legacy_tool" "A tool without metadata" None;
        Discovered.mk "text_formatter" "Formats and cleans text input."
          (Some complianceMetadataEuCompliant2)] None
     = (1, 0, None).
Proof.
  split; [reflexivity|].
  destruct (runRealMcpServerDemo_ignores_legacy euDeploymentContext
              [Discovered.mk "text_formatter" "Formats and cleans text input."
                 (Some complianceMetadataEuCompliant2)] None) as (_ & _ & H).
  rewrite H; [|reflexivity]. vm_compute. reflexivity.
Defined.

(** ** The audit log *)

Lemma StampedBy_createEntry this ty n c r tr : StampedBy this (createEntry this ty n c r tr).
Proof. by split. Qed.

Lemma WellStamped_appendEntries this es :
  WellStamped this -> Forall (StampedBy this) es -> WellStamped (appendEntries this es).
Proof. intros Hw Hes. unfold WellStamped. simpl. apply Forall_app. split; assumption. Qed.

Lemma StampedBy_recordedEntries this ctx n c :
  Forall (StampedBy this) (recordedEntries this ctx n c).
Proof.
  unfold recordedEntries. destruct c as [c|]; [|constructor].
  destruct (Js.truthy _); [|constructor]. cbv zeta.
  constructor; [apply StampedBy_createEntry|].
  destruct (compliant _ && _); [|constructor].
  constructor; [apply StampedBy_createEntry | constructor].
Qed.

Lemma Extends_refl this : Extends this this.
Proof. exists []. by rewrite appendEntries_nil. Qed.

Lemma Extends_push this e : Extends this (pushEntry this e).
Proof. by exists [e]. Qed.

(** X17: the invariants of the audit log.  Every logging method, every call
    of [checkCompliance] and every run of [filterCompliantTools] only appends
    to the log: the entries already there stay as a prefix and the session
    id, start time, context fingerprint and context of the logger do not
    change.  Every entry written carries the session id of the log and the
    summary of the logger's own context, also when the evaluation was made
    under another context. *)
Theorem audit_log_invariants this :
  WellStamped this ->
  (forall n c r, let this' := logToolEvaluation this n c r in
                 Extends this this' /\ WellStamped this')
  /\ (forall n c ws, let this' := logComplianceWarning this n c ws in
                     Extends this this' /\ WellStamped this')
  /\ (forall n c input, let this' := logToolInvocation this n c input in
                        Extends this this' /\ WellStamped this')
  /\ (forall n why, let this' := logToolInvocationBlocked this n why in
                    Extends this this' /\ WellStamped this')
  /\ (forall a r, let this' := logAgentInitialisation this a r in
                  Extends this this' /\ WellStamped this')
  /\ (forall n c ctx, exists this',
         (checkCompliance n c ctx (Some this)).2 = Some this'
         /\ Extends this this' /\ WellStamped this')
  /\ (forall `{ToolLike T} (tools : list T) ctx, exists this',
         (filterCompliantTools tools ctx (Some this)).2 = Some this'
         /\ Extends this this' /\ WellStamped this').
Proof.
  intros Hw.
  assert (Hpush : forall ty n c r tr,
             let this' := pushEntry this (createEntry this ty n c r tr) in
             Extends this this' /\ WellStamped this').
  { intros ty n c r tr. split; [apply Extends_push|].
    apply (WellStamped_appendEntries this [_]); [done|].
    constructor; [apply StampedBy_createEntry | constructor]. }
  split; [intros; apply Hpush|]. split; [intros; apply Hpush|].
  split; [intros; apply Hpush|]. split; [intros; apply Hpush|].
  split; [intros; apply Hpush|]. split.
  - intros n c ctx. exists (appendEntries this (recordedEntries this ctx n c)).
    split; [by rewrite checkCompliance_logger|]. split; [by eexists|].
    apply WellStamped_appendEntries; [done | apply StampedBy_recordedEntries].
  - intros T HT tools ctx.
    exists (appendEntries this
              (flat_map (fun t => recordedEntries this ctx (name t) (compliance t)) tools)).
    split; [by rewrite filterCompliantTools_spec|]. split; [by eexists|].
    apply WellStamped_appendEntries; [done|].
    apply Forall_forall. intros e He.
    apply list_elem_of_In, in_flat_map in He as (t & _ & He).
    pose proof (StampedBy_recordedEntries this ctx (name t) (compliance t)) as Hs.
    rewrite Forall_forall in Hs. by apply Hs, list_elem_of_In.
Qed.

(** X17, witness: a fresh logger for [usHealthcareContext] after a batch
    evaluated under [euDeploymentContext]. *)
Lemma audit_log_invariants_witness :
  WellStamped (initAuditLogger usHealthcareContext "session" "start" "hash")
  /\ exists this',
       (filterCompliantTools mixedBatch euDeploymentContext
          (Some (initAuditLogger usHealthcareContext "session" "start" "hash"))).2
       = Some this'
       /\ WellStamped this'.
Proof.
  assert (Hw : WellStamped (initAuditLogger usHealthcareContext "session" "start" "hash"))
    by constructor.
  split; [exact Hw|].
  destruct (audit_log_invariants _ Hw) as (_ & _ & _ & _ & _ & _ & H).
  destruct (H DemoTool _ mixedBatch euDeploymentContext) as (this' & Heq & _ & Hw').
  by exists this'.
Defined.

Lemma trace_sectionLine this toolName c r k :
  buildEvaluationTrace this toolName c r !! sectionLine k
  = Some (verdict (reasons r) (needleOf k) (passLine c k)).
Proof. by destruct k. Qed.

Lemma verdict_fail rs needle fallback x :
  x ∈ rs -> Js.str_includes x needle = true ->
  exists s, verdict rs needle fallback = "FAIL: " +:+ s.
Proof.
  intros Hin Hinc. unfold verdict. cbv zeta.
  assert (Hx : x ∈ filter (fun r => Is_true (Js.str_includes r needle)) rs).
  { apply list_elem_of_filter. split; [by rewrite Hinc | done]. }
  destruct (filter _ rs) as [|v vs]; [by apply elem_of_nil in Hx|].
  simpl. eauto.
Qed.

Lemma ownReasons_needle c ctx k :
  Forall (fun x => Js.str_includes x (needleOf k) = true) (ownReasons c ctx k).
Proof.
  destruct k; simpl.
  - rewrite reasons_locationCheck. apply Forall_forall.
    intros x (l & -> & _)%list_elem_of_fmap. by vm_compute.
  - unfold riskCheck. cbv zeta. destruct (_ >? _)%Z; simpl; [|constructor].
    apply Forall_singleton.
    by destruct (AiAct.classification _), (Risk.maximum_permitted _).
  - unfold conformityCheck.
    destruct (AiAct.conformity_assessed _); simpl; [constructor|].
    destruct (bool_decide _); simpl; [|constructor]. by apply Forall_singleton.
  - destruct (Ctx.gdpr_requirements ctx) as [g|]; [|constructor].
    rewrite transferCheck_eq.
    destruct (GdprReq.transfer_mechanisms_required g) as [[|q qs]|]; try constructor.
    destruct (overlaps _ _); [constructor|].
    apply Forall_singleton.
    by destruct (Gdpr.transfer_mechanisms (Pec.gdpr c)); vm_compute.
  - destruct (Ctx.gdpr_requirements ctx) as [g|]; [|constructor].
    unfold specialCatCheck, checkSpecialCategories, failedWith.
    destruct (GdprReq.special_categories_allowed g) as [[|]|],
      (Gdpr.special_categories_processed (Pec.gdpr c)); simpl;
      first [by apply Forall_nil | by apply Forall_singleton].
  - rewrite reasons_sectorCheck. apply Forall_forall.
    intros x (l & -> & _)%list_elem_of_fmap. by vm_compute.
  - unfold certificationCheck. cbv zeta.
    destruct (negb _ && _); simpl; [|constructor].
    destruct (bool_decide _); simpl; [|constructor]. by apply Forall_singleton.
Qed.

(** X18: the evaluation trace flags every violated rule.  The trace built
    for the result of the battery has 43 lines; the section of a rule whose
    check pushed a reason shows a [FAIL: ] line, and when no reason was
    pushed at all every section shows its pass line (for the conformity
    section the warning line when the tool is not assessed). *)
Theorem evaluation_trace_flags_violations this toolName c ctx k :
  let r := runChecks c ctx freshResult in
  let trace := buildEvaluationTrace this toolName c r in
  length trace = 43
  /\ (ownReasons c ctx k <> [] ->
      exists s, trace !! sectionLine k = Some ("FAIL: " +:+ s))
  /\ (reasons r = [] -> trace !! sectionLine k = Some (passLine c k)).
Proof.
  cbv zeta. split; [reflexivity|]. rewrite trace_sectionLine. split.
  - intros Hne. destruct (ownReasons c ctx k) as [|x xs] eqn:Hown; [done|].
    assert (Hin : x ∈ reasons (runChecks c ctx freshResult)).
    { assert (Hx : x ∈ reasonsOfRule k (reasons (runChecks c ctx freshResult))).
      { rewrite reasonsOfRule_runChecks, Hown. apply list_elem_of_here. }
      by apply elem_of_reasonsOfRule in Hx as [Hx _]. }
    pose proof (ownReasons_needle c ctx k) as Hneedle.
    rewrite Hown in Hneedle. apply Forall_cons in Hneedle as [Hneedle _].
    destruct (verdict_fail _ (needleOf k) (passLine c k) x Hin Hneedle) as [s Hs].
    exists s. by rewrite Hs.
  - intros Hnil. by rewrite Hnil.
Qed.

(** X18, witness: the risk section of the trace for the repository's
    [data_exporter] under [euDeploymentContext]. *)
Lemma evaluation_trace_flags_violations_witness :
  ownReasons complianceMetadataNonCompliant euDeploymentContext RiskRule <> []
  /\ buildEvaluationTrace (initAuditLogger euDeploymentContext "session" "start" "hash")
       "data_exporter" complianceMetadataNonCompliant
       (runChecks complianceMetadataNonCompliant euDeploymentContext freshResult) !! 12
     = Some "FAIL: Tool risk classification 'high' exceeds maximum permitted 'limited'".
Proof.
  assert (Hne : ownReasons complianceMetadataNonCompliant euDeploymentContext RiskRule <> [])
    by discriminate.
  split; [exact Hne|].
  destruct (evaluation_trace_flags_violations
              (initAuditLogger euDeploymentContext "session" "start" "hash")
              "data_exporter" complianceMetadataNonCompliant euDeploymentContext RiskRule)
    as (_ & H & _).
  destruct (H Hne) as [s Hs]. vm_compute. reflexivity.
Defined.

(** The converse fails: attribution is by substring, so a prohibited sector
    whose tag contains [certification] marks the certification section as
    failed although the certification check pushed nothing. *)
Example trace_attribution_crosstalk :
  let c := {| Pec.pec_version := "1.0";
              Pec.processing_locations := [];
              Pec.data_retention_days := 0;
              Pec.certifications := [];
              Pec.ai_act_status := AiAct.mk minimal true None;
              Pec.gdpr := Gdpr.mk processor [] false false;
              Pec.suitable_for := ["certification_audit"];
              Pec.unsuitable_for := [];
              Pec.supply_chain_disclosure := true |} in
  let ctx := {| Ctx.governing_law := "EU";
                Ctx.jurisdiction := "DE";
                Ctx.data_residency := Residency.mk [] [];
                Ctx.gdpr_requirements := None;
                Ctx.risk_classification := Risk.mk minimal None;
                Ctx.sectors := Sectors.mk ["certification_audit"];
                Ctx.certifications := Certs.mk [];
                Ctx.unknown_handling := Unknown.mk strict strict strict;
                Ctx.legacy_servers := Legacy.mk block false |} in
  ownReasons c ctx CertificationRule = []
  /\ buildEvaluationTrace (initAuditLogger ctx "session" "start" "hash") "auditor" c
       (runChecks c ctx freshResult) !! 32
     = Some "FAIL: Tool is suitable for prohibited sector: 'certification_audit'".
Proof. split; vm_compute; reflexivity. Qed.

Lemma getEntriesByType_appendEntries this es ty :
  getEntriesByType (appendEntries this es) ty
  = getEntriesByType this ty
    ++ List.filter (fun e => bool_decide (Entry.event_type e = ty)) es.
Proof. unfold getEntriesByType. simpl. apply List.filter_app. Qed.

Lemma evaluationOf_audited `{ToolLike T} ctx (t : T) c :
  compliance t = Some c -> Js.truthy (Pec.pec_version c) = true ->
  evaluationOf ctx t = runChecks c ctx freshResult.
Proof. intros Hc Hv. unfold evaluationOf. by rewrite checkCompliance_result, Hc, Hv. Qed.

Lemma recordedEntries_count `{ToolLike T} this ctx ty (t : T) :
  length (List.filter (fun e => bool_decide (Entry.event_type e = ty))
            (recordedEntries this ctx (name t) (compliance t)))
  = if logsEvent ctx ty t then 1 else 0.
Proof.
  unfold logsEvent, audited, recordedEntries.
  destruct (compliance t) as [c|] eqn:Hc; [|done].
  destruct (Js.truthy (Pec.pec_version c)) eqn:Hv; [|done].
  rewrite (evaluationOf_audited ctx t c Hc Hv). cbv zeta.
  destruct (compliant (runChecks c ctx freshResult)),
    (0 <? length (warnings (runChecks c ctx freshResult)))%nat, ty; reflexivity.
Qed.

Lemma flat_map_recorded_count `{ToolLike T} this ctx ty (tools : list T) :
  length (List.filter (fun e => bool_decide (Entry.event_type e = ty))
            (flat_map (fun t => recordedEntries this ctx (name t) (compliance t)) tools))
  = length (List.filter (logsEvent ctx ty) tools).
Proof.
  induction tools as [|t tools IH]; [done|].
  cbn [flat_map List.filter]. rewrite List.filter_app, length_app, IH, recordedEntries_count.
  by destruct (logsEvent ctx ty t).
Qed.

Lemma filter_length_le {A} (p q : A -> bool) (xs : list A) :
  (forall x, p x = true -> q x = true) ->
  length (List.filter p xs) <= length (List.filter q xs).
Proof.
  intros Hpq. induction xs as [|x xs IH]; simpl; [done|].
  destruct (p x) eqn:Hp.
  - rewrite (Hpq x Hp). simpl. lia.
  - destruct (q x); simpl; lia.
Qed.

(** X19: the audit log and the buckets agree.  A run of the filter adds to
    the entries of a kind (as [getEntriesByType] returns them) one entry per
    tool that writes that kind: [tool_approved] for an accepted tool with
    versioned metadata, [tool_rejected] for a rejected one,
    [compliance_warning] for an accepted one with warnings, and none of the
    other kinds.  When every tool of the batch has versioned metadata, the
    numbers of new [tool_approved] and [tool_rejected] entries are the sizes
    of the two buckets; otherwise they may be smaller. *)
Theorem log_counts_match_buckets `{ToolLike T} (tools : list T) ctx this :
  exists this',
    (filterCompliantTools tools ctx (Some this)).2 = Some this'
    /\ (forall ty,
          length (getEntriesByType this' ty)
          = length (getEntriesByType this ty) + length (List.filter (logsEvent ctx ty) tools))
    /\ length (getEntriesByType this' tool_approved)
       <= length (getEntriesByType this tool_approved)
          + length (Filtered.compliant (filterCompliantTools tools ctx (Some this)).1)
    /\ length (getEntriesByType this' tool_rejected)
       <= length (getEntriesByType this tool_rejected)
          + length (Filtered.rejected (filterCompliantTools tools ctx (Some this)).1)
    /\ ((forall t, t ∈ tools -> audited t = true) ->
        length (getEntriesByType this' tool_approved)
        = length (getEntriesByType this tool_approved)
          + length (Filtered.compliant (filterCompliantTools tools ctx (Some this)).1)
        /\ length (getEntriesByType this' tool_rejected)
           = length (getEntriesByType this tool_rejected)
             + length (Filtered.rejected (filterCompliantTools tools ctx (Some this)).1)).
Proof.
  exists (appendEntries this
            (flat_map (fun t => recordedEntries this ctx (name t) (compliance t)) tools)).
  rewrite filterCompliantTools_spec. cbn [fst snd Filtered.compliant Filtered.rejected].
  assert (Hcount : forall ty,
            length (getEntriesByType
                      (appendEntries this
                         (flat_map (fun t => recordedEntries this ctx (name t) (compliance t))
                            tools)) ty)
            = length (getEntriesByType this ty)
              + length (List.filter (logsEvent ctx ty) tools)).
  { intros ty. by rewrite getEntriesByType_appendEntries, length_app, flat_map_recorded_count. }
  assert (Hle : forall (p q : T -> bool), (forall t, p t = true -> q t = true) ->
            length (List.filter p tools) <= length (List.filter q tools))
    by (intros p q Hpq; by apply filter_length_le).
  split; [done|]. split; [exact Hcount|].
  rewrite length_map, !Hcount.
  split; [|split].
  - apply Nat.add_le_mono_l, Hle.
    intros t. unfold logsEvent. by intros [_ ?]%andb_true_iff.
  - apply Nat.add_le_mono_l, Hle.
    intros t. unfold logsEvent. by intros [_ ?]%andb_true_iff.
  - intros Hall.
    assert (Hext : forall (p q : T -> bool), (forall t, t ∈ tools -> p t = q t) ->
              List.filter p tools = List.filter q tools).
    { intros p q Hpq. apply List.filter_ext_in. intros t Ht. by apply Hpq, list_elem_of_In. }
    split; f_equal; f_equal; apply Hext; intros t Ht; unfold logsEvent;
      by rewrite (Hall t Ht).
Qed.

(** X19, witness: a batch of the repository's four MCP tools; all carry
    versioned metadata, two are approved and two rejected under
    [euDeploymentContext]. *)
Lemma log_counts_match_buckets_witness :
  (forall t : DemoTool, t ∈ map (fun p => mkTool p.1 (Some p.2)) allTools -> audited t = true)
  /\ exists this',
       (filterCompliantTools (map (fun p => mkTool p.1 (Some p.2)) allTools)
          euDeploymentContext
          (Some (initAuditLogger euDeploymentContext "session" "start" "hash"))).2
       = Some this'
       /\ length (getEntriesByType this' tool_approved) = 2
       /\ length (getEntriesByType this' tool_rejected) = 2.
Proof.
  assert (Hall : forall t : DemoTool,
             t ∈ map (fun p => mkTool p.1 (Some p.2)) allTools -> audited t = true).
  { intros t Ht. apply list_elem_of_In in Ht. simpl in Ht.
    repeat (destruct Ht as [<- | Ht]; [reflexivity|]). destruct Ht. }
  split; [exact Hall|].
  destruct (log_counts_match_buckets (map (fun p => mkTool p.1 (Some p.2)) allTools)
              euDeploymentContext
              (initAuditLogger euDeploymentContext "session" "start" "hash"))
    as (this' & Heq & _ & _ & _ & Hexact).
  exists this'. split; [exact Heq|].
  destruct (Hexact Hall) as [Ha Hr]. rewrite Ha, Hr.
  split; vm_compute; reflexivity.
Defined.

Lemma getEntriesByTool_appendEntries this es n :
  getEntriesByTool (appendEntries this es) n
  = getEntriesByTool this n
    ++ List.filter (fun e => match Entry.tool_name e with
                             | Some m => String.eqb m n
                             | None => false
                             end) es.
Proof. unfold getEntriesByTool. simpl. apply List.filter_app. Qed.

Lemma recordedEntries_by_name this ctx m c n :
  List.filter (fun e => match Entry.tool_name e with
                        | Some m => String.eqb m n
                        | None => false
                        end) (recordedEntries this ctx m c)
  = if String.eqb m n then recordedEntries this ctx m c else [].
Proof.
  unfold recordedEntries. destruct c as [c|]; [|by destruct (String.eqb m n)].
  destruct (Js.truthy _); [|by destruct (String.eqb m n)]. cbv zeta.
  destruct (compliant _ && _); simpl; by destruct (String.eqb m n).
Qed.

(** X20: what is logged for a tool can be read back by its name.  After a
    run of the filter, [getEntriesByTool] returns for a name the entries it
    returned before followed by the entries of the tools of the batch that
    bear that name, in input order; entries of tools with other names never
    show up. *)
Theorem getEntriesByTool_after_filter `{ToolLike T} (tools : list T) ctx this n :
  exists this',
    (filterCompliantTools tools ctx (Some this)).2 = Some this'
    /\ getEntriesByTool this' n
       = getEntriesByTool this n
         ++ flat_map (fun t => recordedEntries this ctx (name t) (compliance t))
              (List.filter (fun t => String.eqb (name t) n) tools).
Proof.
  exists (appendEntries this
            (flat_map (fun t => recordedEntries this ctx (name t) (compliance t)) tools)).
  split; [by rewrite filterCompliantTools_spec|].
  rewrite getEntriesByTool_appendEntries. f_equal.
  induction tools as [|t tools IH]; [done|].
  cbn [flat_map List.filter]. rewrite List.filter_app, IH, recordedEntries_by_name.
  by destruct (String.eqb (name t) n).
Qed.

Lemma runMockServers_eq servers ctx lg :
  runMockServers servers ctx lg
  = (length (Filtered.compliant
               (filterCompliantTools (concat (map Server.tools servers)) ctx lg).1),
     length (Filtered.rejected
               (filterCompliantTools (concat (map Server.tools servers)) ctx lg).1),
     (filterCompliantTools (concat (map Server.tools servers)) ctx lg).2).
Proof. unfold runMockServers. by rewrite runMockServers_fold. Qed.

Lemma runRealMcpServerDemo_eq ctx tools lg :
  runRealMcpServerDemo ctx tools lg
  = (length (Filtered.compliant
               (filterCompliantTools (formatDiscoveredToolsForFiltering tools) ctx lg).1),
     length (Filtered.rejected
               (filterCompliantTools (formatDiscoveredToolsForFiltering tools) ctx lg).1),
     (filterCompliantTools (formatDiscoveredToolsForFiltering tools) ctx lg).2).
Proof.
  unfold runRealMcpServerDemo. cbv zeta.
  destruct (formatDiscoveredToolsForFiltering tools) as [|f fs] eqn:Hf.
  - simpl. by destruct lg.
  - cbn [length Nat.eqb].
    by rewrite (surjective_pairing (filterCompliantTools (f :: fs) ctx lg)).
Qed.

Lemma filter_all_false {A} (p : A -> bool) (xs : list A) :
  (forall x, p x = false) -> List.filter p xs = [].
Proof. intros Hp. induction xs as [|x xs IH]; simpl; [done|]. by rewrite Hp. Qed.

(** X21: the log a demo run leaves behind.  [runDemo] starts a fresh log for
    its context, appends the evaluation entries of the mock tools in server
    order and then those of the discovered tools that carry metadata, and
    ends with exactly one [agent_initialisation] entry, written last.  That
    entry reports as evaluated the six mock tools plus the discovered tools
    with metadata; the approved and rejected totals it reports are the bucket
    sizes, and the log never holds more [tool_approved] or [tool_rejected]
    entries than these totals.  All entries carry the session id and the
    summary of the demo's context. *)
Theorem runDemo_log ctx tools sessionId startedAt hash :
  let this0 := initAuditLogger ctx sessionId startedAt hash in
  let mock := concat (map Server.tools allThirdPartyServers) in
  let real := formatDiscoveredToolsForFiltering tools in
  let approved :=
    length (List.filter (fun t => compliant (evaluationOf ctx t)) mock)
    + length (List.filter (fun t => compliant (evaluationOf ctx t)) real) in
  let rejected :=
    length (List.filter (fun t => negb (compliant (evaluationOf ctx t))) mock)
    + length (List.filter (fun t => negb (compliant (evaluationOf ctx t))) real) in
  let evaluations :=
    flat_map (fun t => recordedEntries this0 ctx (name t) (compliance t)) mock
    ++ flat_map (fun t => recordedEntries this0 ctx (name t) (compliance t)) real in
  let final := runDemo ctx tools sessionId startedAt hash in
  final = logAgentInitialisation (appendEntries this0 evaluations) approved rejected
  /\ approved + rejected = 6 + length real
  /\ WellStamped final
  /\ (exists e, last (getEntries final) = Some e
                /\ Entry.event_type e = agent_initialisation
                /\ Entry.tool_name e = None
                /\ Entry.reasoning_trace e !! 4
                   = Some ("Tools evaluated: " +:+ pretty (6 + length real))
                /\ Entry.reasoning_trace e !! 5 = Some ("Tools approved: " +:+ pretty approved)
                /\ Entry.reasoning_trace e !! 6 = Some ("Tools rejected: " +:+ pretty rejected))
  /\ length (getEntriesByType final agent_initialisation) = 1
  /\ length (getEntriesByType final tool_approved) <= approved
  /\ length (getEntriesByType final tool_rejected) <= rejected.
Proof.
  intros this0 mock real approved rejected evaluations final.
  assert (Hsum : approved + rejected = 6 + length real).
  { unfold approved, rejected.
    pose proof (filter_partition_length (fun t => compliant (evaluationOf ctx t)) mock) as Hm.
    pose proof (filter_partition_length (fun t => compliant (evaluationOf ctx t)) real) as Hr.
    change (length mock) with 6 in Hm. lia. }
  assert (Hfinal : final
                   = logAgentInitialisation (appendEntries this0 evaluations) approved rejected).
  { unfold final, runDemo, runMockServerDemo. cbv zeta.
    rewrite runMockServers_eq. fold mock.
    rewrite filterCompliantTools_spec.
    cbn [fst snd Filtered.compliant Filtered.rejected fmap option_fmap option_map].
    rewrite runRealMcpServerDemo_eq. fold real.
    rewrite filterCompliantTools_spec.
    cbn [fst snd Filtered.compliant Filtered.rejected fmap option_fmap option_map default].
    rewrite !length_map, appendEntries_app. reflexivity. }
  assert (Hcount : forall ty,
            length (List.filter (fun e => bool_decide (Entry.event_type e = ty)) evaluations)
            = length (List.filter (logsEvent ctx ty) mock)
              + length (List.filter (logsEvent ctx ty) real)).
  { intros ty. unfold evaluations.
    by rewrite List.filter_app, length_app, !flat_map_recorded_count. }
  assert (Hby : forall ty,
            length (getEntriesByType final ty)
            = length (List.filter (logsEvent ctx ty) mock)
              + length (List.filter (logsEvent ctx ty) real)
              + (if bool_decide (agent_initialisation = ty) then 1 else 0)).
  { intros ty. rewrite Hfinal. unfold logAgentInitialisation, pushEntry, getEntriesByType.
    cbn [log AuditLog.entries appendEntries this0 initAuditLogger app].
    rewrite !List.filter_app, !length_app, Hcount. cbn [List.filter Entry.event_type createEntry].
    by destruct (bool_decide (agent_initialisation = ty)). }
  split; [exact Hfinal|]. split; [exact Hsum|]. split; [|split; [|split; [|split]]].
  - rewrite Hfinal. unfold logAgentInitialisation.
    apply (WellStamped_appendEntries (appendEntries this0 evaluations) [_]).
    + apply WellStamped_appendEntries; [constructor|].
      unfold evaluations. apply Forall_app. split; apply Forall_forall; intros e He;
        apply list_elem_of_In, in_flat_map in He as (t & _ & He);
        pose proof (StampedBy_recordedEntries this0 ctx (name t) (compliance t)) as Hs;
        rewrite Forall_forall in Hs; by apply Hs, list_elem_of_In.
    + constructor; [apply StampedBy_createEntry | constructor].
  - rewrite Hfinal. unfold logAgentInitialisation, pushEntry, getEntries.
    cbn [log AuditLog.entries]. rewrite last_snoc. eexists. split; [reflexivity|].
    cbn [Entry.event_type Entry.tool_name Entry.reasoning_trace createEntry].
    split; [done|]. split; [done|]. split; [|done].
    cbn [lookup list_lookup]. by rewrite Hsum.
  - rewrite Hby. cbn [logsEvent]. unfold logsEvent.
    rewrite !filter_all_false by (intros; apply andb_false_r). reflexivity.
  - rewrite Hby. rewrite bool_decide_eq_false_2 by discriminate.
    unfold approved. rewrite Nat.add_0_r. apply Nat.add_le_mono; apply filter_length_le;
      intros t; unfold logsEvent; by intros [_ ?]%andb_true_iff.
  - rewrite Hby. rewrite bool_decide_eq_false_2 by discriminate.
    unfold rejected. rewrite Nat.add_0_r. apply Nat.add_le_mono; apply filter_length_le;
      intros t; unfold logsEvent; by intros [_ ?]%andb_true_iff.
Qed.

(** ** Relaxing the context *)

(** X22: relaxing the context never turns an accepted tool into a rejected
    one.  If [ctx'] is at most as demanding as [ctx] and a tool, with or
    without metadata, is compliant under [ctx], it is compliant under
    [ctx']. *)
Theorem relaxing_context_keeps_acceptance toolName c ctx ctx' lg lg' :
  Relaxes ctx ctx' ->
  compliant (checkCompliance toolName c ctx lg).1 = true ->
  compliant (checkCompliance toolName c ctx' lg').1 = true.
Proof.
  intros (Hreq & Hpro & Hmax & Hconf & Hcert & Hsec & Hgdpr & Hany & Hpol).
  destruct c as [c|].
  - destruct (Js.truthy (Pec.pec_version c)) eqn:Hv.
    + apply truthy_nonempty in Hv.
      rewrite (compliant_iff_noReasons c ctx toolName lg Hv),
        (compliant_iff_noReasons c ctx' toolName lg' Hv).
      rewrite !noReasons_location, !noReasons_risk, !noReasons_conformity, !noReasons_gdpr,
        !noReasons_sector, !noReasons_certification.
      intros (H1 & H2 & H3 & H4 & H5 & H6).
      split; [|split; [|split; [|split; [|split]]]].
      * intros l Hl. specialize (H1 l Hl). revert H1. rewrite !isLocationAllowed_spec.
        intros [Hin Hout]. split.
        -- by apply (inExpansions_subseteq _ _ _ Hreq).
        -- intros Hin'. apply Hout. by apply (inExpansions_subseteq _ _ _ Hpro).
      * lia.
      * destruct H3 as [H3 | H3]; [by left | right; auto].
      * intros g Hg. destruct Hgdpr as [Hsame | Hnone]; [|congruence].
        apply H4. by rewrite <- Hsame.
      * intros s Hs. apply H5. by apply Hsec.
      * destruct Hany as [Hsame | Hnil]; [|by left].
        rewrite Hsame. destruct H6 as [H6 | [H6 | H6]]; [by left | by right; left |].
        right. right. auto.
    + rewrite !checkCompliance_result, Hv.
      destruct (Legacy.policy (Ctx.legacy_servers ctx')) eqn:Hp'; try done.
      rewrite (Hpol eq_refl). done.
  - rewrite !checkCompliance_result.
    destruct (Legacy.policy (Ctx.legacy_servers ctx')) eqn:Hp'; try done.
    rewrite (Hpol eq_refl). done.
Qed.

(** X22, witness: [text_formatter] is accepted under [euDeploymentContext],
    hence under the relaxed context. *)
Lemma relaxing_context_keeps_acceptance_witness :
  Relaxes euDeploymentContext relaxedEuContext
  /\ compliant (checkCompliance "text_formatter" (Some complianceMetadataEuCompliant2)
                  euDeploymentContext None).1 = true
  /\ compliant (checkCompliance "text_formatter" (Some complianceMetadataEuCompliant2)
                  relaxedEuContext None).1 = true.
Proof.
  assert (Hrel : Relaxes euDeploymentContext relaxedEuContext).
  { unfold Relaxes. simpl.
    split; [list_incl|]. split; [list_incl|]. split; [lia|].
    split; [discriminate|]. split; [discriminate|]. split; [list_incl|].
    split; [by left|]. split; [by left|]. done. }
  assert (Hacc : compliant (checkCompliance "text_formatter"
                              (Some complianceMetadataEuCompliant2)
                              euDeploymentContext None).1 = true)
    by (vm_compute; reflexivity).
  split; [exact Hrel|]. split; [exact Hacc|].
  exact (relaxing_context_keeps_acceptance "text_formatter"
           (Some complianceMetadataEuCompliant2) euDeploymentContext relaxedEuContext
           None None Hrel Hacc).
Defined.

(** ** The documented demo results *)

(** X23: the filter reproduces the results table of the repository's
    documentation.  For the six mock servers and the four tools of the MCP
    server, under the EU general and the US healthcare context, the verdicts
    are those of the table in [AGENTS.md]; the mock-server demo counts three
    compliant and three rejected tools under the first context and one and
    five under the second. *)
Theorem demo_results_table :
  map (fun t => (MockTool.name t,
                 compliant (evaluationOf euDeploymentContext t),
                 compliant (evaluationOf usHealthcareContext t)))
      (concat (map Server.tools allThirdPartyServers))
  = [ ("acme_translate", true, false);
      ("globalpay_fraud_check", false, false);
      ("swissvault_store", true, false);
      ("tokyoai_ocr", true, false);
      ("beijingcloud_compute", false, false);
      ("medixus_analyse", false, true) ]
  /\ map (fun p => (p.1,
                    compliant (checkCompliance p.1 (Some p.2) euDeploymentContext None).1,
                    compliant (checkCompliance p.1 (Some p.2) usHealthcareContext None).1))
         allTools
     = [ ("document_summariser", true, false);
         ("text_formatter", true, false);
         ("data_exporter", false, false);
         ("healthcare_analyser", false, true) ]
  /\ runMockServerDemo euDeploymentContext None = (3, 3, None)
  /\ runMockServerDemo usHealthcareContext None = (1, 5, None).
Proof. repeat split; vm_compute; reflexivity. Qed.

(** ** Entries and their event kind *)

Lemma EntryCoherent_recordedEntries this ctx n c :
  Forall (fun e => EntryCoherent e
                   /\ Entry.tool_name e = Some n
                   /\ Entry.compliance_metadata e = c)
         (recordedEntries this ctx n c).
Proof.
  unfold recordedEntries. destruct c as [c|]; [|constructor].
  destruct (Js.truthy _); [|constructor]. cbv zeta.
  pose proof (Consistent_runChecks c ctx freshResult Consistent_fresh) as Hcons.
  unfold Consistent in Hcons.
  destruct (compliant (runChecks c ctx freshResult)) eqn:Hc.
  - symmetry in Hcons. apply bool_decide_eq_true in Hcons.
    constructor.
    + unfold EntryCoherent. simpl. rewrite Hc, Hcons. done.
    + cbn [andb]. destruct (0 <? length _)%nat eqn:Hw; [|constructor].
      constructor; [|constructor].
      unfold EntryCoherent. simpl. rewrite length_map.
      repeat split; try done.
      intros Hnil. rewrite Hnil in Hw. discriminate Hw.
  - symmetry in Hcons. apply bool_decide_eq_false in Hcons.
    constructor; [|constructor].
    unfold EntryCoherent. simpl. rewrite Hc. done.
Qed.

(** X24: the entries an evaluation writes agree with their event kind.  In
    the entries a run of the filter appends, a [tool_approved] entry stores a
    compliant result without reasons, a [tool_rejected] entry a non-compliant
    result with at least one reason, and a [compliance_warning] entry a
    compliant result with at least one warning and a trace of one line per
    warning after the heading; no other kind of entry is written. *)
Theorem filterCompliantTools_entries_coherent `{ToolLike T} (tools : list T) ctx this :
  exists es,
    (filterCompliantTools tools ctx (Some this)).2 = Some (appendEntries this es)
    /\ Forall (fun e => EntryCoherent e
                        /\ exists t, t ∈ tools
                                     /\ Entry.tool_name e = Some (name t)
                                     /\ Entry.compliance_metadata e = compliance t)
              es.
Proof.
  exists (flat_map (fun t => recordedEntries this ctx (name t) (compliance t)) tools).
  split; [by rewrite filterCompliantTools_spec|].
  apply Forall_forall. intros e He.
  apply list_elem_of_In, in_flat_map in He as (t & Ht & He).
  pose proof (EntryCoherent_recordedEntries this ctx (name t) (compliance t)) as Hco.
  rewrite Forall_forall in Hco.
  destruct (Hco e) as (H1 & H2 & H3); [by apply list_elem_of_In|].
  split; [done|]. exists t. by rewrite <- list_elem_of_In in Ht.
Qed.

(** ** The risk threshold and the transfer mechanisms, in the words of the
       specification *)

Lemma rank_RISK_LEVELS c : RISK_LEVELS c = (Z.of_nat (rankOf c) + 1)%Z.
Proof. by destruct c. Qed.

Lemma levelName_classification_string c : classification_string c = levelName c.
Proof. by destruct c. Qed.

Lemma riskMessage_text tool maximum :
  riskMessage tool maximum
  = "Tool risk classification '" +:+ levelName tool
    +:+ "' exceeds maximum permitted '" +:+ levelName maximum +:+ "'".
Proof. unfold riskMessage. by rewrite !levelName_classification_string. Qed.

Lemma riskText_rule x y :
  ruleOf ("Tool risk classification '" +:+ levelName x
          +:+ "' exceeds maximum permitted '" +:+ levelName y +:+ "'") = Some RiskRule.
Proof. by destruct x, y. Qed.

Lemma riskCheck_below c ctx r :
  rankOf (AiAct.classification (Pec.ai_act_status c))
  <= rankOf (Risk.maximum_permitted (Ctx.risk_classification ctx)) ->
  riskCheck c ctx r = r.
Proof.
  intros Hle. unfold riskCheck. cbv zeta. rewrite Z.gtb_ltb, !rank_RISK_LEVELS.
  destruct (_ <? _)%Z eqn:E; [|done]. apply Z.ltb_lt in E. lia.
Qed.

Lemma riskCheck_above c ctx r :
  rankOf (Risk.maximum_permitted (Ctx.risk_classification ctx))
  < rankOf (AiAct.classification (Pec.ai_act_status c)) ->
  riskCheck c ctx r
  = {| compliant := false;
       reasons := reasons r
                  ++ ["Tool risk classification '"
                      +:+ levelName (AiAct.classification (Pec.ai_act_status c))
                      +:+ "' exceeds maximum permitted '"
                      +:+ levelName (Risk.maximum_permitted (Ctx.risk_classification ctx))
                      +:+ "'"];
       warnings := warnings r |}.
Proof.
  intros Hlt. unfold riskCheck. cbv zeta. rewrite Z.gtb_ltb, !rank_RISK_LEVELS.
  destruct (_ <? _)%Z eqn:E.
  - by rewrite riskMessage_text.
  - apply Z.ltb_ge in E. lia.
Qed.

Lemma reasonsOfRule_checkCompliance toolName c ctx lg k :
  reasonsOfRule k (reasons (checkCompliance toolName (Some c) ctx lg).1)
  = if Js.truthy (Pec.pec_version c) then ownReasons c ctx k else [].
Proof.
  rewrite checkCompliance_result. destruct (Js.truthy _); [apply reasonsOfRule_runChecks|].
  by destruct (Legacy.policy _).
Qed.

(** C6, as the code has it.  The levels are ordered minimal < limited < gpai
    < high < gpai_systemic < unacceptable.  For [a] strictly below [b] and a
    context whose maximum is [b]: a tool classified [a] or [b] passes the risk
    check untouched and no risk-threshold reason appears among the reasons of
    [checkCompliance]; a tool classified strictly above [b] gets from the risk
    check the fatal reason naming its own level and [b], and for metadata
    with a non-empty version string this is the one risk-threshold reason of
    [checkCompliance], whose result is not compliant. *)
Theorem riskCheck_monotone a b c ctx :
  rankOf a < rankOf b ->
  Risk.maximum_permitted (Ctx.risk_classification ctx) = b ->
  let tool := AiAct.classification (Pec.ai_act_status c) in
  let text := "Tool risk classification '" +:+ levelName tool
              +:+ "' exceeds maximum permitted '" +:+ levelName b +:+ "'" in
  (tool = a \/ tool = b ->
     (forall r, riskCheck c ctx r = r)
     /\ (forall toolName lg,
           let rs := reasons (checkCompliance toolName (Some c) ctx lg).1 in
           reasonsOfRule RiskRule rs = []
           /\ forall x y, ("Tool risk classification '" +:+ levelName x
                           +:+ "' exceeds maximum permitted '" +:+ levelName y +:+ "'")
                            ∉ rs))
  /\ (rankOf b < rankOf tool ->
      (forall r, reasons (riskCheck c ctx r) = reasons r ++ [text]
                 /\ compliant (riskCheck c ctx r) = false
                 /\ warnings (riskCheck c ctx r) = warnings r)
      /\ (forall toolName lg,
            Pec.pec_version c <> "" ->
            let res := (checkCompliance toolName (Some c) ctx lg).1 in
            reasonsOfRule RiskRule (reasons res) = [text]
            /\ text ∈ reasons res
            /\ compliant res = false)).
Proof.
  intros Hab Hmax tool text. split.
  - intros Htool.
    assert (Hle : rankOf tool <= rankOf (Risk.maximum_permitted (Ctx.risk_classification ctx))).
    { rewrite Hmax. destruct Htool as [-> | ->]; lia. }
    split; [intros r; by apply riskCheck_below|].
    intros toolName lg rs.
    assert (Hnone : reasonsOfRule RiskRule rs = []).
    { unfold rs. rewrite reasonsOfRule_checkCompliance.
      destruct (Js.truthy _); [|done]. cbn [ownReasons]. by rewrite riskCheck_below. }
    split; [exact Hnone|].
    intros x y Hin.
    assert (Hin' : ("Tool risk classification '" +:+ levelName x
                    +:+ "' exceeds maximum permitted '" +:+ levelName y +:+ "'")
                     ∈ reasonsOfRule RiskRule rs).
    { apply elem_of_reasonsOfRule. split; [done | apply riskText_rule]. }
    rewrite Hnone in Hin'. by apply elem_of_nil in Hin'.
  - intros Hgt.
    assert (Hlt : rankOf (Risk.maximum_permitted (Ctx.risk_classification ctx))
                  < rankOf (AiAct.classification (Pec.ai_act_status c)))
      by (by rewrite Hmax).
    split.
    + intros r. rewrite (riskCheck_above c ctx r Hlt), Hmax. done.
    + intros toolName lg Hv res.
      assert (Hone : reasonsOfRule RiskRule (reasons res) = [text]).
      { unfold res. rewrite reasonsOfRule_checkCompliance.
        apply truthy_nonempty in Hv. rewrite Hv. cbn [ownReasons].
        rewrite (riskCheck_above c ctx freshResult Hlt), Hmax. done. }
      assert (Hin : text ∈ reasons res).
      { assert (Hin' : text ∈ reasonsOfRule RiskRule (reasons res))
          by (rewrite Hone; apply list_elem_of_here).
        by apply elem_of_reasonsOfRule in Hin' as [Hin' _]. }
      split; [exact Hone|]. split; [exact Hin|].
      unfold res. rewrite (checkCompliance_Consistent toolName (Some c) ctx lg).
      apply bool_decide_eq_false. intros Hnil. fold res in Hnil.
      rewrite Hnil in Hin. by apply elem_of_nil in Hin.
Qed.

(** C6, witness: under [euDeploymentContext] (maximum [limited]) the [high]
    tool of the repository gets the risk reason and is rejected; the
    [minimal] tool gets none. *)
Lemma riskCheck_monotone_witness :
  rankOf minimal < rankOf limited
  /\ rankOf limited < rankOf high
  /\ Pec.pec_version complianceMetadataNonCompliant <> ""
  /\ reasons (riskCheck complianceMetadataNonCompliant euDeploymentContext freshResult)
     = ["Tool risk classification 'high' exceeds maximum permitted 'limited'"]
  /\ reasonsOfRule RiskRule
       (reasons (checkCompliance "data_exporter" (Some complianceMetadataNonCompliant)
                   euDeploymentContext None).1)
     = ["Tool risk classification 'high' exceeds maximum permitted 'limited'"]
  /\ compliant (checkCompliance "data_exporter" (Some complianceMetadataNonCompliant)
                  euDeploymentContext None).1 = false
  /\ riskCheck complianceMetadataEuCompliant2 euDeploymentContext freshResult = freshResult
  /\ reasonsOfRule RiskRule
       (reasons (checkCompliance "text_formatter" (Some complianceMetadataEuCompliant2)
                   euDeploymentContext None).1) = [].
Proof.
  assert (Hlt : rankOf minimal < rankOf limited) by (vm_compute; lia).
  assert (Hgt : rankOf limited < rankOf high) by (vm_compute; lia).
  assert (Hv : Pec.pec_version complianceMetadataNonCompliant <> "") by discriminate.
  destruct (riskCheck_monotone minimal limited complianceMetadataNonCompliant
              euDeploymentContext Hlt eq_refl) as [_ Habove].
  destruct (Habove Hgt) as [Hcheck Hwhole].
  destruct (Hcheck freshResult) as (Hr & _ & _).
  destruct (Hwhole "data_exporter" None Hv) as (Hone & _ & Hc).
  destruct (riskCheck_monotone minimal limited complianceMetadataEuCompliant2
              euDeploymentContext Hlt eq_refl) as [Hbelow _].
  destruct (Hbelow (or_introl eq_refl)) as [Hsame Hnone].
  destruct (Hnone "text_formatter" None) as [Hnil _].
  split; [exact Hlt|]. split; [exact Hgt|]. split; [exact Hv|].
  split; [exact Hr|]. split; [exact Hone|]. split; [exact Hc|].
  split; [apply Hsame | exact Hnil].
Defined.

(** C6 as stated fails on a record whose version string is empty: under
    [usHealthcareContext] (maximum [high], policy [warn]) the tool classified
    [unacceptable] gets no risk-threshold reason. *)
Lemma riskCheck_skipped_for_empty_version :
  ~ (forall a b c ctx toolName lg,
        rankOf a < rankOf b ->
        Risk.maximum_permitted (Ctx.risk_classification ctx) = b ->
        rankOf b < rankOf (AiAct.classification (Pec.ai_act_status c)) ->
        ("Tool risk classification '"
         +:+ levelName (AiAct.classification (Pec.ai_act_status c))
         +:+ "' exceeds maximum permitted '" +:+ levelName b +:+ "'")
          ∈ reasons (checkCompliance toolName (Some c) ctx lg).1).
Proof.
  intros H.
  specialize (H minimal high (riskyBiometricTool "") usHealthcareContext "scanner" None).
  assert (Hin : "Tool risk classification 'unacceptable' exceeds maximum permitted 'high'"
                  ∈ reasons (checkCompliance "scanner" (Some (riskyBiometricTool ""))
                               usHealthcareContext None).1).
  { apply H; [vm_compute; lia | reflexivity | vm_compute; lia]. }
  vm_compute in Hin. by apply elem_of_nil in Hin.
Qed.

(** C8: the transfer-mechanism check is part of [gdprCheck], which does
    nothing when the context declares no [gdpr_requirements].  With a
    non-empty required list it leaves the result untouched when a mechanism
    of the tool is among the required ones; otherwise it sets [compliant] to
    false and appends one reason, keeping the warnings: the text for a tool
    without any mechanism when the tool declares none, the text listing the
    tool's mechanisms when it declares some, and the two texts differ.  With
    an empty or absent required list it pushes nothing. *)
Theorem transferCheck_spec c ctx r :
  (Ctx.gdpr_requirements ctx = None -> gdprCheck c ctx r = r)
  /\ (forall g, Ctx.gdpr_requirements ctx = Some g ->
        gdprCheck c ctx r = specialCatCheck c g (transferCheck c g r))
  /\ (forall g,
        let toolMechanisms := Gdpr.transfer_mechanisms (Pec.gdpr c) in
        match GdprReq.transfer_mechanisms_required g with
        | None | Some [] => transferCheck c g r = r
        | Some required =>
          ((exists m, m ∈ toolMechanisms /\ m ∈ required) -> transferCheck c g r = r)
          /\ (~ (exists m, m ∈ toolMechanisms /\ m ∈ required) ->
              compliant (transferCheck c g r) = false
              /\ warnings (transferCheck c g r) = warnings r
              /\ reasons (transferCheck c g r)
                 = reasons r
                   ++ [match toolMechanisms with
                       | [] =>
                         "Tool declares no GDPR transfer mechanisms but context requires one of: "
                         +:+ Js.join ", " required
                       | _ =>
                         "Tool transfer mechanisms [" +:+ Js.join ", " toolMechanisms
                         +:+ "] do not include any required mechanism: "
                         +:+ Js.join ", " required
                       end])
          /\ ("Tool declares no GDPR transfer mechanisms but context requires one of: "
              +:+ Js.join ", " required)
             <> ("Tool transfer mechanisms [" +:+ Js.join ", " toolMechanisms
                 +:+ "] do not include any required mechanism: " +:+ Js.join ", " required)
        end).
Proof.
  split; [|split].
  - intros Hnone. unfold gdprCheck. by rewrite Hnone.
  - intros g Hsome. unfold gdprCheck. by rewrite Hsome.
  - intros g toolMechanisms. rewrite transferCheck_eq. fold toolMechanisms.
    destruct (GdprReq.transfer_mechanisms_required g) as [[|q qs]|]; try done.
    split; [|split].
    + intros Hov. apply overlaps_spec in Hov. by rewrite Hov.
    + intros Hno.
      assert (Hov : overlaps toolMechanisms (q :: qs) = false).
      { destruct (overlaps toolMechanisms (q :: qs)) eqn:E; [|done].
        apply overlaps_spec in E. contradiction. }
      rewrite Hov. by destruct toolMechanisms.
    + simpl. discriminate.
Qed.

(** C8, witness: under the required list of [euDeploymentContext] the
    repository's tool without mechanisms gets the specific text, a tool whose
    only mechanism is not required gets the other text, and under a context
    without [gdpr_requirements] nothing is pushed. *)
Lemma transferCheck_spec_witness :
  Ctx.gdpr_requirements euOnlyContext = None
  /\ gdprCheck complianceMetadataNonCompliant euOnlyContext freshResult = freshResult
  /\ (compliant (transferCheck complianceMetadataNonCompliant
                   (GdprReq.mk (Some ["ADEQUACY"; "SCCS_2021"; "BCR"]) (Some false))
                   freshResult) = false
      /\ warnings (transferCheck complianceMetadataNonCompliant
                     (GdprReq.mk (Some ["ADEQUACY"; "SCCS_2021"; "BCR"]) (Some false))
                     freshResult) = []
      /\ reasons (transferCheck complianceMetadataNonCompliant
                    (GdprReq.mk (Some ["ADEQUACY"; "SCCS_2021"; "BCR"]) (Some false))
                    freshResult)
         = ["Tool declares no GDPR transfer mechanisms but context requires one of: ADEQUACY, SCCS_2021, BCR"])
  /\ reasons (transferCheck globalPayCompliance
                (GdprReq.mk (Some ["ADEQUACY"; "BCR"]) (Some false)) freshResult)
     = ["Tool transfer mechanisms [SCCS_2021] do not include any required mechanism: ADEQUACY, BCR"]
  /\ transferCheck globalPayCompliance
       (GdprReq.mk (Some ["ADEQUACY"; "SCCS_2021"; "BCR"]) (Some false)) freshResult
     = freshResult.
Proof.
  split; [reflexivity|]. split; [|split; [|split]].
  - apply (transferCheck_spec complianceMetadataNonCompliant euOnlyContext freshResult).
    reflexivity.
  - destruct (transferCheck_spec complianceMetadataNonCompliant euOnlyContext freshResult)
      as (_ & _ & H).
    specialize (H (GdprReq.mk (Some ["ADEQUACY"; "SCCS_2021"; "BCR"]) (Some false))).
    cbv zeta in H. cbn [GdprReq.transfer_mechanisms_required] in H.
    destruct H as (_ & H & _). apply H.
    intros (m & Hm & _). by apply elem_of_nil in Hm.
  - destruct (transferCheck_spec globalPayCompliance euOnlyContext freshResult)
      as (_ & _ & H).
    specialize (H (GdprReq.mk (Some ["ADEQUACY"; "BCR"]) (Some false))).
    cbv zeta in H. cbn [GdprReq.transfer_mechanisms_required] in H.
    destruct H as (_ & H & _).
    destruct H as (_ & _ & Hr); [|exact Hr].
    intros (m & Hm & Hreq). apply list_elem_of_singleton in Hm as ->.
    apply list_elem_of_In in Hreq. simpl in Hreq.
    destruct Hreq as [Heq | [Heq | []]]; discriminate Heq.
  - destruct (transferCheck_spec globalPayCompliance euOnlyContext freshResult)
      as (_ & _ & H).
    specialize (H (GdprReq.mk (Some ["ADEQUACY"; "SCCS_2021"; "BCR"]) (Some false))).
    cbv zeta in H. cbn [GdprReq.transfer_mechanisms_required] in H.
    destruct H as (H & _). apply H.
    exists "SCCS_2021". split; [apply list_elem_of_here|].
    apply list_elem_of_further, list_elem_of_here.
Defined.
